(** * Contact-centre pipeline: upload, transcription, analysis, coaching

    A shallow embedding of the backend's controllers and services
    (Express handlers over Mongoose models) and the properties of its
    four-stage pipeline.

    Conventions of the embedding:
    - JavaScript numbers are exact rationals ([Q]) or integers ([Z]); rounding
      and the special values of IEEE doubles are not represented.
    - Strings are byte strings; [toLowerCase] acts on the ASCII letters.
    - An [async] handler is a function from the world (document store, upload
      directory, log of store operations) to a response and a new world; one
      request runs to completion before the next one starts.
    - The third-party collaborators (speech-to-text and language-model
      providers, clock, id generators) are inputs of the handlers. *)

From Stdlib Require Import String Ascii List ZArith QArith Qminmax Bool Lia.
From Stdlib Require Import DecimalString DecimalZ Qround Permutation Lqa.
Import ListNotations.
Local Open Scope string_scope.
Local Open Scope Z_scope.

(** ** JavaScript values and built-ins *)

Set Warnings "-register-all".

Module JS.

(** A value as [JSON.parse] produces it, plus [undefined] for an absent
    property. An object lists its own properties, the first occurrence of a
    key being its value. *)
Inductive value : Type :=
| JUndefined
| JNull
| JBool (b : bool)
| JNum (q : Q)
| JStr (s : string)
| JArr (items : list value)
| JObj (fields : list (string * value)).

(** What [throw] carries: [name], [message] and [code] are what is read. *)
Record exn : Type := mkExn {
  name : string;
  message : string;
  code : option string
}.

Definition Error (msg : string) : exn := mkExn "Error" msg None.
Definition TypeError (msg : string) : exn := mkExn "TypeError" msg None.

(** ToBoolean: the test behind [!x], [x || y] and [x ? a : b]. *)
Definition truthy (v : value) : bool :=
  match v with
  | JUndefined | JNull => false
  | JBool b => b
  | JNum q => negb (Qnum q =? 0)
  | JStr s => negb (s =? "")%string
  | JArr _ | JObj _ => true
  end.

Fixpoint lookup (k : string) (fields : list (string * value)) : value :=
  match fields with
  | [] => JUndefined
  | (k', v) :: rest => if (k =? k')%string then v else lookup k rest
  end.

(** [v.k]: reading a property of [undefined] or [null] throws a TypeError,
    a missing property (also on a primitive or an array) is [undefined]. *)
Definition get (v : value) (k : string) : exn + value :=
  match v with
  | JUndefined | JNull =>
      inl (TypeError ("Cannot read properties of undefined (reading '" ++ k ++ "')"))
  | JObj fields => inr (lookup k fields)
  | _ => inr JUndefined
  end.

(** [v === undefined] *)
Definition isUndefined (v : value) : bool :=
  match v with JUndefined => true | _ => false end.

(** [v != null]: neither [undefined] nor [null]. *)
Definition present (v : value) : bool :=
  match v with JUndefined | JNull => false | _ => true end.

(** [x || d] on an optional number and on an optional string. *)
Definition num_or (x : option Q) (d : Q) : Q :=
  match x with
  | Some q => if Qnum q =? 0 then d else q
  | None => d
  end.

Definition str_or (x : option string) (d : string) : string :=
  match x with
  | Some s => if (s =? "")%string then d else s
  | None => d
  end.

(** [Math.min(a, b)] and [Math.ceil(a / b)] for integers [a] and [b <> 0]. *)
Definition Math_min (a b : Q) : Q := if Qle_bool a b then a else b.

Definition ceil_div (a b : Z) : Z := - ((- a) / b).

(** [parseInt(x) || d]: [p] is the result of [parseInt], [None] for NaN. *)
Definition int_or (p : option Z) (d : Z) : Z :=
  match p with
  | Some n => if n =? 0 then d else n
  | None => d
  end.

(** [Math.round(a / b)] for integers [a >= 0] and [b > 0]. *)
Definition round_div (a b : Z) : Z := (2 * a + b) / (2 * b).

(** The decimal digits of an integer, as a template literal prints it. *)
Definition showZ (z : Z) : string := NilZero.string_of_int (Z.to_int z).

(** [s.replace('.', '')]: the first dot is taken out. *)
Fixpoint remove_first_dot (s : string) : string :=
  match s with
  | EmptyString => EmptyString
  | String c rest =>
      if Ascii.eqb c "." then rest else String c (remove_first_dot rest)
  end.

(** [Array.prototype.includes] on strings. *)
Definition includes (l : list string) (s : string) : bool :=
  existsb (String.eqb s) l.

Definition lower (c : ascii) : ascii :=
  let n := nat_of_ascii c in
  if ((65 <=? n)%nat && (n <=? 90)%nat)%bool then ascii_of_nat (n + 32) else c.

Fixpoint toLowerCase (s : string) : string :=
  match s with
  | EmptyString => EmptyString
  | String c rest => String (lower c) (toLowerCase rest)
  end.

Definition isHexDigit (c : ascii) : bool :=
  let n := nat_of_ascii c in
  (((48 <=? n)%nat && (n <=? 57)%nat)
   || ((65 <=? n)%nat && (n <=? 70)%nat)
   || ((97 <=? n)%nat && (n <=? 102)%nat))%bool.

Fixpoint all_chars (p : ascii -> bool) (s : string) : bool :=
  match s with
  | EmptyString => true
  | String c rest => (p c && all_chars p rest)%bool
  end.

(** [s.match(/^[0-9a-fA-F]{24}$/)] as a test: without the [m] flag [$]
    matches at the very end of the input only. *)
Definition matchesObjectId (s : string) : bool :=
  ((String.length s =? 24)%nat && all_chars isHexDigit s)%bool.

(** *** [path.extname] (POSIX flavour of Node's [path] module) *)

Record ext_state : Type := mkExt {
  startDot : Z;
  startPart : Z;
  end_ : Z;
  matchedSlash : bool;
  preDotState : Z;
  stopped : bool
}.

(** One turn of the backwards scan, at index [i] holding character [c]. *)
Definition ext_step (st : ext_state) (i : Z) (c : ascii) : ext_state :=
  if stopped st then st
  else if Ascii.eqb c "/" then
    if negb (matchedSlash st)
    then mkExt (startDot st) (i + 1) (end_ st) (matchedSlash st)
               (preDotState st) true
    else st
  else
    let st1 :=
      if end_ st =? -1
      then mkExt (startDot st) (startPart st) (i + 1) false (preDotState st) false
      else st in
    if Ascii.eqb c "."
    then
      if startDot st1 =? -1
      then mkExt i (startPart st1) (end_ st1) (matchedSlash st1)
                 (preDotState st1) false
      else if negb (preDotState st1 =? 1)
      then mkExt (startDot st1) (startPart st1) (end_ st1) (matchedSlash st1)
                 1 false
      else st1
    else if negb (startDot st1 =? -1)
    then mkExt (startDot st1) (startPart st1) (end_ st1) (matchedSlash st1)
               (-1) false
    else st1.

(** The scan over the characters in reverse order, [i] being the index of
    the head of [rev_chars]. *)
Fixpoint ext_scan (rev_chars : list ascii) (i : Z) (st : ext_state) : ext_state :=
  match rev_chars with
  | [] => st
  | c :: rest => ext_scan rest (i - 1) (ext_step st i c)
  end.

Definition extname (p : string) : string :=
  let chars := list_ascii_of_string p in
  let st := ext_scan (rev chars) (Z.of_nat (List.length chars) - 1)
                     (mkExt (-1) 0 (-1) true 0 false) in
  if ((startDot st =? -1)
      || (end_ st =? -1)
      || (preDotState st =? 0)
      || ((preDotState st =? 1)
          && (startDot st =? end_ st - 1)
          && (startDot st =? startPart st + 1)))%bool
  then ""
  else substring (Z.to_nat (startDot st))
                 (Z.to_nat (end_ st - startDot st)) p.

(** *** What [parseFileSize] and the statistics need *)

Definition isDigit (c : ascii) : bool :=
  let n := nat_of_ascii c in ((48 <=? n)%nat && (n <=? 57)%nat)%bool.

Definition isUpper (c : ascii) : bool :=
  let n := nat_of_ascii c in ((65 <=? n)%nat && (n <=? 90)%nat)%bool.

(** The longest prefix of [s] whose characters satisfy [p], and the rest:
    what a greedy [(p+)] takes when nothing after it can match a [p]. *)
Fixpoint span (p : ascii -> bool) (s : string) : string * string :=
  match s with
  | EmptyString => (EmptyString, EmptyString)
  | String c rest =>
      if p c then let (taken, left) := span p rest in (String c taken, left)
      else (EmptyString, s)
  end.

(** [parseInt(s)] for a non-empty string of decimal digits: the number the
    digits write, leading zeros allowed. *)
Definition parseInt_digits (s : string) : Z :=
  match NilEmpty.uint_of_string s with
  | Some d => Z.of_uint d
  | None => 0
  end.

(** [Math.round(x)]: the nearest integer, a half going up. *)
Definition Math_round (x : Q) : Z := Qfloor (x + (1 # 2)).

(** The Number nearest to the integer [z >= 0], a tie going to the even
    significand of 53 bits: [None] is [Infinity]. Below 2^53 every integer
    is a Number. *)
Definition toDouble (z : Z) : option Z :=
  if z <? 2 ^ 53 then Some z
  else
    let e := Z.log2 z - 52 in
    let q := Z.shiftr z e in
    let r := z - Z.shiftl q e in
    let half := Z.shiftl 1 (e - 1) in
    let q' := if ((half <? r) || ((r =? half) && Z.odd q))%bool then q + 1 else q in
    let v := Z.shiftl q' e in
    if 2 ^ 1024 <=? v then None else Some v.

(** [a * b] on two Numbers that are non-negative integers: the product,
    rounded; [Infinity] times a positive Number is [Infinity]. *)
Definition times (a : option Z) (b : Z) : option Z :=
  match a with
  | Some x => toDouble (x * b)
  | None => None
  end.

(** *** [path.join] (POSIX flavour) *)

(** [p.split(sep)]: the components of [p] between the occurrences of
    [sep]. *)
Fixpoint split_on (sep : ascii) (p : string) : list string :=
  match p with
  | EmptyString => [EmptyString]
  | String c rest =>
      if Ascii.eqb c sep then EmptyString :: split_on sep rest
      else match split_on sep rest with
           | first :: others => String c first :: others
           | [] => [String c EmptyString]
           end
  end.

(** One component more for [normalizeString], [res] holding the components
    kept so far, the last one first: an empty component and [.] are
    dropped, [..] takes the last component away, or is kept when there is
    none to take and the path is relative. *)
Definition normalize_step (allowAboveRoot : bool) (res : list string)
    (component : string) : list string :=
  if ((component =? "") || (component =? "."))%string then res
  else if (component =? "..")%string then
    match res with
    | last :: before =>
        if (last =? "..")%string
        then (if allowAboveRoot then ".." :: res else res)
        else before
    | [] => if allowAboveRoot then [".."] else []
    end
  else component :: res.

Fixpoint last_char (p : string) : option ascii :=
  match p with
  | EmptyString => None
  | String c EmptyString => Some c
  | String _ rest => last_char rest
  end.

Fixpoint slashed (l : list string) : string :=
  match l with
  | [] => ""
  | [s] => s
  | s :: rest => s ++ "/" ++ slashed rest
  end.

(** [path.normalize(p)] *)
Definition normalize (p : string) : string :=
  match p with
  | EmptyString => "."
  | String c _ =>
      let isAbsolute := Ascii.eqb c "/" in
      let trailingSeparator :=
        match last_char p with Some l => Ascii.eqb l "/" | None => false end in
      let kept :=
        slashed (rev (fold_left (normalize_step (negb isAbsolute))
                                (split_on "/" p) [])) in
      if (kept =? "")%string
      then (if isAbsolute then "/" else if trailingSeparator then "./" else ".")
      else (if isAbsolute then "/" else "")
           ++ kept ++ (if trailingSeparator then "/" else "")
  end.

(** [path.join(a, b)]: the arguments that are not empty, joined by a slash
    and normalized. *)
Definition path_join (a b : string) : string :=
  if (a =? "")%string then normalize b
  else if (b =? "")%string then normalize a
  else normalize (a ++ "/" ++ b).

End JS.

Import JS.

(** ** Documents

    One record per Mongoose schema. An [ObjectId] is kept as its 24 lower-case
    hexadecimal digits, which is how Mongoose casts the string of a route
    parameter that passed the shape test. Validation errors are pairs of a
    path and a reason. *)

Definition ObjectId : Type := string.

Definition castObjectId (s : string) : ObjectId := toLowerCase s.

Definition errors : Type := list (string * string).

Definition is_required (path : string) : string * string :=
  (path, "Path `" ++ path ++ "` is required.").

Definition below_minimum (path : string) : string * string :=
  (path, "Path `" ++ path ++ "` is less than minimum allowed value.").

Definition above_maximum (path : string) : string * string :=
  (path, "Path `" ++ path ++ "` is more than maximum allowed value.").

Definition not_in_enum (path : string) : string * string :=
  (path, "not a valid enum value for path `" ++ path ++ "`.").

Definition cast_failed (kind path : string) : string * string :=
  (path, "Cast to " ++ kind ++ " failed for path `" ++ path ++ "`").

Definition required_string (path s : string) : errors :=
  if (s =? "")%string then [is_required path] else [].

Definition within (path : string) (lo hi q : Q) : errors :=
  List.app (if Qle_bool lo q then [] else [below_minimum path])
           (if Qle_bool q hi then [] else [above_maximum path]).

Definition one_of (path : string) (allowed : list string) (s : string) : errors :=
  if includes allowed s then [] else [not_in_enum path].

Module AudioFile.

Record t : Type := mk {
  _id : ObjectId;
  originalName : string;
  filename : string;
  path : string;
  mimetype : string;
  size : Z;
  duration : option Q;
  uploadedAt : Z;
  status : string;
  createdAt : Z;
  updatedAt : Z
}.

Definition mimetypes : list string := ["audio/wav"; "audio/mpeg"; "audio/mp3"].

Definition statuses : list string := ["uploaded"; "processing"; "completed"; "failed"].

(** The schema's validators, run by [save]. *)
Definition validate (d : t) : errors :=
  concat [required_string "originalName" (originalName d);
          required_string "filename" (filename d);
          required_string "path" (path d);
          if (mimetype d =? "")%string then [is_required "mimetype"]
          else one_of "mimetype" mimetypes (mimetype d);
          one_of "status" statuses (status d)].

Definition set_status (s : string) (d : t) : t :=
  mk (_id d) (originalName d) (filename d) (path d) (mimetype d) (size d)
     (duration d) (uploadedAt d) s (createdAt d) (updatedAt d).

Definition set_duration (q : Q) (d : t) : t :=
  mk (_id d) (originalName d) (filename d) (path d) (mimetype d) (size d)
     (Some q) (uploadedAt d) (status d) (createdAt d) (updatedAt d).

Definition set_updatedAt (now : Z) (d : t) : t :=
  mk (_id d) (originalName d) (filename d) (path d) (mimetype d) (size d)
     (duration d) (uploadedAt d) (status d) (createdAt d) now.

End AudioFile.

Module Segment.

Record t : Type := mk {
  text : string;
  start : Q;
  end_ : Q;
  confidence : option Q
}.

End Segment.

Module Transcript.

Record t : Type := mk {
  _id : ObjectId;
  audioFileId : ObjectId;
  text : string;
  confidence : Q;
  segments : list Segment.t;
  language : string;
  processingTime : Z;
  createdAt : Z;
  updatedAt : Z
}.

Definition validate (d : t) : errors :=
  concat [required_string "text" (text d);
          within "confidence" 0 1 (confidence d)].

Definition set_text (s : string) (d : t) : t :=
  mk (_id d) (audioFileId d) s (confidence d) (segments d) (language d)
     (processingTime d) (createdAt d) (updatedAt d).

Definition set_segments (l : list Segment.t) (d : t) : t :=
  mk (_id d) (audioFileId d) (text d) (confidence d) l (language d)
     (processingTime d) (createdAt d) (updatedAt d).

Definition set_updatedAt (now : Z) (d : t) : t :=
  mk (_id d) (audioFileId d) (text d) (confidence d) (segments d) (language d)
     (processingTime d) (createdAt d) now.

End Transcript.

(** What lies outside the repository and is needed to run it: three
    built-ins ([Math.exp], the reading of a number from a string and the
    printing of a number), the validators Mongoose derives for the paths of
    a model other than its required ones, and Joi's verdict on the body of a
    coaching-plan update. *)
Class Platform : Type := {
  Math_exp : Q -> Q;
  Number_ofString : string -> option Q;
  Number_toString : Q -> string;
  otherAnalysisPaths : value -> errors;
  otherCoachingPaths : value -> errors;
  Joi_coachingUpdate : value -> option string
}.

(** Mongoose's cast of a JSON value to a Number path: [None] is a CastError,
    [Some None] the absent value. *)
Definition castNumber `{Platform} (v : value) : option (option Q) :=
  match v with
  | JUndefined | JNull => Some None
  | JNum q => Some (Some q)
  | JBool b => Some (Some (if b then 1%Q else 0%Q))
  | JStr s => if (s =? "")%string then Some None
              else option_map Some (Number_ofString s)
  | JArr _ | JObj _ => None
  end.

(** Mongoose's cast of a JSON value to a String path, as the document holds
    the value afterwards: a number and a boolean are printed, an object with
    a string under [_id] is taken for that string, a string stays, and what
    does not cast (an array, any other object) or is absent is left for the
    validators to refuse. *)
Definition castString `{Platform} (v : value) : value :=
  match v with
  | JNum q => JStr (Number_toString q)
  | JBool b => JStr (if b then "true" else "false")
  | JObj fields =>
      match lookup "_id" fields with
      | JStr s => if (s =? "")%string then v else JStr s
      | _ => v
      end
  | _ => v
  end.

(** A required Number path with a range. *)
Definition required_number `{Platform} (path : string) (lo hi : Q) (v : value) : errors :=
  match castNumber v with
  | None => [cast_failed "Number" path]
  | Some None => [is_required path]
  | Some (Some q) => within path lo hi q
  end.

(** A required String path with an enumeration: numbers and booleans cast to
    strings that no enumeration of the schemas contains, arrays and objects
    do not cast. *)
Definition required_enum (path : string) (allowed : list string) (v : value) : errors :=
  match v with
  | JUndefined | JNull => [is_required path]
  | JStr s => if (s =? "")%string then [is_required path]
              else one_of path allowed s
  | JNum _ | JBool _ => [not_in_enum path]
  | JArr _ | JObj _ => [cast_failed "string" path]
  end.

(** A required String path: the empty string does not satisfy [required]. *)
Definition required_text (path : string) (v : value) : errors :=
  match v with
  | JUndefined | JNull => [is_required path]
  | JStr s => required_string path s
  | JNum _ | JBool _ => []
  | JArr _ | JObj _ => [cast_failed "string" path]
  end.

(** A property of a nested path given to a document constructor: nothing is
    read from an absent parent. *)
Definition field (parent : value) (k : string) : value :=
  match parent with
  | JObj fields => lookup k fields
  | _ => JUndefined
  end.

Module Analysis.

Record t : Type := mk {
  _id : ObjectId;
  transcriptId : ObjectId;
  audioFileId : ObjectId;
  sentiment : value;
  emotions : value;
  keyTopics : value;
  communicationMetrics : value;
  customerSatisfaction : value;
  issueResolution : value;
  compliance : value;
  summary : value;
  processingTime : Z;
  createdAt : Z;
  updatedAt : Z
}.

Definition sentiments : list string := ["positive"; "neutral"; "negative"].

(** The paths other than the required ones, as one object. *)
Definition others (d : t) : value :=
  JObj [("sentiment", sentiment d); ("emotions", emotions d);
        ("keyTopics", keyTopics d);
        ("communicationMetrics", communicationMetrics d);
        ("customerSatisfaction", customerSatisfaction d);
        ("issueResolution", issueResolution d);
        ("compliance", compliance d)].

Definition validate `{Platform} (d : t) : errors :=
  concat [required_enum "sentiment.overall" sentiments
            (field (sentiment d) "overall");
          required_number "sentiment.score" (-1) 1 (field (sentiment d) "score");
          required_text "summary" (summary d);
          otherAnalysisPaths (others d)].

End Analysis.

Module CoachingPlan.

Record t : Type := mk {
  _id : ObjectId;
  analysisId : ObjectId;
  audioFileId : ObjectId;
  agentId : value;
  overallPerformance : value;
  strengths : value;
  improvementAreas : value;
  actionItems : value;
  trainingRecommendations : value;
  followUpPlan : value;
  customNotes : value;
  generatedAt : Z;
  createdAt : Z;
  updatedAt : Z
}.

Definition levels : list string :=
  ["excellent"; "good"; "average"; "needs_improvement"; "poor"].

Definition others (d : t) : value :=
  JObj [("strengths", strengths d); ("improvementAreas", improvementAreas d);
        ("actionItems", actionItems d);
        ("trainingRecommendations", trainingRecommendations d);
        ("followUpPlan", followUpPlan d); ("customNotes", customNotes d)].

Definition validate `{Platform} (d : t) : errors :=
  concat [required_text "agentId" (agentId d);
          required_number "overallPerformance.score" 0 100
            (field (overallPerformance d) "score");
          required_enum "overallPerformance.level" levels
            (field (overallPerformance d) "level");
          otherCoachingPaths (others d)].

(** [{ ...updateData, updatedAt }] applied by [findByIdAndUpdate]: the three
    keys the update schema allows, each written when the body has it. *)
Definition apply_update (body : value) (now : Z) (d : t) : t :=
  let pick k old := if isUndefined (field body k) then old else field body k in
  mk (_id d) (analysisId d) (audioFileId d) (agentId d) (overallPerformance d)
     (strengths d) (improvementAreas d)
     (pick "actionItems" (actionItems d))
     (trainingRecommendations d)
     (pick "followUpPlan" (followUpPlan d))
     (pick "customNotes" (customNotes d))
     (generatedAt d) (createdAt d) now.

End CoachingPlan.

(** ** The world of a request

    The four collections in insertion order, the upload directory (path and
    byte size of each stored file) and the log of the operations sent to the
    document store, oldest first. *)

Inductive collection : Type := AudioFiles | Transcripts | Analyses | CoachingPlans.

Inductive store_op : Type :=
| Read (c : collection)
| Write (c : collection).

Record world : Type := mkWorld {
  audioFiles : list AudioFile.t;
  transcripts : list Transcript.t;
  analyses : list Analysis.t;
  coachingPlans : list CoachingPlan.t;
  files : list (string * Z);
  log : list store_op
}.

Definition logged (op : store_op) (w : world) : world :=
  mkWorld (audioFiles w) (transcripts w) (analyses w) (coachingPlans w)
          (files w) (log w ++ [op])%list.

Definition set_files (fs : list (string * Z)) (w : world) : world :=
  mkWorld (audioFiles w) (transcripts w) (analyses w) (coachingPlans w) fs (log w).

(** [fs.existsSync] and [fs.statSync]: the size of the file at [filePath],
    when there is one. *)
Definition stat (filePath : string) (w : world) : option Z :=
  option_map snd (List.find (fun f => (fst f =? filePath)%string) (files w)).

(** A world with an empty log, for stating what a request does to the store. *)
Definition fresh_log (w : world) : world :=
  mkWorld (audioFiles w) (transcripts w) (analyses w) (coachingPlans w)
          (files w) [].

(** ** Asynchronous computations: state and exceptions *)

Definition IO (A : Type) : Type := world -> (exn + A) * world.

Definition ret {A : Type} (a : A) : IO A := fun w => (inr a, w).

Definition throw {A : Type} (e : exn) : IO A := fun w => (inl e, w).

Definition bind {A B : Type} (m : IO A) (k : A -> IO B) : IO B :=
  fun w =>
    match m w with
    | (inl e, w') => (inl e, w')
    | (inr a, w') => k a w'
    end.

(** [try { m } catch (e) { h e }] *)
Definition try_catch {A : Type} (m : IO A) (h : exn -> IO A) : IO A :=
  fun w =>
    match m w with
    | (inl e, w') => h e w'
    | (inr a, w') => (inr a, w')
    end.

(** A synchronous computation that may throw. *)
Definition lift {A : Type} (r : exn + A) : IO A := fun w => (r, w).

(** [Promise.all([m1, m2])]: both are started, the first rejection wins. *)
Definition promise_all2 {A B : Type} (m1 : IO A) (m2 : IO B) : IO (A * B) :=
  fun w =>
    match m1 w with
    | (r1, w1) =>
        match m2 w1 with
        | (r2, w2) =>
            match r1, r2 with
            | inl e, _ => (inl e, w2)
            | inr _, inl e => (inl e, w2)
            | inr a, inr b => (inr (a, b), w2)
            end
        end
    end.

(** A computation that leaves the world alone and does not look at it. *)
Definition pure {A : Type} (m : IO A) : Prop := exists r, forall w, m w = (r, w).

Declare Scope io_scope.
Delimit Scope io_scope with io.
Notation "x <- m ;; k" := (bind m (fun x => k))
  (at level 61, m at next level, right associativity) : io_scope.
Notation "m ;; k" := (bind m (fun _ => k))
  (at level 61, right associativity) : io_scope.
Local Open Scope io_scope.

(** ** Mongoose models

    The statics and methods the controllers call, once for all collections:
    an instance tells where the documents of a model live. *)

Class Model (A : Type) : Type := {
  modelName : string;
  coll : collection;
  docs : world -> list A;
  set_docs : list A -> world -> world;
  id_of : A -> ObjectId;
  validators : A -> errors;
  sortable : string -> bool;
  sorted : string -> Z -> list A -> list A
}.

(** The store's part in a sort: whether it takes a string as the path of a
    sort key (it refuses, for one, a path with an empty component or with a
    component that starts with a dollar sign), and its ordering of a result
    set by a path and a direction (1 or -1), per collection. *)
Class Ordering : Type := {
  sortKey : string -> bool;
  sortAudioFiles : string -> Z -> list AudioFile.t -> list AudioFile.t;
  sortTranscripts : string -> Z -> list Transcript.t -> list Transcript.t;
  sortAnalyses : string -> Z -> list Analysis.t -> list Analysis.t;
  sortCoachingPlans : string -> Z -> list CoachingPlan.t -> list CoachingPlan.t
}.

#[export] Instance AudioFile_model `{Ordering} : Model AudioFile.t := {
  modelName := "AudioFile";
  coll := AudioFiles;
  docs := audioFiles;
  set_docs l w :=
    mkWorld l (transcripts w) (analyses w) (coachingPlans w) (files w) (log w);
  id_of := AudioFile._id;
  validators := AudioFile.validate;
  sortable := sortKey;
  sorted := sortAudioFiles
}.

#[export] Instance Transcript_model `{Ordering} : Model Transcript.t := {
  modelName := "Transcript";
  coll := Transcripts;
  docs := transcripts;
  set_docs l w :=
    mkWorld (audioFiles w) l (analyses w) (coachingPlans w) (files w) (log w);
  id_of := Transcript._id;
  validators := Transcript.validate;
  sortable := sortKey;
  sorted := sortTranscripts
}.

#[export] Instance Analysis_model `{Platform} `{Ordering} : Model Analysis.t := {
  modelName := "Analysis";
  coll := Analyses;
  docs := analyses;
  set_docs l w :=
    mkWorld (audioFiles w) (transcripts w) l (coachingPlans w) (files w) (log w);
  id_of := Analysis._id;
  validators := Analysis.validate;
  sortable := sortKey;
  sorted := sortAnalyses
}.

#[export] Instance CoachingPlan_model `{Platform} `{Ordering} : Model CoachingPlan.t := {
  modelName := "CoachingPlan";
  coll := CoachingPlans;
  docs := coachingPlans;
  set_docs l w :=
    mkWorld (audioFiles w) (transcripts w) (analyses w) l (files w) (log w);
  id_of := CoachingPlan._id;
  validators := CoachingPlan.validate;
  sortable := sortKey;
  sorted := sortCoachingPlans
}.

Fixpoint update_first {A : Type} (p : A -> bool) (f : A -> A) (l : list A) : list A :=
  match l with
  | [] => []
  | x :: rest => if p x then f x :: rest else x :: update_first p f rest
  end.

Fixpoint remove_first {A : Type} (p : A -> bool) (l : list A) : list A :=
  match l with
  | [] => []
  | x :: rest => if p x then rest else x :: remove_first p rest
  end.

Fixpoint join (sep : string) (l : list string) : string :=
  match l with
  | [] => ""
  | [s] => s
  | s :: rest => s ++ sep ++ join sep rest
  end.

Definition ValidationError (model : string) (errs : errors) : exn :=
  mkExn "ValidationError"
        (model ++ " validation failed: "
         ++ join ", " (map (fun e => fst e ++ ": " ++ snd e) errs))
        None.

Definition MongoServerError (msg : string) : exn :=
  mkExn "MongoServerError" msg None.

(** One more document in the group of key [k]. *)
Fixpoint bump (k : string) (groups : list (string * Z)) : list (string * Z) :=
  match groups with
  | [] => [(k, 1)]
  | (k', n) :: rest =>
      if (k' =? k)%string then (k', n + 1) :: rest else (k', n) :: bump k rest
  end.

(** The groups of [{ $group: { _id: '$path', count: { $sum: 1 } } }] for the
    values [keys] of the path, listed by first appearance: the store
    promises no order, and the controllers read the groups into an object
    keyed by [_id]. *)
Definition tally (keys : list string) : list (string * Z) :=
  fold_left (fun groups k => bump k groups) keys [].

Section Statics.

Context {A : Type} `{Model A}.

Definition has_id (id : string) (d : A) : bool :=
  (id_of d =? castObjectId id)%string.

(** [Model.findOne(filter)]: the first match in natural order, or null. *)
Definition findOne (filter : A -> bool) : IO (option A) :=
  fun w => (inr (List.find filter (docs w)), logged (Read coll) w).

(** [Model.findById(id)] *)
Definition findById (id : string) : IO (option A) := findOne (has_id id).

(** [doc.save()] of a new document: the validators run first, and nothing is
    sent to the store when one of them fails. *)
Definition save (d : A) : IO unit :=
  fun w =>
    match validators d with
    | [] => (inr tt, set_docs (docs w ++ [d])%list (logged (Write coll) w))
    | errs => (inl (ValidationError modelName errs), w)
    end.

(** [Model.findByIdAndUpdate(id, update, { new: true })]: the updated
    document, or null when there is none with this id. *)
Definition findByIdAndUpdate (id : string) (update : A -> A) : IO (option A) :=
  fun w =>
    let w' := logged (Write coll) w in
    match List.find (has_id id) (docs w) with
    | Some d => (inr (Some (update d)),
                 set_docs (update_first (has_id id) update (docs w)) w')
    | None => (inr None, w')
    end.

(** [Model.findByIdAndDelete(id)]: the deleted document, or null. *)
Definition findByIdAndDelete (id : string) : IO (option A) :=
  fun w =>
    let w' := logged (Write coll) w in
    match List.find (has_id id) (docs w) with
    | Some d => (inr (Some d), set_docs (remove_first (has_id id) (docs w)) w')
    | None => (inr None, w')
    end.

(** [limit(n)]: zero is no limit, a negative limit is its absolute value. *)
Definition limited (limit : Z) (l : list A) : list A :=
  if limit =? 0 then l else firstn (Z.to_nat (Z.abs limit)) l.

(** [Model.find(filter).sort(sort).skip(skip).limit(limit)], [sort] having
    one key: the store refuses a negative skip, and a sort key whose path it
    does not take. *)
Definition find (filter : A -> bool) (sort : string * Z) (skip limit : Z)
  : IO (list A) :=
  fun w =>
    let w' := logged (Read coll) w in
    if skip <? 0
    then (inl (MongoServerError "Skip value must be non-negative"), w')
    else if negb (sortable (fst sort))
    then (inl (MongoServerError ("Invalid sort key: " ++ fst sort)), w')
    else (inr (limited limit
                 (skipn (Z.to_nat skip)
                    (sorted (fst sort) (snd sort) (List.filter filter (docs w))))),
          w').

(** [Model.countDocuments(filter)] *)
Definition countDocuments (filter : A -> bool) : IO Z :=
  fun w => (inr (Z.of_nat (List.length (List.filter filter (docs w)))),
            logged (Read coll) w).

(** [populate(path)]: the referenced document, or null when it is gone. *)
Definition populate (id : ObjectId) : IO (option A) :=
  fun w => (inr (List.find (fun d => (id_of d =? id)%string) (docs w)),
            logged (Read coll) w).

(** [Model.aggregate([{ $group: { _id: '$path', count: { $sum: 1 } } }])]
    for a String path. *)
Definition countBy (path : A -> string) : IO (list (string * Z)) :=
  fun w => (inr (tally (map path (docs w))), logged (Read coll) w).

(** [Model.aggregate([{ $group: { _id: null, s: { $sum: '$path' } } }])] for
    a Number path: no group at all when there is no document. *)
Definition sumOf (path : A -> Z) : IO (option Z) :=
  fun w =>
    (inr (match docs w with
          | [] => None
          | l => Some (fold_right Z.add 0 (map path l))
          end),
     logged (Read coll) w).

(** The same with [$avg]. *)
Definition averageOf (path : A -> Q) : IO (option Q) :=
  fun w =>
    (inr (match docs w with
          | [] => None
          | l => Some (fold_right Qplus 0%Q (map path l)
                       / inject_Z (Z.of_nat (List.length l)))%Q
          end),
     logged (Read coll) w).

End Statics.

(** ** Configuration *)

(** [config.js], as far as the services and handlers read it. *)
Record config : Type := mkConfig {
  maxFileSize : Z;
  uploadPath : string;
  nodeEnv : string;
  openaiApiKey : option string
}.

Definition allowedTypes : list string := ["audio/wav"; "audio/mpeg"; "audio/mp3"].

(** The negation of [!apiKey || apiKey === 'mock_openai_key']. *)
Definition keyConfigured (cfg : config) : bool :=
  match openaiApiKey cfg with
  | Some apiKey =>
      negb (apiKey =? "")%string && negb (apiKey =? "mock_openai_key")%string
  | None => false
  end.

Definition keyMissing : string :=
  "OpenAI API key not configured. Please set OPENAI_API_KEY in your .env file".

(** ** Speech-to-text service *)

Module WhisperSegment.

(** A segment of the provider's [verbose_json] answer. *)
Record t : Type := mk {
  text : option string;
  start : option Q;
  end_ : option Q;
  avg_logprob : option Q
}.

End WhisperSegment.

Module WhisperResult.

Record t : Type := mk {
  text : option string;
  segments : option (list WhisperSegment.t);
  language : option string;
  duration : option Q
}.

End WhisperResult.

Module STTService.

Record TranscriptionResult : Type := mkResult {
  text : string;
  confidence : Q;
  segments : list Segment.t;
  language : string;
  duration : Q;
  processingTime : Z
}.

(** [segment.avg_logprob ? Math.exp(segment.avg_logprob) : 0.8] *)
Definition segmentConfidence `{Platform} (segment : WhisperSegment.t) : Q :=
  match WhisperSegment.avg_logprob segment with
  | Some lp => if Qnum lp =? 0 then 8 # 10 else Math_exp lp
  | None => 8 # 10
  end.

(** [(segment.end || 0) - (segment.start || 0)] *)
Definition segmentDuration (segment : WhisperSegment.t) : Q :=
  num_or (WhisperSegment.end_ segment) 0 - num_or (WhisperSegment.start segment) 0.

(** The body of the [for] loop over [(totalDuration, weightedConfidence)]. *)
Definition accumulate `{Platform} (acc : Q * Q) (segment : WhisperSegment.t) : Q * Q :=
  let duration := segmentDuration segment in
  let confidence := segmentConfidence segment in
  (fst acc + duration, snd acc + confidence * duration)%Q.

Definition calculateOverallConfidence `{Platform} (segments : list WhisperSegment.t) : Q :=
  match segments with
  | [] => 8 # 10
  | _ =>
      let acc := fold_left accumulate segments (0%Q, 0%Q) in
      let totalDuration := fst acc in
      let weightedConfidence := snd acc in
      if negb (Qle_bool totalDuration 0)
      then Math_min (weightedConfidence / totalDuration) 1
      else 8 # 10
  end.

Definition transformSegments `{Platform} (segments : list WhisperSegment.t)
  : list Segment.t :=
  map (fun segment =>
         Segment.mk (str_or (WhisperSegment.text segment) "")
                    (num_or (WhisperSegment.start segment) 0)
                    (num_or (WhisperSegment.end_ segment) 0)
                    (Some (segmentConfidence segment)))
      segments.

Definition getSupportedLanguages : list string :=
  ["af"; "ar"; "hy"; "az"; "be"; "bs"; "bg"; "ca"; "zh"; "hr"; "cs"; "da";
   "nl"; "en"; "et"; "fi"; "fr"; "gl"; "de"; "el"; "he"; "hi"; "hu"; "is";
   "id"; "it"; "ja"; "kn"; "kk"; "ko"; "lv"; "lt"; "mk"; "ms"; "mr"; "mi";
   "ne"; "no"; "fa"; "pl"; "pt"; "ro"; "ru"; "sr"; "sk"; "sl"; "es"; "sw";
   "sv"; "tl"; "ta"; "th"; "tr"; "uk"; "ur"; "vi"; "cy"].

(** The object literal built from the provider's answer [result]. *)
Definition transform `{Platform} (result : WhisperResult.t) (elapsed : Z)
    (language : string) : TranscriptionResult :=
  let segments :=
    match WhisperResult.segments result with Some l => l | None => [] end in
  mkResult
    (str_or (WhisperResult.text result) "")
    (calculateOverallConfidence segments)
    (transformSegments segments)
    (str_or (WhisperResult.language result) (str_or (Some language) "en"))
    (num_or (WhisperResult.duration result) 0)
    elapsed.

Definition maxFileSize : Z := 25 * 1024 * 1024.

Definition supportedFormats : list string :=
  ["flac"; "m4a"; "mp3"; "mp4"; "mpeg"; "mpga"; "oga"; "ogg"; "wav"; "webm"].

(** What [fetch] and the decoding of the body come to: a rejection with
    its message, an answer that is not [ok] with its status, status text
    and, when the body has one, [error.message], or the decoded answer. *)
Inductive Fetched : Type :=
| Rejected (reason : string)
| NotOk (status : Z) (statusText : string) (errorMessage : option string)
| Ok (result : WhisperResult.t).

(** The checks made before the request is sent: the message of the error
    thrown, if any. [onDisk] is the size of the file, when it exists. *)
Definition refusal (cfg : config) (filePath : string) (onDisk : option Z)
  : option string :=
  if negb (keyConfigured cfg) then Some keyMissing
  else
    match onDisk with
    | None => Some "Audio file not found"
    | Some size =>
        if maxFileSize <? size
        then Some ("File size " ++ showZ (round_div size (1024 * 1024))
                   ++ "MB exceeds OpenAI limit of 25MB")
        else
          let fileExtension := remove_first_dot (toLowerCase (extname filePath)) in
          if negb (includes supportedFormats fileExtension)
          then Some ("Unsupported file format: " ++ fileExtension
                     ++ ". Supported formats: " ++ join ", " supportedFormats)
          else None
    end.

(** The error text of the provider, when the call to it fails. *)
Definition providerError (fetched : Fetched) : option string :=
  match fetched with
  | Rejected reason => Some reason
  | NotOk status statusText errorMessage =>
      Some ("OpenAI API Error (" ++ showZ status ++ "): "
            ++ str_or errorMessage statusText)
  | Ok _ => None
  end.

(** [transcribeAudio(filePath, { language })], [elapsed] being the measured
    latency. *)
Definition transcribeAudio `{Platform} (cfg : config) (fetched : Fetched)
    (elapsed : Z) (filePath language : string) : IO TranscriptionResult :=
  try_catch
    (fun w =>
       match refusal cfg filePath (stat filePath w) with
       | Some reason => throw (Error reason) w
       | None =>
           match fetched with
           | Ok result => ret (transform result elapsed language) w
           | _ =>
               throw (Error (match providerError fetched with
                             | Some reason => reason
                             | None => ""
                             end)) w
           end
       end)
    (fun error => throw (Error ("Transcription failed: " ++ message error))).

(** [isFormatSupported(mimetype)] *)
Definition isFormatSupported (mimetype : string) : bool :=
  includes ["audio/flac"; "audio/m4a"; "audio/mp3"; "audio/mpeg"; "audio/mp4";
            "audio/mpga"; "audio/oga"; "audio/ogg"; "audio/wav"; "audio/webm"]
           mimetype.

End STTService.

(** ** Language-model service *)

Module LLMService.

(** The validated answer with the measured latency beside it: the spread
    [{ ...answer, processingTime, rawResult }] leaves every other property
    of the answer as it is. *)
Record Result : Type := mkResult {
  answer : value;
  processingTime : Z
}.

(** The two [if]s after [JSON.parse], inside the [try]. *)
Definition checkAnalysis (analysisResult : value) : IO unit :=
  sentiment <- lift (get analysisResult "sentiment") ;;
  missing <-
    (if negb (truthy sentiment) then ret true
     else
       overall <- lift (get sentiment "overall") ;;
       if negb (truthy overall) then ret true
       else
         score <- lift (get sentiment "score") ;;
         ret (isUndefined score)) ;;
  if missing : bool
  then throw (Error "Invalid analysis response: missing required sentiment fields (overall and score)")
  else
    summary <- lift (get analysisResult "summary") ;;
    if negb (truthy summary)
    then throw (Error "Invalid analysis response: missing required summary field")
    else ret tt.

(** [analyzeTranscript(transcriptText)]. [call] is what the request to the
    provider and [JSON.parse] come to: the message of the exception raised
    (failure of the provider, content that is not JSON), or the parsed
    content. [elapsed] is the measured latency. *)
Definition analyzeTranscript (cfg : config) (call : string + value) (elapsed : Z)
  : IO Result :=
  try_catch
    (if negb (keyConfigured cfg) then throw (Error keyMissing)
     else
       match call with
       | inl reason => throw (Error reason)
       | inr analysisResult =>
           checkAnalysis analysisResult ;;
           ret (mkResult analysisResult elapsed)
       end)
    (fun error => throw (Error ("LLM Analysis failed: " ++ message error))).

Definition checkCoachingPlan (coachingPlan : value) : IO unit :=
  agentId <- lift (get coachingPlan "agentId") ;;
  if negb (truthy agentId)
  then throw (Error "Invalid coaching plan response: missing required agentId field")
  else
    overallPerformance <- lift (get coachingPlan "overallPerformance") ;;
    missing <-
      (if negb (truthy overallPerformance) then ret true
       else
         score <- lift (get overallPerformance "score") ;;
         if negb (truthy score) then ret true
         else
           level <- lift (get overallPerformance "level") ;;
           ret (negb (truthy level))) ;;
    if missing : bool
    then throw (Error "Invalid coaching plan response: missing required overallPerformance fields (score and level)")
    else ret tt.

(** [generateCoachingPlan(analysis, agentId)], [call] and [elapsed] as
    above. *)
Definition generateCoachingPlan (cfg : config) (call : string + value)
    (elapsed : Z) : IO Result :=
  try_catch
    (if negb (keyConfigured cfg) then throw (Error keyMissing)
     else
       match call with
       | inl reason => throw (Error reason)
       | inr coachingPlan =>
           checkCoachingPlan coachingPlan ;;
           ret (mkResult coachingPlan elapsed)
       end)
    (fun error => throw (Error ("Coaching plan generation failed: " ++ message error))).

End LLMService.

(** ** Requests and responses *)

(** What a request takes from its surroundings: the clock, the ObjectId of
    the document it may create, the name drawn for an uploaded file and the
    latency measured around a provider call. *)
Record env : Type := mkEnv {
  now : Z;
  newId : ObjectId;
  uuid : string;
  elapsed : Z
}.

Record Pagination : Type := mkPagination {
  current : Z;
  total : Z;
  limit : Z;
  totalItems : Z;
  hasNext : bool;
  hasPrev : bool
}.

(** The [data] of a response body. A populated reference is the referenced
    document, or [None] when it is gone. *)
Inductive payload : Type :=
| NoData
| Existing (id : ObjectId) (createdAt : Z)
| Uploaded (a : AudioFile.t)
| UploadInfo (a : AudioFile.t) (onDisk : option Z)
| UploadList (l : list AudioFile.t)
| StatusChanged (id : ObjectId) (status : string) (updatedAt : Z)
| Transcribed (t : Transcript.t)
| TranscriptDoc (t : Transcript.t) (audioFile : option AudioFile.t)
| TranscriptList (l : list (Transcript.t * option AudioFile.t))
| Analyzed (a : Analysis.t)
| AnalysisDoc (a : Analysis.t) (transcript : option Transcript.t)
    (audioFile : option AudioFile.t)
| AnalysisList (l : list (Analysis.t * option Transcript.t * option AudioFile.t))
| Generated (p : CoachingPlan.t)
| CoachingDoc (p : CoachingPlan.t) (analysis : option Analysis.t)
    (audioFile : option AudioFile.t)
| CoachingList (l : list (CoachingPlan.t * option Analysis.t * option AudioFile.t)).

Record response : Type := mkResponse {
  statusCode : Z;
  success : bool;
  msg : option string;
  error : option string;
  data : payload;
  pagination : option Pagination
}.

(** [res.status(c).json({ success: false, message })] *)
Definition refuse (c : Z) (m : string) : response :=
  mkResponse c false (Some m) None NoData None.

(** [res.status(c).json({ success: false, message, error })] *)
Definition fail (c : Z) (m e : string) : response :=
  mkResponse c false (Some m) (Some e) NoData None.

(** [res.status(409).json({ success: false, message, data })] *)
Definition conflict (m : string) (id : ObjectId) (createdAt : Z) : response :=
  mkResponse 409 false (Some m) None (Existing id createdAt) None.

(** [res.status(c).json({ success: true, message, data })] *)
Definition done (c : Z) (m : string) (d : payload) : response :=
  mkResponse c true (Some m) None d None.

(** [res.json({ success: true, data })] *)
Definition found (d : payload) : response :=
  mkResponse 200 true None None d None.

(** [res.json({ success: true, data, pagination })] *)
Definition page_of (d : payload) (p : Pagination) : response :=
  mkResponse 200 true None None d (Some p).

(** A handler: its [try] block, and the [catch] that answers 500 with the
    message of what was thrown. *)
Definition handler (failure : string) (body : IO response) (w : world)
  : response * world :=
  match body w with
  | (inr r, w') => (r, w')
  | (inl e, w') => (fail 500 failure (message e), w')
  end.

(** The response of a statistics route, whose [data] has a type of its own. *)
Record reply (D : Type) : Type := mkReply {
  replyCode : Z;
  replySuccess : bool;
  replyMessage : option string;
  replyError : option string;
  replyData : option D
}.

Arguments mkReply {D}.
Arguments replyCode {D}.
Arguments replySuccess {D}.
Arguments replyMessage {D}.
Arguments replyError {D}.
Arguments replyData {D}.

(** [res.json({ success: true, data })] in the [try] block, and the [catch]
    that answers 500. *)
Definition statistics {D : Type} (failure : string) (body : IO D) (w : world)
  : reply D * world :=
  match body w with
  | (inr d, w') => (mkReply 200 true None None (Some d), w')
  | (inl e, w') => (mkReply 500 false (Some failure) (Some (message e)) None, w')
  end.

(** The query of a list request: [page] and [limit] as [parseInt] reads them
    ([None] for NaN), then the sort keys. *)
Record Paging : Type := mkPaging {
  q_page : option Z;
  q_limit : option Z;
  sortBy : option string;
  sortOrder : option string
}.

(** An optional query parameter that is used when truthy. *)
Definition given (x : option string) : option string :=
  match x with
  | Some s => if (s =? "")%string then None else Some s
  | None => None
  end.

(** The [sort] object of a list request. *)
Definition sort_of (q : Paging) (default : string) : string * Z :=
  match given (sortBy q) with
  | Some sortField =>
      (sortField,
       match sortOrder q with
       | Some o => if (o =? "asc")%string then 1 else -1
       | None => -1
       end)
  | None => (default, -1)
  end.

(** The pagination block of a list response. *)
Definition paginate (page limit total : Z) : Pagination :=
  let totalPages := ceil_div total limit in
  mkPagination page totalPages limit total (page <? totalPages) (1 <? page).

(** ** Upload service *)

Module UploadService.

(** A file part of a multipart request: the name of its field, and the file
    name, the declared type and the bytes as the parser hands them on. A
    request is the list of its file parts, in the order they are sent. *)
Record Upload : Type := mkUpload {
  fieldname : string;
  originalname : string;
  mimetype : string;
  content : string
}.

(** [req.file], once the storage engine has written the bytes. *)
Record File : Type := mkFile {
  file_originalname : string;
  file_mimetype : string;
  filename : string;
  path : string;
  size : Z
}.

Record FileInfo : Type := mkFileInfo {
  info_originalName : string;
  info_filename : string;
  info_path : string;
  info_mimetype : string;
  info_size : Z;
  info_uploadedAt : Z
}.

Definition allowedExtensions : list string :=
  [".wav"; ".mp3"; ".mpeg"; ".mp4"; ".flac"].

(** [fileFilter(req, file, cb)]: [None] is [cb(null, true)], an error is
    [cb(error, false)]. *)
Definition fileFilter (file : Upload) : option exn :=
  if negb (includes allowedTypes (mimetype file))
  then Some (mkExn "Error"
               ("Invalid file type. Allowed types: " ++ join ", " allowedTypes)
               (Some "INVALID_FILE_TYPE"))
  else
    let fileExtension := toLowerCase (extname (originalname file)) in
    if negb (includes allowedExtensions fileExtension)
    then Some (mkExn "Error"
                 ("Invalid file extension. Allowed extensions: "
                  ++ join ", " allowedExtensions)
                 (Some "INVALID_FILE_EXTENSION"))
    else None.

Definition MulterError (msg code : string) : exn :=
  mkExn "MulterError" msg (Some code).

(** What the middleware does with the first file part: a part without a
    file name is passed over; a part under another field than [audioFile] is
    refused; then the filter; then the disk storage under a drawn name in
    the upload directory, cut short as soon as the bytes written reach the
    size limit (a positive number), so that a file of the size of the limit
    is refused too. *)
Definition storeFirst (cfg : config) (e : env) (file : Upload) : IO (option File) :=
  if (originalname file =? "")%string then ret None
  else if negb (fieldname file =? "audioFile")%string
  then throw (MulterError "Unexpected field" "LIMIT_UNEXPECTED_FILE")
  else
    match fileFilter file with
    | Some err => throw err
    | None =>
        let size := Z.of_nat (String.length (content file)) in
        if maxFileSize cfg <=? size
        then throw (MulterError "File too large" "LIMIT_FILE_SIZE")
        else
          let filename := uuid e ++ extname (originalname file) in
          let path := path_join (uploadPath cfg) filename in
          fun w =>
            (inr (Some (mkFile (originalname file) (mimetype file)
                               filename path size)),
             set_files ((path, size) :: files w) w)
    end.

(** [_removeFile] of the disk storage, for what was stored before the
    request is refused. *)
Definition removeStored (stored : option File) : IO unit :=
  match stored with
  | Some f =>
      fun w =>
        (inr tt,
         set_files (remove_first (fun x => (fst x =? path f)%string) (files w)) w)
  | None => ret tt
  end.

(** The middleware [upload.single('audioFile')] with [limits.files] at 1 over
    the file parts of the request: the first error ends the request; a
    second file part, whatever it holds, is one file too many, and what the
    first part stored is removed. *)
Definition getUploadMiddleware (cfg : config) (e : env) (parts : list Upload)
  : IO (option File) :=
  match parts with
  | [] => ret None
  | file :: more =>
      stored <- storeFirst cfg e file ;;
      match more with
      | [] => ret stored
      | _ :: _ =>
          removeStored stored ;;
          throw (MulterError "Too many files" "LIMIT_FILE_COUNT")
      end
  end.

Definition processUploadedFile (e : env) (file : option File) : IO FileInfo :=
  match file with
  | None => throw (Error "No file uploaded")
  | Some f =>
      ret (mkFileInfo (file_originalname f) (filename f) (path f)
                      (file_mimetype f) (size f) (now e))
  end.

(** The table of [parseFileSize]. *)
Definition units : list (string * Z) :=
  [("B", 1); ("KB", 1024); ("MB", 1024 * 1024); ("GB", 1024 * 1024 * 1024)].

Fixpoint unitOf (unit : string) (table : list (string * Z)) : option Z :=
  match table with
  | [] => None
  | (u, bytes) :: rest => if (u =? unit)%string then Some bytes else unitOf unit rest
  end.

(** [parseFileSize(sizeString)]: [/^(\d+)([A-Z]{1,2})$/] takes the digits,
    then one or two capitals up to the end of the string; anything else is
    read as 50MB, and a unit that is not in the table as megabytes. The
    number read and the product are Numbers: [None] is [Infinity]. *)
Definition parseFileSize (sizeString : string) : option Z :=
  let (digits, unit) := span isDigit sizeString in
  if ((digits =? "")%string
      || negb (all_chars isUpper unit)
      || (String.length unit =? 0)%nat
      || (2 <? String.length unit)%nat)%bool
  then Some (50 * 1024 * 1024)
  else
    times (toDouble (parseInt_digits digits))
          match unitOf unit units with
          | Some bytes => bytes
          | None => 1024 * 1024
          end.

(** [deleteFile(filePath)]: whether there was a file to delete. *)
Definition deleteFile (filePath : string) : IO bool :=
  fun w =>
    match stat filePath w with
    | Some _ =>
        (inr true,
         set_files (remove_first (fun f => (fst f =? filePath)%string) (files w)) w)
    | None => (inr false, w)
    end.

(** [getFileInfo(filePath)]: the size on disk, or [None] for [exists: false]. *)
Definition getFileInfo (filePath : string) : IO (option Z) :=
  fun w => (inr (stat filePath w), w).

End UploadService.

(** The application's last error handler, which answers what a middleware
    passes to [next]. *)
Definition errorHandler (cfg : config) (err : exn) : response :=
  let coded c := match code err with Some c' => (c' =? c)%string | None => false end in
  if coded "LIMIT_FILE_SIZE"
  then fail 413 "File too large" "The uploaded file exceeds the maximum allowed size"
  else if coded "LIMIT_UNEXPECTED_FILE"
  then fail 400 "Unexpected file field"
            "Only single file upload is allowed in the audioFile field"
  else if (coded "INVALID_FILE_TYPE" || coded "INVALID_FILE_EXTENSION")%bool
  then fail 400 "Invalid file type" (message err)
  else if (name err =? "ValidationError")%string
  then refuse 400 "Validation error"
  else if (name err =? "CastError")%string
  then fail 400 "Invalid ID format" "The provided ID is not in the correct format"
  else if coded "11000"
  then fail 409 "Duplicate entry" "A record with this information already exists"
  else if (name err =? "JsonWebTokenError")%string
  then fail 401 "Invalid token" "Authentication token is invalid"
  else if (name err =? "TokenExpiredError")%string
  then fail 401 "Token expired" "Authentication token has expired"
  else if (nodeEnv cfg =? "production")%string
  then fail 500 "Internal server error" "Something went wrong on our end"
  else fail 500 (message err) (message err).

(** ** Upload controller *)

Module UploadController.

Section Handlers.

Context `{Ordering}.

(** [POST /api/upload], after the middleware has set [req.file]. *)
Definition uploadAudio (e : env) (file : option UploadService.File) (w : world)
  : response * world :=
  match
    (fileInfo <- UploadService.processUploadedFile e file ;;
     let audioFile :=
       AudioFile.mk (newId e)
                    (UploadService.info_originalName fileInfo)
                    (UploadService.info_filename fileInfo)
                    (UploadService.info_path fileInfo)
                    (UploadService.info_mimetype fileInfo)
                    (UploadService.info_size fileInfo)
                    None (now e) "uploaded" (now e) (now e) in
     save audioFile ;;
     ret (done 201 "Audio file uploaded successfully" (Uploaded audioFile))) w
  with
  | (inr r, w') => (r, w')
  | (inl err, w') =>
      let cleanup :=
        match file with
        | Some f =>
            if (UploadService.path f =? "")%string then ret false
            else try_catch (UploadService.deleteFile (UploadService.path f))
                           (fun _ => ret false)
        | None => ret false
        end in
      (fail 400 "Upload failed" (message err), snd (cleanup w'))
  end.

(** The route [POST /api/upload] on the file parts of the request:
    middleware, then controller. *)
Definition postUpload (cfg : config) (e : env) (parts : list UploadService.Upload)
    (w : world) : response * world :=
  match UploadService.getUploadMiddleware cfg e parts w with
  | (inl err, w') => (errorHandler cfg err, w')
  | (inr file, w') => uploadAudio e file w'
  end.

(** [GET /api/upload/:id] *)
Definition getUploadInfo (id : string) : world -> response * world :=
  handler "Failed to retrieve upload information"
    (if negb (matchesObjectId id)
     then ret (refuse 400 "Invalid file ID format")
     else
       audioFile <- findById id ;;
       match audioFile with
       | None => ret (refuse 404 "Audio file not found")
       | Some audioFile =>
           fileInfo <- UploadService.getFileInfo (AudioFile.path audioFile) ;;
           ret (found (UploadInfo audioFile fileInfo))
       end).

(** The query of [GET /api/upload]. *)
Record Query : Type := mkQuery {
  paging : Paging;
  q_status : option string;
  q_mimetype : option string
}.

Definition matches (q : Query) (d : AudioFile.t) : bool :=
  (match given (q_status q) with
   | Some s => (AudioFile.status d =? s)%string
   | None => true
   end
   && match given (q_mimetype q) with
      | Some m => (AudioFile.mimetype d =? m)%string
      | None => true
      end)%bool.

(** [GET /api/upload] *)
Definition getUploads (q : Query) : world -> response * world :=
  handler "Failed to retrieve uploads"
    (let page := int_or (q_page (paging q)) 1 in
     let limit := int_or (q_limit (paging q)) 10 in
     let skip := (page - 1) * limit in
     let filter := matches q in
     let sort := sort_of (paging q) "uploadedAt" in
     r <- promise_all2 (find filter sort skip limit) (countDocuments filter) ;;
     ret (page_of (UploadList (fst r)) (paginate page limit (snd r)))).

(** [DELETE /api/upload/:id] *)
Definition deleteUpload (id : string) : world -> response * world :=
  handler "Failed to delete upload"
    (if negb (matchesObjectId id)
     then ret (refuse 400 "Invalid file ID format")
     else
       audioFile <- findById id ;;
       match audioFile with
       | None => ret (refuse 404 "Audio file not found")
       | Some audioFile =>
           try_catch (UploadService.deleteFile (AudioFile.path audioFile))
                     (fun _ => ret false) ;;
           findByIdAndDelete (A := AudioFile.t) id ;;
           ret (mkResponse 200 true (Some "Audio file deleted successfully")
                           None NoData None)
       end).

(** [Joi.string().valid('uploaded', 'processing', 'completed', 'failed')
    .required()] on [status]: the message of the first error. *)
Definition validateStatus (status : value) : option string :=
  match status with
  | JUndefined => Some "status is required"
  | JStr s => if includes AudioFile.statuses s then None
              else Some "status must be one of [uploaded, processing, completed, failed]"
  | _ => Some "status must be one of [uploaded, processing, completed, failed]"
  end.

(** [PATCH /api/upload/:id/status], [status] being [req.body.status]. *)
Definition updateStatus (e : env) (id : string) (status : value)
  : world -> response * world :=
  handler "Failed to update status"
    (match validateStatus status, status with
     | Some err, _ => ret (fail 400 "Validation error" err)
     | None, JStr s =>
         if negb (matchesObjectId id)
         then ret (refuse 400 "Invalid file ID format")
         else
           audioFile <- findByIdAndUpdate id
                          (fun d => AudioFile.set_updatedAt (now e)
                                      (AudioFile.set_status s d)) ;;
           match audioFile with
           | None => ret (refuse 404 "Audio file not found")
           | Some audioFile =>
               ret (done 200 "Status updated successfully"
                         (StatusChanged (AudioFile._id audioFile)
                                        (AudioFile.status audioFile)
                                        (AudioFile.updatedAt audioFile)))
           end
     | None, _ => ret (fail 400 "Validation error" "status must be a string")
     end).

(** What [getDatabaseStats] returns. *)
Record DatabaseStats : Type := mkDatabaseStats {
  totalFiles : Z;
  totalSizeBytes : Z;
  totalSizeMB : Q;
  byStatus : list (string * Z);
  byMimetype : list (string * Z)
}.

(** [getDatabaseStats()]: four queries, then the totals. *)
Definition getDatabaseStats : IO DatabaseStats :=
  total <- countDocuments (A := AudioFile.t) (fun _ => true) ;;
  byStatus <- countBy AudioFile.status ;;
  byMimetype <- countBy AudioFile.mimetype ;;
  totalSize <- sumOf AudioFile.size ;;
  let bytes := match totalSize with Some n => n | None => 0 end in
  ret (mkDatabaseStats total bytes
         (inject_Z (Math_round (inject_Z bytes / inject_Z (1024 * 1024) * 100))
          / 100)%Q
         byStatus byMimetype).

(** What the upload service reports about the upload directory; it catches
    its own errors. *)
Record FilesystemStats : Type := mkFilesystemStats {
  fs_totalFiles : Z;
  fs_totalSize : Z
}.

(** [GET /api/upload/stats/overview]. The handler calls
    [this.getDatabaseStats()]: [bound] tells whether it runs as a method of
    the controller or, as a router runs the function it was given, with no
    [this]. *)
Definition getUploadStats (bound : bool) (fsStats : FilesystemStats)
  : world -> reply (DatabaseStats * FilesystemStats) * world :=
  statistics "Failed to retrieve upload statistics"
    (if bound
     then dbStats <- getDatabaseStats ;; ret (dbStats, fsStats)
     else throw (TypeError
                   "Cannot read properties of undefined (reading 'getDatabaseStats')")).

End Handlers.

End UploadController.

(** Populating one path of each document of a result set: one more query,
    when there is something to populate. *)
Definition populate_each {A B : Type} `{Model B} (ref : A -> ObjectId) (l : list A)
  : IO (list (A * option B)) :=
  fun w =>
    (inr (map (fun d => (d, List.find (fun b => (id_of b =? ref d)%string) (docs w))) l),
     match l with [] => w | _ => logged (Read coll) w end).

Definition CastError (path : string) : exn :=
  mkExn "CastError" ("Cast to Number failed for path `" ++ path ++ "`") None.

(** A [{ $gte: bound }] condition of a filter, [bound] being read by
    [parseInt] or [parseFloat]: NaN does not cast. *)
Definition at_least {N : Type} (path : string) (bound : option (option N))
  : IO (option N) :=
  match bound with
  | None => ret None
  | Some None => throw (CastError path)
  | Some (Some n) => ret (Some n)
  end.

(** ** Transcript controller *)

Module TranscriptController.

Section Handlers.

Context `{Platform} `{Ordering}.

(** [Joi.string().valid(...getSupportedLanguages()).optional()] on
    [language], which is never undefined after its default. *)
Definition validateLanguage (language : value) : string + string :=
  match language with
  | JStr s => if includes STTService.getSupportedLanguages s then inr s
              else inl "language must be one of the supported languages"
  | JUndefined => inr "en"
  | _ => inl "language must be one of the supported languages"
  end.

Definition owned_by (audioFileId : string) (t : Transcript.t) : bool :=
  (Transcript.audioFileId t =? castObjectId audioFileId)%string.

(** [new Transcript({ audioFileId, text, confidence, segments, language,
    processingTime })] *)
Definition newTranscript (e : env) (audioFileId : string)
    (transcriptionResult : STTService.TranscriptionResult) : Transcript.t :=
  Transcript.mk (newId e) (castObjectId audioFileId)
    (STTService.text transcriptionResult)
    (STTService.confidence transcriptionResult)
    (STTService.segments transcriptionResult)
    (STTService.language transcriptionResult)
    (STTService.processingTime transcriptionResult)
    (now e) (now e).

(** What the two updates of the audio file write. *)
Definition mark (e : env) (status : string) (d : AudioFile.t) : AudioFile.t :=
  AudioFile.set_updatedAt (now e) (AudioFile.set_status status d).

Definition complete (e : env) (duration : Q) (d : AudioFile.t) : AudioFile.t :=
  AudioFile.set_updatedAt (now e)
    (AudioFile.set_status "completed" (AudioFile.set_duration duration d)).

(** [POST /api/transcript/:audioFileId], [language] being
    [req.body.language] and [fetched] the provider's part. *)
Definition transcribeAudio (cfg : config) (e : env) (fetched : STTService.Fetched)
    (audioFileId : string) (language : value) : world -> response * world :=
  handler "Transcription failed"
    (let language := if isUndefined language then JStr "en" else language in
     match validateLanguage language with
     | inl err => ret (fail 400 "Validation error" err)
     | inr language =>
         if negb (matchesObjectId audioFileId)
         then ret (refuse 400 "Invalid audio file ID format")
         else
           audioFile <- findById (A := AudioFile.t) audioFileId ;;
           match audioFile with
           | None => ret (refuse 404 "Audio file not found")
           | Some audioFile =>
               existingTranscript <- findOne (owned_by audioFileId) ;;
               match existingTranscript with
               | Some existing =>
                   ret (conflict "Transcript already exists for this audio file"
                                 (Transcript._id existing)
                                 (Transcript.createdAt existing))
               | None =>
                   findByIdAndUpdate audioFileId (mark e "processing") ;;
                   try_catch
                     (transcriptionResult <-
                        STTService.transcribeAudio cfg fetched (elapsed e)
                          (AudioFile.path audioFile) language ;;
                      let transcript :=
                        newTranscript e audioFileId transcriptionResult in
                      save transcript ;;
                      findByIdAndUpdate audioFileId
                        (complete e (STTService.duration transcriptionResult)) ;;
                      ret (done 201 "Audio file transcribed successfully"
                                (Transcribed transcript)))
                     (fun transcriptionError =>
                        findByIdAndUpdate audioFileId (mark e "failed") ;;
                        throw transcriptionError)
               end
           end
     end).

(** A transcript with its [audioFileId] populated. *)
Definition populated (t : Transcript.t) : IO payload :=
  audioFile <- populate (Transcript.audioFileId t) ;;
  ret (TranscriptDoc t audioFile).

(** [GET /api/transcript/:id] *)
Definition getTranscript (id : string) : world -> response * world :=
  handler "Failed to retrieve transcript"
    (if negb (matchesObjectId id)
     then ret (refuse 400 "Invalid transcript ID format")
     else
       transcript <- findById (A := Transcript.t) id ;;
       match transcript with
       | None => ret (refuse 404 "Transcript not found")
       | Some transcript => d <- populated transcript ;; ret (found d)
       end).

(** [GET /api/transcript/audio/:audioFileId] *)
Definition getTranscriptByAudioFile (audioFileId : string)
  : world -> response * world :=
  handler "Failed to retrieve transcript"
    (if negb (matchesObjectId audioFileId)
     then ret (refuse 400 "Invalid audio file ID format")
     else
       transcript <- findOne (owned_by audioFileId) ;;
       match transcript with
       | None => ret (refuse 404 "Transcript not found for this audio file")
       | Some transcript => d <- populated transcript ;; ret (found d)
       end).

(** The query of [GET /api/transcript]; [q_minConfidence] is what
    [parseFloat] reads when the parameter is given. *)
Record Query : Type := mkQuery {
  paging : Paging;
  q_language : option string;
  q_minConfidence : option (option Q)
}.

Definition matches (language : option string) (minConfidence : option Q)
    (d : Transcript.t) : bool :=
  (match language with
   | Some l => (Transcript.language d =? l)%string
   | None => true
   end
   && match minConfidence with
      | Some c => Qle_bool c (Transcript.confidence d)
      | None => true
      end)%bool.

(** [GET /api/transcript] *)
Definition getTranscripts (q : Query) : world -> response * world :=
  handler "Failed to retrieve transcripts"
    (let page := int_or (q_page (paging q)) 1 in
     let limit := int_or (q_limit (paging q)) 10 in
     let skip := (page - 1) * limit in
     let sort := sort_of (paging q) "createdAt" in
     r <- promise_all2
            (minConfidence <- at_least "confidence" (q_minConfidence q) ;;
             l <- find (matches (given (q_language q)) minConfidence) sort skip limit ;;
             populate_each (B := AudioFile.t) Transcript.audioFileId l)
            (minConfidence <- at_least "confidence" (q_minConfidence q) ;;
             countDocuments (matches (given (q_language q)) minConfidence)) ;;
     ret (page_of (TranscriptList (fst r)) (paginate page limit (snd r)))).

(** [Joi.number()] without [unsafe()]: a number beyond the safe integers,
    on either side, is refused before any rule of the schema is tried. *)
Definition unsafeNumber (x : Q) : bool :=
  (negb (Qle_bool x (inject_Z (2 ^ 53 - 1)))
   || negb (Qle_bool (inject_Z (- (2 ^ 53 - 1))) x))%bool.

(** The first error of the update schema: [text] a non-empty string, each
    segment with a non-empty [text], [start] and [end] safe numbers at least
    0 and, when given, a [confidence] that is a safe number between 0 and 1.
    Numbers are taken as Joi and Mongoose convert them. *)
Definition validateSegment (s : Segment.t) : option string :=
  if (Segment.text s =? "")%string then Some "segments.text is not allowed to be empty"
  else if unsafeNumber (Segment.start s)
  then Some "segments.start must be a safe number"
  else if negb (Qle_bool 0 (Segment.start s))
  then Some "segments.start must be greater than or equal to 0"
  else if unsafeNumber (Segment.end_ s)
  then Some "segments.end must be a safe number"
  else if negb (Qle_bool 0 (Segment.end_ s))
  then Some "segments.end must be greater than or equal to 0"
  else match Segment.confidence s with
       | Some c =>
           if unsafeNumber c
           then Some "segments.confidence must be a safe number"
           else if negb (Qle_bool 0 c)
           then Some "segments.confidence must be greater than or equal to 0"
           else if negb (Qle_bool c 1)
           then Some "segments.confidence must be less than or equal to 1"
           else None
       | None => None
       end.

Fixpoint first_error {A : Type} (check : A -> option string) (l : list A)
  : option string :=
  match l with
  | [] => None
  | x :: rest =>
      match check x with
      | Some err => Some err
      | None => first_error check rest
      end
  end.

Definition validateUpdate (text : value) (segments : option (list Segment.t))
  : option string :=
  match text with
  | JUndefined => Some "text is required"
  | JStr s =>
      if (s =? "")%string then Some "text is not allowed to be empty"
      else match segments with
           | Some l => first_error validateSegment l
           | None => None
           end
  | _ => Some "text must be a string"
  end.

(** [PUT /api/transcript/:id], [text] and [segments] being the two
    properties read from the body. *)
Definition updateTranscript (e : env) (id : string) (text : value)
    (segments : option (list Segment.t)) : world -> response * world :=
  handler "Failed to update transcript"
    (match validateUpdate text segments, text with
     | Some err, _ => ret (fail 400 "Validation error" err)
     | None, JStr text =>
         if negb (matchesObjectId id)
         then ret (refuse 400 "Invalid transcript ID format")
         else
           let updateData d :=
             let d := Transcript.set_text text d in
             match segments with
             | Some l => Transcript.set_segments l d
             | None => d
             end in
           transcript <- findByIdAndUpdate id
                           (fun d => Transcript.set_updatedAt (now e) (updateData d)) ;;
           match transcript with
           | None => ret (refuse 404 "Transcript not found")
           | Some transcript =>
               d <- populated transcript ;;
               ret (done 200 "Transcript updated successfully" d)
           end
     | None, _ => ret (fail 400 "Validation error" "text must be a string")
     end).

(** [DELETE /api/transcript/:id] *)
Definition deleteTranscript (id : string) : world -> response * world :=
  handler "Failed to delete transcript"
    (if negb (matchesObjectId id)
     then ret (refuse 400 "Invalid transcript ID format")
     else
       transcript <- findByIdAndDelete (A := Transcript.t) id ;;
       match transcript with
       | None => ret (refuse 404 "Transcript not found")
       | Some _ =>
           ret (mkResponse 200 true (Some "Transcript deleted successfully")
                           None NoData None)
       end).

(** The [data] of [GET /api/transcript/stats/overview]. *)
Record TranscriptStats : Type := mkTranscriptStats {
  totalTranscripts : Z;
  averageConfidence : Q;
  averageProcessingTime : Z;
  byLanguage : list (string * Z)
}.

(** [GET /api/transcript/stats/overview] *)
Definition getTranscriptStats : world -> reply TranscriptStats * world :=
  statistics "Failed to retrieve transcript statistics"
    (total <- countDocuments (A := Transcript.t) (fun _ => true) ;;
     byLanguage <- countBy Transcript.language ;;
     avgConfidence <- averageOf Transcript.confidence ;;
     avgProcessingTime <-
       averageOf (fun d => inject_Z (Transcript.processingTime d)) ;;
     let orZero x := match x with Some q => q | None => 0%Q end in
     ret (mkTranscriptStats total
            (inject_Z (Math_round (orZero avgConfidence * 1000)) / 1000)%Q
            (Math_round (orZero avgProcessingTime))
            byLanguage)).

End Handlers.

End TranscriptController.

(** ** Analysis controller *)

Module AnalysisController.

Section Handlers.

Context `{Platform} `{Ordering}.

Definition about (transcriptId : string) (a : Analysis.t) : bool :=
  (Analysis.transcriptId a =? castObjectId transcriptId)%string.

(** [new Analysis({ transcriptId, audioFileId, sentiment, ..., summary,
    processingTime })] *)
Definition newAnalysis (e : env) (transcriptId : string) (audioFileId : ObjectId)
    (analysisResult : LLMService.Result) : Analysis.t :=
  let r := LLMService.answer analysisResult in
  Analysis.mk (newId e) (castObjectId transcriptId) audioFileId
    (field r "sentiment") (field r "emotions") (field r "keyTopics")
    (field r "communicationMetrics") (field r "customerSatisfaction")
    (field r "issueResolution") (field r "compliance") (field r "summary")
    (LLMService.processingTime analysisResult)
    (now e) (now e).

(** [POST /api/analysis/:transcriptId], [call] being the provider's part. *)
Definition analyzeTranscript (cfg : config) (e : env) (call : string + value)
    (transcriptId : string) : world -> response * world :=
  handler "Analysis failed"
    (if negb (matchesObjectId transcriptId)
     then ret (refuse 400 "Invalid transcript ID format")
     else
       transcript <- findById (A := Transcript.t) transcriptId ;;
       match transcript with
       | None => ret (refuse 404 "Transcript not found")
       | Some transcript =>
           audioFile <- populate (A := AudioFile.t)
                          (Transcript.audioFileId transcript) ;;
           existingAnalysis <- findOne (about transcriptId) ;;
           match existingAnalysis with
           | Some existing =>
               ret (conflict "Analysis already exists for this transcript"
                             (Analysis._id existing) (Analysis.createdAt existing))
           | None =>
               analysisResult <-
                 LLMService.analyzeTranscript cfg call (elapsed e) ;;
               audioFileId <-
                 match audioFile with
                 | Some a => ret (AudioFile._id a)
                 | None =>
                     throw (TypeError "Cannot read properties of null (reading '_id')")
                 end ;;
               let analysis :=
                 newAnalysis e transcriptId audioFileId analysisResult in
               save analysis ;;
               ret (done 201 "Transcript analyzed successfully" (Analyzed analysis))
           end
       end).

(** An analysis with [transcriptId] and [audioFileId] populated. *)
Definition populated (a : Analysis.t) : IO payload :=
  transcript <- populate (Analysis.transcriptId a) ;;
  audioFile <- populate (Analysis.audioFileId a) ;;
  ret (AnalysisDoc a transcript audioFile).

(** [GET /api/analysis/:id] *)
Definition getAnalysis (id : string) : world -> response * world :=
  handler "Failed to retrieve analysis"
    (if negb (matchesObjectId id)
     then ret (refuse 400 "Invalid analysis ID format")
     else
       analysis <- findById (A := Analysis.t) id ;;
       match analysis with
       | None => ret (refuse 404 "Analysis not found")
       | Some analysis => d <- populated analysis ;; ret (found d)
       end).

(** [GET /api/analysis/transcript/:transcriptId] *)
Definition getAnalysisByTranscript (transcriptId : string)
  : world -> response * world :=
  handler "Failed to retrieve analysis"
    (if negb (matchesObjectId transcriptId)
     then ret (refuse 400 "Invalid transcript ID format")
     else
       analysis <- findOne (about transcriptId) ;;
       match analysis with
       | None => ret (refuse 404 "Analysis not found for this transcript")
       | Some analysis => d <- populated analysis ;; ret (found d)
       end).

(** The query of [GET /api/analysis]; [q_minSatisfaction] is what [parseInt]
    reads when the parameter is given, [q_resolved] is used when defined. *)
Record Query : Type := mkQuery {
  paging : Paging;
  q_sentiment : option string;
  q_minSatisfaction : option (option Z);
  q_resolved : option string
}.

Definition is_string (s : string) (v : value) : bool :=
  match v with JStr s' => (s' =? s)%string | _ => false end.

Definition is_at_least (n : Z) (v : value) : bool :=
  match v with JNum q => Qle_bool (inject_Z n) q | _ => false end.

Definition is_bool (b : bool) (v : value) : bool :=
  match v with JBool b' => Bool.eqb b' b | _ => false end.

Definition matches (sentiment : option string) (minSatisfaction : option Z)
    (resolved : option string) (d : Analysis.t) : bool :=
  (match sentiment with
   | Some s => is_string s (field (Analysis.sentiment d) "overall")
   | None => true
   end
   && match minSatisfaction with
      | Some n => is_at_least n (field (Analysis.customerSatisfaction d) "score")
      | None => true
      end
   && match resolved with
      | Some r => is_bool (r =? "true")%string
                          (field (Analysis.issueResolution d) "wasResolved")
      | None => true
      end)%bool.

(** [GET /api/analysis] *)
Definition getAnalyses (q : Query) : world -> response * world :=
  handler "Failed to retrieve analyses"
    (let page := int_or (q_page (paging q)) 1 in
     let limit := int_or (q_limit (paging q)) 10 in
     let skip := (page - 1) * limit in
     let sort := sort_of (paging q) "createdAt" in
     let filter minSatisfaction :=
       matches (given (q_sentiment q)) minSatisfaction (q_resolved q) in
     r <- promise_all2
            (minSatisfaction <-
               at_least "customerSatisfaction.score" (q_minSatisfaction q) ;;
             l <- find (filter minSatisfaction) sort skip limit ;;
             withTranscripts <-
               populate_each (B := Transcript.t) Analysis.transcriptId l ;;
             populate_each (B := AudioFile.t)
               (fun d => Analysis.audioFileId (fst d)) withTranscripts)
            (minSatisfaction <-
               at_least "customerSatisfaction.score" (q_minSatisfaction q) ;;
             countDocuments (filter minSatisfaction)) ;;
     ret (page_of (AnalysisList (fst r)) (paginate page limit (snd r)))).

(** [DELETE /api/analysis/:id] *)
Definition deleteAnalysis (id : string) : world -> response * world :=
  handler "Failed to delete analysis"
    (if negb (matchesObjectId id)
     then ret (refuse 400 "Invalid analysis ID format")
     else
       analysis <- findByIdAndDelete (A := Analysis.t) id ;;
       match analysis with
       | None => ret (refuse 404 "Analysis not found")
       | Some _ =>
           ret (mkResponse 200 true (Some "Analysis deleted successfully")
                           None NoData None)
       end).

End Handlers.

End AnalysisController.

(** ** Coaching controller *)

Module CoachingController.

Section Handlers.

Context `{Platform} `{Ordering}.

(** [Joi.string().min(1).required()] on [agentId], which is never undefined
    after its default. *)
Definition validateAgentId (agentId : value) : option string :=
  match agentId with
  | JUndefined => Some "agentId is required"
  | JStr s => if (s =? "")%string then Some "agentId is not allowed to be empty"
              else None
  | _ => Some "agentId must be a string"
  end.

Definition from (analysisId : string) (p : CoachingPlan.t) : bool :=
  (CoachingPlan.analysisId p =? castObjectId analysisId)%string.

(** [new CoachingPlan({ analysisId, audioFileId, agentId, ..., customNotes })]:
    [agentId] is a String path, and the document holds what the value given
    casts to. *)
Definition newCoachingPlan (e : env) (analysisId : string) (audioFileId : ObjectId)
    (coachingResult : LLMService.Result) : CoachingPlan.t :=
  let r := LLMService.answer coachingResult in
  CoachingPlan.mk (newId e) (castObjectId analysisId) audioFileId
    (castString (field r "agentId")) (field r "overallPerformance")
    (field r "strengths") (field r "improvementAreas")
    (field r "actionItems") (field r "trainingRecommendations")
    (field r "followUpPlan") (field r "customNotes")
    (now e) (now e) (now e).

(** [POST /api/coaching/:analysisId], [agentId] being [req.body.agentId] and
    [call] the provider's part. *)
Definition generateCoachingPlan (cfg : config) (e : env) (call : string + value)
    (analysisId : string) (agentId : value) : world -> response * world :=
  handler "Coaching plan generation failed"
    (let agentId := if isUndefined agentId then JStr "agent_001" else agentId in
     match validateAgentId agentId with
     | Some err => ret (fail 400 "Validation error" err)
     | None =>
         if negb (matchesObjectId analysisId)
         then ret (refuse 400 "Invalid analysis ID format")
         else
           analysis <- findById (A := Analysis.t) analysisId ;;
           match analysis with
           | None => ret (refuse 404 "Analysis not found")
           | Some analysis =>
               populate (A := Transcript.t) (Analysis.transcriptId analysis) ;;
               audioFile <- populate (A := AudioFile.t)
                              (Analysis.audioFileId analysis) ;;
               existingPlan <- findOne (from analysisId) ;;
               match existingPlan with
               | Some existing =>
                   ret (conflict "Coaching plan already exists for this analysis"
                                 (CoachingPlan._id existing)
                                 (CoachingPlan.createdAt existing))
               | None =>
                   coachingResult <-
                     LLMService.generateCoachingPlan cfg call (elapsed e) ;;
                   audioFileId <-
                     match audioFile with
                     | Some a => ret (AudioFile._id a)
                     | None =>
                         throw (TypeError "Cannot read properties of null (reading '_id')")
                     end ;;
                   let coachingPlan :=
                     newCoachingPlan e analysisId audioFileId coachingResult in
                   save coachingPlan ;;
                   ret (done 201 "Coaching plan generated successfully"
                             (Generated coachingPlan))
               end
           end
     end).

(** A coaching plan with [analysisId] and [audioFileId] populated. *)
Definition populated (p : CoachingPlan.t) : IO payload :=
  analysis <- populate (CoachingPlan.analysisId p) ;;
  audioFile <- populate (CoachingPlan.audioFileId p) ;;
  ret (CoachingDoc p analysis audioFile).

(** [GET /api/coaching/:id] *)
Definition getCoachingPlan (id : string) : world -> response * world :=
  handler "Failed to retrieve coaching plan"
    (if negb (matchesObjectId id)
     then ret (refuse 400 "Invalid coaching plan ID format")
     else
       coachingPlan <- findById (A := CoachingPlan.t) id ;;
       match coachingPlan with
       | None => ret (refuse 404 "Coaching plan not found")
       | Some coachingPlan => d <- populated coachingPlan ;; ret (found d)
       end).

(** [GET /api/coaching/analysis/:analysisId] *)
Definition getCoachingPlanByAnalysis (analysisId : string)
  : world -> response * world :=
  handler "Failed to retrieve coaching plan"
    (if negb (matchesObjectId analysisId)
     then ret (refuse 400 "Invalid analysis ID format")
     else
       coachingPlan <- findOne (from analysisId) ;;
       match coachingPlan with
       | None => ret (refuse 404 "Coaching plan not found for this analysis")
       | Some coachingPlan => d <- populated coachingPlan ;; ret (found d)
       end).

(** A page of coaching plans, both references populated. *)
Definition page_of_plans (filter : CoachingPlan.t -> bool) (sort : string * Z)
    (skip limit : Z) : IO (list (CoachingPlan.t * option Analysis.t * option AudioFile.t)) :=
  l <- find filter sort skip limit ;;
  withAnalyses <- populate_each (B := Analysis.t) CoachingPlan.analysisId l ;;
  populate_each (B := AudioFile.t)
    (fun d => CoachingPlan.audioFileId (fst d)) withAnalyses.

(** [GET /api/coaching/agent/:agentId] *)
Definition getCoachingPlansByAgent (agentId : string) (q : Paging)
  : world -> response * world :=
  handler "Failed to retrieve coaching plans"
    (let page := int_or (q_page q) 1 in
     let limit := int_or (q_limit q) 10 in
     let skip := (page - 1) * limit in
     let sort := sort_of q "generatedAt" in
     let filter d := AnalysisController.is_string agentId (CoachingPlan.agentId d) in
     r <- promise_all2 (page_of_plans filter sort skip limit)
                       (countDocuments filter) ;;
     ret (page_of (CoachingList (fst r)) (paginate page limit (snd r)))).

(** The query of [GET /api/coaching]; [q_minScore] is what [parseInt] reads
    when the parameter is given. *)
Record Query : Type := mkQuery {
  paging : Paging;
  q_agentId : option string;
  q_performanceLevel : option string;
  q_minScore : option (option Z)
}.

Definition matches (agentId performanceLevel : option string)
    (minScore : option Z) (d : CoachingPlan.t) : bool :=
  (match agentId with
   | Some a => AnalysisController.is_string a (CoachingPlan.agentId d)
   | None => true
   end
   && match performanceLevel with
      | Some l => AnalysisController.is_string l
                    (field (CoachingPlan.overallPerformance d) "level")
      | None => true
      end
   && match minScore with
      | Some n => AnalysisController.is_at_least n
                    (field (CoachingPlan.overallPerformance d) "score")
      | None => true
      end)%bool.

(** [GET /api/coaching] *)
Definition getCoachingPlans (q : Query) : world -> response * world :=
  handler "Failed to retrieve coaching plans"
    (let page := int_or (q_page (paging q)) 1 in
     let limit := int_or (q_limit (paging q)) 10 in
     let skip := (page - 1) * limit in
     let sort := sort_of (paging q) "generatedAt" in
     let filter minScore :=
       matches (given (q_agentId q)) (given (q_performanceLevel q)) minScore in
     r <- promise_all2
            (minScore <- at_least "overallPerformance.score" (q_minScore q) ;;
             page_of_plans (filter minScore) sort skip limit)
            (minScore <- at_least "overallPerformance.score" (q_minScore q) ;;
             countDocuments (filter minScore)) ;;
     ret (page_of (CoachingList (fst r)) (paginate page limit (snd r)))).

(** [PUT /api/coaching/:id], [updateData] being the body. *)
Definition updateCoachingPlan (e : env) (id : string) (updateData : value)
  : world -> response * world :=
  handler "Failed to update coaching plan"
    (match Joi_coachingUpdate updateData with
     | Some err => ret (fail 400 "Validation error" err)
     | None =>
         if negb (matchesObjectId id)
         then ret (refuse 400 "Invalid coaching plan ID format")
         else
           coachingPlan <- findByIdAndUpdate id
                             (CoachingPlan.apply_update updateData (now e)) ;;
           match coachingPlan with
           | None => ret (refuse 404 "Coaching plan not found")
           | Some coachingPlan =>
               d <- populated coachingPlan ;;
               ret (done 200 "Coaching plan updated successfully" d)
           end
     end).

(** [DELETE /api/coaching/:id] *)
Definition deleteCoachingPlan (id : string) : world -> response * world :=
  handler "Failed to delete coaching plan"
    (if negb (matchesObjectId id)
     then ret (refuse 400 "Invalid coaching plan ID format")
     else
       coachingPlan <- findByIdAndDelete (A := CoachingPlan.t) id ;;
       match coachingPlan with
       | None => ret (refuse 404 "Coaching plan not found")
       | Some _ =>
           ret (mkResponse 200 true (Some "Coaching plan deleted successfully")
                           None NoData None)
       end).

End Handlers.

End CoachingController.

(** ** The routes, grouped by what the properties range over *)

Module Routes.

Section Grouping.

Context `{Platform} `{Ordering}.

(** The three stage-creating requests, each keyed by the id of the upstream
    record. *)
Inductive create : Type :=
| Transcribe (fetched : STTService.Fetched) (audioFileId : string) (language : value)
| Analyze (call : string + value) (transcriptId : string)
| Coach (call : string + value) (analysisId : string) (agentId : value).

Definition run_create (cfg : config) (e : env) (r : create)
  : world -> response * world :=
  match r with
  | Transcribe fetched audioFileId language =>
      TranscriptController.transcribeAudio cfg e fetched audioFileId language
  | Analyze call transcriptId =>
      AnalysisController.analyzeTranscript cfg e call transcriptId
  | Coach call analysisId agentId =>
      CoachingController.generateCoachingPlan cfg e call analysisId agentId
  end.

Definition upstream_id (r : create) : string :=
  match r with
  | Transcribe _ id _ | Analyze _ id | Coach _ id _ => id
  end.

(** The request passes the checks made before the store is consulted. *)
Definition well_formed (r : create) : bool :=
  (matchesObjectId (upstream_id r)
   && match r with
      | Transcribe _ _ language =>
          match TranscriptController.validateLanguage
                  (if isUndefined language then JStr "en" else language) with
          | inr _ => true
          | inl _ => false
          end
      | Analyze _ _ => true
      | Coach _ _ agentId =>
          match CoachingController.validateAgentId
                  (if isUndefined agentId then JStr "agent_001" else agentId) with
          | None => true
          | Some _ => false
          end
      end)%bool.

Definition upstream_exists (r : create) (w : world) : bool :=
  match r with
  | Transcribe _ id _ => existsb (has_id id) (audioFiles w)
  | Analyze _ id => existsb (has_id id) (transcripts w)
  | Coach _ id _ => existsb (has_id id) (analyses w)
  end.

(** The downstream records of the stage of [r] that belong to the upstream
    id [u], as pairs of their id and creation time, in store order. *)
Definition downstream (r : create) (u : ObjectId) (w : world) : list (ObjectId * Z) :=
  match r with
  | Transcribe _ _ _ =>
      map (fun t => (Transcript._id t, Transcript.createdAt t))
          (filter (fun t => (Transcript.audioFileId t =? u)%string) (transcripts w))
  | Analyze _ _ =>
      map (fun a => (Analysis._id a, Analysis.createdAt a))
          (filter (fun a => (Analysis.transcriptId a =? u)%string) (analyses w))
  | Coach _ _ _ =>
      map (fun p => (CoachingPlan._id p, CoachingPlan.createdAt p))
          (filter (fun p => (CoachingPlan.analysisId p =? u)%string) (coachingPlans w))
  end.

Definition conflict_message (r : create) : string :=
  match r with
  | Transcribe _ _ _ => "Transcript already exists for this audio file"
  | Analyze _ _ => "Analysis already exists for this transcript"
  | Coach _ _ _ => "Coaching plan already exists for this analysis"
  end.

(** The operations that take the id of a record as a route parameter, with
    what else each one reads from the request. *)
Inductive by_id : Type :=
| GetUploadInfo
| DeleteUpload
| UpdateStatus (e : env) (status : value)
| TranscribeAudio (cfg : config) (e : env) (fetched : STTService.Fetched)
    (language : value)
| GetTranscript
| GetTranscriptByAudioFile
| UpdateTranscript (e : env) (text : value) (segments : option (list Segment.t))
| DeleteTranscript
| AnalyzeTranscript (cfg : config) (e : env) (call : string + value)
| GetAnalysis
| GetAnalysisByTranscript
| DeleteAnalysis
| GenerateCoachingPlan (cfg : config) (e : env) (call : string + value)
    (agentId : value)
| GetCoachingPlan
| GetCoachingPlanByAnalysis
| UpdateCoachingPlan (e : env) (updateData : value)
| DeleteCoachingPlan.

Definition run_by_id (op : by_id) (id : string) : world -> response * world :=
  match op with
  | GetUploadInfo => UploadController.getUploadInfo id
  | DeleteUpload => UploadController.deleteUpload id
  | UpdateStatus e status => UploadController.updateStatus e id status
  | TranscribeAudio cfg e fetched language =>
      TranscriptController.transcribeAudio cfg e fetched id language
  | GetTranscript => TranscriptController.getTranscript id
  | GetTranscriptByAudioFile => TranscriptController.getTranscriptByAudioFile id
  | UpdateTranscript e text segments =>
      TranscriptController.updateTranscript e id text segments
  | DeleteTranscript => TranscriptController.deleteTranscript id
  | AnalyzeTranscript cfg e call =>
      AnalysisController.analyzeTranscript cfg e call id
  | GetAnalysis => AnalysisController.getAnalysis id
  | GetAnalysisByTranscript => AnalysisController.getAnalysisByTranscript id
  | DeleteAnalysis => AnalysisController.deleteAnalysis id
  | GenerateCoachingPlan cfg e call agentId =>
      CoachingController.generateCoachingPlan cfg e call id agentId
  | GetCoachingPlan => CoachingController.getCoachingPlan id
  | GetCoachingPlanByAnalysis => CoachingController.getCoachingPlanByAnalysis id
  | UpdateCoachingPlan e updateData =>
      CoachingController.updateCoachingPlan e id updateData
  | DeleteCoachingPlan => CoachingController.deleteCoachingPlan id
  end.

(** The paginated list requests. *)
Inductive listing : Type :=
| GetUploads (q : UploadController.Query)
| GetTranscripts (q : TranscriptController.Query)
| GetAnalyses (q : AnalysisController.Query)
| GetCoachingPlansByAgent (agentId : string) (q : Paging)
| GetCoachingPlans (q : CoachingController.Query).

Definition run_listing (r : listing) : world -> response * world :=
  match r with
  | GetUploads q => UploadController.getUploads q
  | GetTranscripts q => TranscriptController.getTranscripts q
  | GetAnalyses q => AnalysisController.getAnalyses q
  | GetCoachingPlansByAgent agentId q =>
      CoachingController.getCoachingPlansByAgent agentId q
  | GetCoachingPlans q => CoachingController.getCoachingPlans q
  end.

(** The HTTP method each operation by id is routed from. *)
Inductive method : Type := GET | POST | PUT | PATCH | DELETE.

Definition method_of (op : by_id) : method :=
  match op with
  | GetUploadInfo | GetTranscript | GetTranscriptByAudioFile | GetAnalysis
  | GetAnalysisByTranscript | GetCoachingPlan | GetCoachingPlanByAnalysis => GET
  | TranscribeAudio _ _ _ _ | AnalyzeTranscript _ _ _
  | GenerateCoachingPlan _ _ _ _ => POST
  | UpdateTranscript _ _ _ | UpdateCoachingPlan _ _ => PUT
  | UpdateStatus _ _ => PATCH
  | DeleteUpload | DeleteTranscript | DeleteAnalysis | DeleteCoachingPlan => DELETE
  end.

(** Any request to a route that answers with a [response]. *)
Inductive request : Type :=
| Upload (cfg : config) (e : env) (parts : list UploadService.Upload)
| ById (op : by_id) (id : string)
| Listing (r : listing).

Definition run (r : request) : world -> response * world :=
  match r with
  | Upload cfg e parts => UploadController.postUpload cfg e parts
  | ById op id => run_by_id op id
  | Listing r => run_listing r
  end.

(** The paging parameters of a list request. *)
Definition paging_of (r : listing) : Paging :=
  match r with
  | GetUploads q => UploadController.paging q
  | GetTranscripts q => TranscriptController.paging q
  | GetAnalyses q => AnalysisController.paging q
  | GetCoachingPlansByAgent _ q => q
  | GetCoachingPlans q => CoachingController.paging q
  end.

(** The path of the sort key of a list request: the field the request names,
    or the default of its handler. *)
Definition sort_path (r : listing) : string :=
  fst (sort_of (paging_of r)
         match r with
         | GetUploads _ => "uploadedAt"
         | GetTranscripts _ | GetAnalyses _ => "createdAt"
         | GetCoachingPlansByAgent _ _ | GetCoachingPlans _ => "generatedAt"
         end).

(** Whether the numeric bound of the filter, when one is given, was read as
    a number. *)
Definition bound_is_a_number (r : listing) : bool :=
  match r with
  | GetTranscripts q =>
      match TranscriptController.q_minConfidence q with
      | Some None => false
      | _ => true
      end
  | GetAnalyses q =>
      match AnalysisController.q_minSatisfaction q with
      | Some None => false
      | _ => true
      end
  | GetCoachingPlans q =>
      match CoachingController.q_minScore q with
      | Some None => false
      | _ => true
      end
  | _ => true
  end.

(** The HTTP method a request is routed from. *)
Definition verb (r : request) : method :=
  match r with
  | Upload _ _ _ => POST
  | ById op _ => method_of op
  | Listing _ => GET
  end.

(** The world after the requests of [rs] have been served one after the
    other. *)
Definition serve (rs : list request) (w : world) : world :=
  fold_left (fun w r => snd (run r w)) rs w.

End Grouping.

(** The number of items in the [data] of a list response. *)
Definition items (d : payload) : Z :=
  match d with
  | UploadList l => Z.of_nat (List.length l)
  | TranscriptList l => Z.of_nat (List.length l)
  | AnalysisList l => Z.of_nat (List.length l)
  | CoachingList l => Z.of_nat (List.length l)
  | _ => 0
  end.

End Routes.

(** ** The words of the specification about confidence

    The duration-weighted average of the per-segment confidences of a
    transcript, each segment weighing its end minus its start. *)

Definition sumQ (l : list Q) : Q := fold_right Qplus 0%Q l.

Definition segmentWeight (s : Segment.t) : Q := (Segment.end_ s - Segment.start s)%Q.

Definition segmentValue (s : Segment.t) : Q :=
  match Segment.confidence s with Some c => c | None => 0%Q end.

Definition totalWeight (segments : list Segment.t) : Q :=
  sumQ (map segmentWeight segments).

Definition weightedAverage (segments : list Segment.t) : Q :=
  (sumQ (map (fun s => segmentValue s * segmentWeight s) segments)
   / totalWeight segments)%Q.

(** ** What the update of a transcript asks of a segment

    A text that is not empty, a start and an end that are numbers from 0 up
    to the largest safe integer, and a confidence, when there is one,
    between 0 and 1. *)

Definition segment_ok (s : Segment.t) : Prop :=
  Segment.text s <> ""
  /\ (0 <= Segment.start s <= inject_Z (2 ^ 53 - 1))%Q
  /\ (0 <= Segment.end_ s <= inject_Z (2 ^ 53 - 1))%Q
  /\ forall c, Segment.confidence s = Some c -> (0 <= c <= 1)%Q.

(** ** What the schemas ask of the documents in the store

    Every audio file, transcript and analysis passes the validators of its
    schema, and every coaching plan those of its three required paths. *)

Definition requiredOfPlan `{Platform} (d : CoachingPlan.t) : errors :=
  concat [required_text "agentId" (CoachingPlan.agentId d);
          required_number "overallPerformance.score" 0 100
            (field (CoachingPlan.overallPerformance d) "score");
          required_enum "overallPerformance.level" CoachingPlan.levels
            (field (CoachingPlan.overallPerformance d) "level")].

Definition schemas_respected `{Platform} (w : world) : Prop :=
  Forall (fun d => AudioFile.validate d = []) (audioFiles w)
  /\ Forall (fun d => Transcript.validate d = []) (transcripts w)
  /\ Forall (fun d => Analysis.validate d = []) (analyses w)
  /\ Forall (fun d => requiredOfPlan d = []) (coachingPlans w).

(** Everything of the world but the log. *)
Definition same_state (w w' : world) : Prop := fresh_log w' = fresh_log w.

(** ** Relations between the world before and after a computation *)

(** Every run of [m] relates the world it starts in to the world it ends
    in. *)
Definition keeps {A : Type} (R : world -> world -> Prop) (m : IO A) : Prop :=
  forall w, R w (snd (m w)).

(** The store operations that change nothing. *)
Definition is_read (op : store_op) : bool :=
  match op with Read _ => true | Write _ => false end.

(** The state is the same and the log has grown by reads only. *)
Definition only_read (w w' : world) : Prop :=
  same_state w w'
  /\ exists reads, log w' = (log w ++ reads)%list /\ forallb is_read reads = true.

(** The schemas, if respected before, are respected after. *)
Definition respects `{Platform} (w w' : world) : Prop :=
  schemas_respected w -> schemas_respected w'.

(** A character that is neither a slash nor a dot. *)
Definition sep_free (c : ascii) : bool :=
  (negb (Ascii.eqb c "/") && negb (Ascii.eqb c "."))%bool.

(** ** A platform to run the model on

    Insertion order for every sort, a sort key taken when no component of
    its path is empty or starts with a dollar sign, no numeric strings, the
    digits of the integer part for a printed number, no further schema
    errors, every update body accepted, and for [Math.exp] the rational
    function [1 / (1 - x)], which is 1 at 0 and lies in (0, 1] on the
    log-probabilities. *)

Definition sample_platform : Platform := {|
  Math_exp := fun x => (1 / (1 - x))%Q;
  Number_ofString := fun _ => None;
  Number_toString := fun q => showZ (Qfloor q);
  otherAnalysisPaths := fun _ => [];
  otherCoachingPaths := fun _ => [];
  Joi_coachingUpdate := fun _ => None
|}.

Definition sample_ordering : Ordering := {|
  sortKey := fun path =>
    forallb (fun c => match c with
                      | EmptyString => false
                      | String a _ => negb (Ascii.eqb a "$")
                      end)
            (split_on "." path);
  sortAudioFiles := fun _ _ l => l;
  sortTranscripts := fun _ _ l => l;
  sortAnalyses := fun _ _ l => l;
  sortCoachingPlans := fun _ _ l => l
|}.

(** ** Sample requests and worlds

    One call going through the pipeline, for running the model: the world
    after the upload, after the transcription, after the analysis. *)

Definition sample_config : config :=
  mkConfig (50 * 1024 * 1024) "uploads" "development" (Some "sk-sample").

Definition audio_id : ObjectId := "64b7f0c2a1d2e3f4a5b6c701".
Definition transcript_id : ObjectId := "64b7f0c2a1d2e3f4a5b6c702".
Definition analysis_id : ObjectId := "64b7f0c2a1d2e3f4a5b6c703".
Definition plan_id : ObjectId := "64b7f0c2a1d2e3f4a5b6c704".

Definition upload_env : env := mkEnv 1000 audio_id "3f2b8c1e" 0.
Definition transcribe_env : env := mkEnv 2000 transcript_id "" 850.
Definition analyze_env : env := mkEnv 3000 analysis_id "" 1200.
Definition coach_env : env := mkEnv 4000 plan_id "" 1500.

Definition empty_world : world := mkWorld [] [] [] [] [] [].

Definition sample_upload : UploadService.Upload :=
  UploadService.mkUpload "audioFile" "call.WAV" "audio/wav" "RIFF....WAVEfmt ".

Definition uploaded_world : world :=
  Eval vm_compute in
  fresh_log
    (snd (@UploadController.postUpload sample_ordering sample_config upload_env
            [sample_upload] empty_world)).

Definition sample_audio : AudioFile.t :=
  Eval vm_compute in
  match audioFiles uploaded_world with
  | [a] => a
  | _ => AudioFile.mk "" "" "" "" "" 0 None 0 "" 0 0
  end.

(** Two segments, the second without a log-probability. *)
Definition sample_answer : WhisperResult.t :=
  WhisperResult.mk
    (Some "Hello, how can I help you today?")
    (Some [WhisperSegment.mk (Some "Hello,") (Some 0%Q) (Some (3 # 2)%Q)
             (Some (- (1 # 10))%Q);
           WhisperSegment.mk (Some "how can I help you today?") (Some (3 # 2)%Q)
             (Some 4%Q) None])
    (Some "english")
    (Some 4%Q).

(** What the provider answers on silence: no text and no segment. *)
Definition silence : WhisperResult.t :=
  WhisperResult.mk (Some "") (Some []) (Some "english") (Some 0%Q).

(** One segment of no duration. *)
Definition instant : list WhisperSegment.t :=
  [WhisperSegment.mk (Some "Hi") (Some 0%Q) (Some 0%Q) None].

Definition transcribed_world : world :=
  Eval vm_compute in
  fresh_log
    (snd (@TranscriptController.transcribeAudio sample_platform sample_ordering
            sample_config transcribe_env (STTService.Ok sample_answer) audio_id
            JUndefined uploaded_world)).

Definition sample_transcript : Transcript.t :=
  Eval vm_compute in
  match transcripts transcribed_world with
  | [t] => t
  | _ => Transcript.mk "" "" "" 0 [] "" 0 0 0
  end.

(** The world where the audio file of the transcript has been deleted. *)
Definition orphaned_world : world :=
  Eval vm_compute in
  fresh_log (snd (@UploadController.deleteUpload sample_ordering audio_id
                    transcribed_world)).

Definition sample_analysis : value :=
  JObj [("sentiment", JObj [("overall", JStr "positive"); ("score", JNum (1 # 2));
                            ("confidence", JNum (9 # 10))]);
        ("customerSatisfaction", JObj [("score", JNum 8)]);
        ("summary", JStr "The agent greeted the customer.")].

Definition analyzed_world : world :=
  Eval vm_compute in
  fresh_log
    (snd (@AnalysisController.analyzeTranscript sample_platform sample_ordering
            sample_config analyze_env (inr sample_analysis) transcript_id
            transcribed_world)).

Definition stored_analysis : Analysis.t :=
  Eval vm_compute in
  match analyses analyzed_world with
  | [a] => a
  | _ => Analysis.mk "" "" "" JNull JNull JNull JNull JNull JNull JNull JNull 0 0 0
  end.

Definition completed_audio : AudioFile.t :=
  Eval vm_compute in
  match audioFiles analyzed_world with
  | [a] => a
  | _ => AudioFile.mk "" "" "" "" "" 0 None 0 "" 0 0
  end.

Definition plan_with (score : Q) (level : string) : value :=
  JObj [("agentId", JStr "agent_007");
        ("overallPerformance", JObj [("score", JNum score); ("level", JStr level)]);
        ("customNotes", JStr "Keep the greeting.")].

(** Six uploads, for a list of more than one page. *)
Definition six_uploads : world :=
  Eval vm_compute in
  mkWorld
    (map (fun id => AudioFile.mk id "call.wav" "f.wav" "uploads/f.wav" "audio/wav"
                                 1024 None 1000 "uploaded" 1000 1000)
         ["64b7f0c2a1d2e3f4a5b6c711"; "64b7f0c2a1d2e3f4a5b6c712";
          "64b7f0c2a1d2e3f4a5b6c713"; "64b7f0c2a1d2e3f4a5b6c714";
          "64b7f0c2a1d2e3f4a5b6c715"; "64b7f0c2a1d2e3f4a5b6c716"])
    [] [] [] [] [].

Definition list_uploads (page limit : option Z) : Routes.listing :=
  Routes.GetUploads
    (UploadController.mkQuery (mkPaging page limit None None) None None).

(** The configuration of a deployment that has no key of the provider. *)
Definition keyless_config : config :=
  mkConfig (50 * 1024 * 1024) "uploads" "development" None.

(** What the storage engine wrote for the sample upload. *)
Definition stored_file : UploadService.File :=
  UploadService.mkFile "call.WAV" "audio/wav" "3f2b8c1e.WAV"
                       "uploads/3f2b8c1e.WAV" 16.

(** The first of six uploads left in the status [processing]. *)
Definition stuck_world : world :=
  Eval vm_compute in
  fresh_log
    (snd (@UploadController.updateStatus sample_ordering coach_env
            "64b7f0c2a1d2e3f4a5b6c711" (JStr "processing") six_uploads)).

Definition stuck_audio : AudioFile.t :=
  Eval vm_compute in
  match audioFiles stuck_world with
  | a :: _ => a
  | [] => AudioFile.mk "" "" "" "" "" 0 None 0 "" 0 0
  end.

(** A recording of thirty megabytes, which the upload limit lets through. *)
Definition long_recording : AudioFile.t :=
  AudioFile.mk audio_id "long.wav" "9a1c.wav" "uploads/9a1c.wav" "audio/wav"
               (30 * 1024 * 1024) None 1000 "uploaded" 1000 1000.

Definition long_recording_world : world :=
  mkWorld [long_recording] [] [] [] [("uploads/9a1c.wav", 30 * 1024 * 1024)] [].

(** The world where the audio file of the analysis has been deleted. *)
Definition orphaned_analysis_world : world :=
  Eval vm_compute in
  fresh_log (snd (@UploadController.deleteUpload sample_ordering audio_id
                    analyzed_world)).

(** The world after the coaching plan of the sample analysis. *)
Definition coached_world : world :=
  Eval vm_compute in
  fresh_log
    (snd (@CoachingController.generateCoachingPlan sample_platform sample_ordering
            sample_config coach_env (inr (plan_with 80 "good")) analysis_id
            (JStr "agent_007") analyzed_world)).

Definition agent_page
  : list (CoachingPlan.t * option Analysis.t * option AudioFile.t) :=
  Eval vm_compute in
  match data (fst (@CoachingController.getCoachingPlansByAgent sample_platform
                     sample_ordering "agent_007" (mkPaging None None None None)
                     coached_world)) with
  | CoachingList l => l
  | _ => []
  end.

(** * Properties *)

#[local] Arguments String.append : simpl never.
#[local] Arguments AudioFile.validate : simpl never.
#[local] Arguments Transcript.validate : simpl never.
#[local] Arguments Analysis.validate : simpl never.
#[local] Arguments CoachingPlan.validate : simpl never.
#[local] Arguments STTService.transcribeAudio : simpl never.
#[local] Arguments STTService.refusal : simpl never.
#[local] Arguments keyConfigured : simpl never.

(** ** Lists and the store *)

Lemma update_first_twice {A : Type} (p : A -> bool) (f g : A -> A) (l : list A) :
  (forall x, p (f x) = p x) ->
  update_first p g (update_first p f l) = update_first p (fun x => g (f x)) l.
Proof.
  intros Hp. induction l as [|x l IH]; cbn; [reflexivity|].
  destruct (p x) eqn:E; cbn.
  - rewrite Hp, E. reflexivity.
  - rewrite E, IH. reflexivity.
Qed.

Lemma find_update_first {A : Type} (p : A -> bool) (f : A -> A) (l : list A) (a : A) :
  List.find p l = Some a -> p (f a) = true ->
  List.find p (update_first p f l) = Some (f a).
Proof.
  induction l as [|x l IH]; cbn; [discriminate|].
  destruct (p x) eqn:E; intros H1 H2.
  - injection H1 as ->. cbn. rewrite H2. reflexivity.
  - cbn. rewrite E. auto.
Qed.

Lemma find_is_head_of_filter {A : Type} (p : A -> bool) (l : list A) :
  List.find p l = hd_error (filter p l).
Proof.
  induction l as [|x l IH]; cbn; [reflexivity|].
  destruct (p x); [reflexivity | exact IH].
Qed.

Lemma find_none_filter {A : Type} (p : A -> bool) (l : list A) :
  List.find p l = None -> filter p l = [].
Proof.
  rewrite find_is_head_of_filter. destruct (filter p l); [reflexivity | discriminate].
Qed.

Lemma find_existsb {A : Type} (p : A -> bool) (l : list A) :
  existsb p l = true -> exists a, List.find p l = Some a.
Proof.
  induction l as [|x l IH]; cbn; [discriminate|].
  destruct (p x); [eauto | exact IH].
Qed.

Lemma same_state_logged (op : store_op) (w : world) : same_state w (logged op w).
Proof. reflexivity. Qed.

Lemma same_state_refl (w : world) : same_state w w.
Proof. reflexivity. Qed.

Lemma length_filter_after {A : Type} (key : A -> ObjectId) (l l' : list A)
    (id u : ObjectId) :
  l' = l
  \/ (List.find (fun x => (key x =? id)%string) l = None
      /\ exists t, l' = (l ++ [t])%list /\ key t = id) ->
  (List.length (filter (fun x => (key x =? u)%string) l')
   <= Nat.max 1 (List.length (filter (fun x => (key x =? u)%string) l)))%nat.
Proof.
  intros [-> | [Hnone [t [-> Ht]]]]; [lia|].
  rewrite filter_app, length_app. cbn [filter].
  destruct (String.eqb_spec (key t) u) as [E|E]; cbn [List.length].
  - subst id u. rewrite (find_none_filter _ _ Hnone). cbn. lia.
  - lia.
Qed.

(** ** Computations that leave the world alone *)

Lemma pure_ret {A : Type} (a : A) : pure (ret a).
Proof. exists (inr a). reflexivity. Qed.

Lemma pure_throw {A : Type} (e : exn) : pure (throw (A := A) e).
Proof. exists (inl e). reflexivity. Qed.

Lemma pure_lift {A : Type} (r : exn + A) : pure (lift r).
Proof. exists r. reflexivity. Qed.

Lemma pure_bind {A B : Type} (m : IO A) (k : A -> IO B) :
  pure m -> (forall a, pure (k a)) -> pure (bind m k).
Proof.
  intros [r Hr] Hk. destruct r as [e|a].
  - exists (inl e). intros w. unfold bind. rewrite Hr. reflexivity.
  - destruct (Hk a) as [r' Hr']. exists r'. intros w. unfold bind.
    rewrite Hr. apply Hr'.
Qed.

Lemma pure_try_catch {A : Type} (m : IO A) (h : exn -> IO A) :
  pure m -> (forall e, pure (h e)) -> pure (try_catch m h).
Proof.
  intros [r Hr] Hh. destruct r as [e|a].
  - destruct (Hh e) as [r' Hr']. exists r'. intros w. unfold try_catch.
    rewrite Hr. apply Hr'.
  - exists (inr a). intros w. unfold try_catch. rewrite Hr. reflexivity.
Qed.

Ltac pure_tac :=
  repeat first
    [ apply pure_ret | apply pure_throw | apply pure_lift
    | apply pure_bind; [|intros ?] | apply pure_try_catch; [|intros ?]
    | match goal with |- pure (if ?b then _ else _) => destruct b end
    | match goal with |- pure (match ?x with _ => _ end) => destruct x end ].

Lemma pure_analyzeTranscript (cfg : config) (call : string + value) (elapsed : Z) :
  pure (LLMService.analyzeTranscript cfg call elapsed).
Proof.
  unfold LLMService.analyzeTranscript, LLMService.checkAnalysis. pure_tac.
Qed.

Lemma pure_generateCoachingPlan (cfg : config) (call : string + value)
    (elapsed : Z) :
  pure (LLMService.generateCoachingPlan cfg call elapsed).
Proof.
  unfold LLMService.generateCoachingPlan, LLMService.checkCoachingPlan. pure_tac.
Qed.

(** ** What the language-model service has checked when it returns *)

Ltac crack H :=
  repeat (cbn in H; try discriminate H;
          match type of H with
          | context [lookup ?k ?f] => destruct (lookup k f) eqn:?
          | context [(Qnum ?q =? 0)%Z] => destruct (Qnum q =? 0)%Z eqn:?
          | context [(?s =? "")%string] => destruct (s =? "")%string eqn:?
          | context [match ?x with _ => _ end] => is_var x; destruct x eqn:?
          | context [if ?x then _ else _] => is_var x; destruct x eqn:?
          | context [negb ?x] => is_var x; destruct x eqn:?
          end).

Ltac settle :=
  cbn;
  repeat match goal with
         | E : lookup _ _ = _ |- _ => rewrite E; cbn
         end;
  repeat match goal with
         | E : _ = _ |- _ => rewrite E; cbn
         end;
  try reflexivity.

Lemma analyzeTranscript_returns (cfg : config) (call : string + value)
    (elapsed : Z) (w w' : world) (res : LLMService.Result) :
  LLMService.analyzeTranscript cfg call elapsed w = (inr res, w') ->
  keyConfigured cfg = true
  /\ exists r, call = inr r /\ res = LLMService.mkResult r elapsed
    /\ truthy (field (field r "sentiment") "overall") = true
    /\ isUndefined (field (field r "sentiment") "score") = false
    /\ truthy (field r "summary") = true.
Proof.
  unfold LLMService.analyzeTranscript, LLMService.checkAnalysis,
    try_catch, bind, lift, ret, throw, get.
  intros H. destruct (keyConfigured cfg); [|discriminate H].
  split; [reflexivity|].
  destruct call as [cause|r]; [discriminate H|].
  exists r. crack H; injection H as <- <-; repeat split; settle.
Qed.

Lemma generateCoachingPlan_returns (cfg : config) (call : string + value)
    (elapsed : Z) (w w' : world) (res : LLMService.Result) :
  LLMService.generateCoachingPlan cfg call elapsed w = (inr res, w') ->
  keyConfigured cfg = true
  /\ exists r, call = inr r /\ res = LLMService.mkResult r elapsed
    /\ truthy (field r "agentId") = true
    /\ truthy (field (field r "overallPerformance") "score") = true
    /\ truthy (field (field r "overallPerformance") "level") = true.
Proof.
  unfold LLMService.generateCoachingPlan, LLMService.checkCoachingPlan,
    try_catch, bind, lift, ret, throw, get.
  intros H. destruct (keyConfigured cfg); [|discriminate H].
  split; [reflexivity|].
  destruct call as [cause|r]; [discriminate H|].
  exists r. crack H; injection H as <- <-; repeat split; settle.
Qed.

(** ** Values *)

Lemma truthy_present (v : value) : truthy v = true -> present v = true.
Proof. destruct v; cbn; congruence. Qed.

Lemma defined_get (v : value) (k : string) :
  isUndefined (field v k) = false -> get v k = inr (field v k).
Proof. destruct v; cbn; congruence. Qed.

Lemma truthy_defined (v : value) : truthy v = true -> isUndefined v = false.
Proof. destruct v; cbn; congruence. Qed.

Lemma field_parent (v : value) (k : string) :
  isUndefined (field v k) = false -> truthy v = true.
Proof. destruct v; cbn; congruence. Qed.

Lemma concat_nil_inv {A : Type} (ls : list (list A)) :
  concat ls = [] -> Forall (fun l => l = []) ls.
Proof.
  induction ls as [|l ls IH]; cbn; intros H; constructor.
  - apply app_eq_nil in H. tauto.
  - apply IH. apply app_eq_nil in H. tauto.
Qed.

(** ** The pipeline *)

Section Pipeline.

Context {P : Platform} {O : Ordering}.

(** *** Transcription *)

Lemma calculateOverallConfidence_le_1 (segments : list WhisperSegment.t) :
  (STTService.calculateOverallConfidence segments <= 1)%Q.
Proof.
  unfold STTService.calculateOverallConfidence.
  destruct segments as [|s l]; [discriminate|].
  destruct (negb _); [|discriminate].
  unfold Math_min.
  destruct (Qle_bool _ 1) eqn:E; [apply Qle_bool_iff; exact E | apply Qle_refl].
Qed.

Lemma transcript_valid (d : Transcript.t) :
  Transcript.text d <> "" ->
  (0 <= Transcript.confidence d)%Q -> (Transcript.confidence d <= 1)%Q ->
  Transcript.validate d = [].
Proof.
  intros Ht H0 H1. unfold Transcript.validate, required_string, within.
  destruct (String.eqb_spec (Transcript.text d) ""); [contradiction|].
  apply Qle_bool_iff in H0, H1. rewrite H0, H1. reflexivity.
Qed.

(** The service leaves the world as it is, and what it returns depends on
    the file system only. *)
Lemma transcribeAudio_outcome (cfg : config) (fetched : STTService.Fetched)
    (elapsed : Z) (filePath language : string) (w : world) :
  STTService.transcribeAudio cfg fetched elapsed filePath language w =
  (match STTService.refusal cfg filePath (stat filePath w) with
   | Some reason => inl (Error ("Transcription failed: " ++ reason))
   | None =>
       match STTService.providerError fetched, fetched with
       | Some reason, _ => inl (Error ("Transcription failed: " ++ reason))
       | None, STTService.Ok answer =>
           inr (STTService.transform answer elapsed language)
       | None, _ => inl (Error "Transcription failed: ")
       end
   end, w).
Proof.
  unfold STTService.transcribeAudio, try_catch, throw, ret.
  destruct (STTService.refusal cfg filePath (stat filePath w)); [reflexivity|].
  destruct fetched; reflexivity.
Qed.

(** What [transcribeAudio] does once the service has thrown. *)
Lemma transcribe_failed (cfg : config) (e : env) (fetched : STTService.Fetched)
    (reason audioFileId : string) (language : value) (lang : string)
    (w : world) (a : AudioFile.t) :
  TranscriptController.validateLanguage
    (if isUndefined language then JStr "en" else language) = inr lang ->
  matchesObjectId audioFileId = true ->
  List.find (has_id audioFileId) (audioFiles w) = Some a ->
  List.find (TranscriptController.owned_by audioFileId) (transcripts w) = None ->
  fst (STTService.transcribeAudio cfg fetched (elapsed e) (AudioFile.path a) lang w)
    = inl (Error ("Transcription failed: " ++ reason)) ->
  let result :=
    TranscriptController.transcribeAudio cfg e fetched audioFileId language w in
  fst result = fail 500 "Transcription failed" ("Transcription failed: " ++ reason)
  /\ transcripts (snd result) = transcripts w
  /\ audioFiles (snd result) =
       update_first (has_id audioFileId) (TranscriptController.mark e "failed")
                    (audioFiles w)
  /\ List.find (has_id audioFileId) (audioFiles (snd result)) =
       Some (TranscriptController.mark e "failed" a)
  /\ AudioFile.status (TranscriptController.mark e "failed" a) = "failed".
Proof.
  intros Hl Hid Ha Ht Hs.
  rewrite transcribeAudio_outcome in Hs. cbn [fst] in Hs.
  unfold TranscriptController.transcribeAudio, handler.
  rewrite Hl, Hid. cbn.
  unfold bind, findById, findOne. cbn. rewrite Ha. cbn. rewrite Ht. cbn.
  unfold findByIdAndUpdate. cbn. rewrite Ha. cbn.
  unfold try_catch. cbn beta.
  rewrite transcribeAudio_outcome. unfold stat in *. cbn [files].
  destruct (STTService.refusal _ _ _) as [refused|].
  - injection Hs as Hs. change (refused = reason) in Hs. subst refused. cbn.
    erewrite find_update_first by (eassumption || (cbn; apply (find_some _ _ Ha))).
    cbn. rewrite update_first_twice by reflexivity. cbn.
    repeat split.
    apply (find_update_first _ _ _ _ Ha). cbn. apply (find_some _ _ Ha).
  - destruct (STTService.providerError fetched) as [failed|] eqn:Hp.
    + injection Hs as Hs. change (failed = reason) in Hs. subst failed. cbn.
      erewrite find_update_first by (eassumption || (cbn; apply (find_some _ _ Ha))).
      cbn. rewrite update_first_twice by reflexivity. cbn.
      repeat split.
      apply (find_update_first _ _ _ _ Ha). cbn. apply (find_some _ _ Ha).
    + destruct fetched; discriminate.
Qed.

(** C3: when the provider call fails on a request that passed the checks,
    the audio file is marked [failed], no transcript is created and the
    answer is a 500 whose [error] carries the provider's error text: the
    reason of the rejection when the call is rejected, and when the provider
    answers with a status that is not ok, that status and the message of
    the error in its body or, for want of one, its status text. *)
Theorem C3_provider_failure_marks_audio_failed
    (cfg : config) (e : env) (fetched : STTService.Fetched)
    (audioFileId : string) (language : value) (lang : string)
    (w : world) (a : AudioFile.t) :
  TranscriptController.validateLanguage
    (if isUndefined language then JStr "en" else language) = inr lang ->
  matchesObjectId audioFileId = true ->
  List.find (has_id audioFileId) (audioFiles w) = Some a ->
  List.find (TranscriptController.owned_by audioFileId) (transcripts w) = None ->
  STTService.refusal cfg (AudioFile.path a) (stat (AudioFile.path a) w) = None ->
  (forall answer, fetched <> STTService.Ok answer) ->
  let result :=
    TranscriptController.transcribeAudio cfg e fetched audioFileId language w in
  let cause :=
    match fetched with
    | STTService.Rejected reason => reason
    | STTService.NotOk status statusText errorMessage =>
        "OpenAI API Error (" ++ showZ status ++ "): "
        ++ match errorMessage with
           | Some text => if (text =? "")%string then statusText else text
           | None => statusText
           end
    | STTService.Ok _ => ""
    end in
  fst result = fail 500 "Transcription failed" ("Transcription failed: " ++ cause)
  /\ transcripts (snd result) = transcripts w
  /\ audioFiles (snd result) =
       update_first (has_id audioFileId) (TranscriptController.mark e "failed")
                    (audioFiles w)
  /\ List.find (has_id audioFileId) (audioFiles (snd result)) =
       Some (TranscriptController.mark e "failed" a)
  /\ AudioFile.status (TranscriptController.mark e "failed" a) = "failed".
Proof.
  intros Hl Hid Ha Ht Hr Hfailed result cause. subst result.
  apply (transcribe_failed cfg e fetched cause audioFileId language lang w a
           Hl Hid Ha Ht).
  rewrite transcribeAudio_outcome, Hr. subst cause.
  destruct fetched as [reason | status statusText errorMessage | answer];
    [reflexivity | reflexivity | exfalso; exact (Hfailed answer eq_refl)].
Qed.

(** C2, as amended: when the provider call succeeds with a text that is not
    empty and an overall confidence that is not negative, a transcript with
    the provider's text, confidence, segments, language and latency is
    stored, and the audio file gets the status [completed] and the duration
    the provider found. *)
Theorem C2_provider_success_stores_transcript
    (cfg : config) (e : env) (answer : WhisperResult.t) (audioFileId : string)
    (language : value) (lang : string) (w : world) (a : AudioFile.t) :
  TranscriptController.validateLanguage
    (if isUndefined language then JStr "en" else language) = inr lang ->
  matchesObjectId audioFileId = true ->
  List.find (has_id audioFileId) (audioFiles w) = Some a ->
  List.find (TranscriptController.owned_by audioFileId) (transcripts w) = None ->
  STTService.refusal cfg (AudioFile.path a) (stat (AudioFile.path a) w) = None ->
  let provided := STTService.transform answer (elapsed e) lang in
  STTService.text provided <> "" ->
  (0 <= STTService.confidence provided)%Q ->
  let result :=
    TranscriptController.transcribeAudio cfg e (STTService.Ok answer)
      audioFileId language w in
  let t := TranscriptController.newTranscript e audioFileId provided in
  fst result = done 201 "Audio file transcribed successfully" (Transcribed t)
  /\ transcripts (snd result) = (transcripts w ++ [t])%list
  /\ (Transcript.text t = STTService.text provided
      /\ Transcript.confidence t = STTService.confidence provided
      /\ Transcript.segments t = STTService.segments provided
      /\ Transcript.language t = STTService.language provided
      /\ Transcript.processingTime t = STTService.processingTime provided)
  /\ audioFiles (snd result) =
       update_first (has_id audioFileId)
         (TranscriptController.complete e (STTService.duration provided))
         (audioFiles w)
  /\ List.find (has_id audioFileId) (audioFiles (snd result)) =
       Some (TranscriptController.complete e (STTService.duration provided) a)
  /\ AudioFile.status
       (TranscriptController.complete e (STTService.duration provided) a) = "completed"
  /\ AudioFile.duration
       (TranscriptController.complete e (STTService.duration provided) a)
     = Some (STTService.duration provided).
Proof.
  intros Hl Hid Ha Ht Hr provided Htext Hconf.
  assert (Hv : Transcript.validate
                 (TranscriptController.newTranscript e audioFileId provided) = []).
  { apply transcript_valid; cbn; auto. apply calculateOverallConfidence_le_1. }
  unfold TranscriptController.transcribeAudio, handler.
  rewrite Hl, Hid. cbn.
  unfold bind, findById, findOne. cbn. rewrite Ha. cbn. rewrite Ht. cbn.
  unfold findByIdAndUpdate, save. cbn. rewrite Ha. cbn.
  unfold try_catch. cbn beta.
  rewrite transcribeAudio_outcome. unfold stat in *. cbn [files]. rewrite Hr.
  cbn. fold provided. rewrite Hv. cbn.
  erewrite find_update_first by (eassumption || (cbn; apply (find_some _ _ Ha))).
  cbn. rewrite update_first_twice by reflexivity. cbn.
  repeat split.
  apply (find_update_first _ _ _ _ Ha). cbn. apply (find_some _ _ Ha).
Qed.

(** C10: a transcription request answered 409 has sent two reads to the
    store and nothing else, so the audio file, its status included, is as it
    was: the update to [processing] comes after the existence check. *)
Theorem C10_conflict_leaves_audio_file_untouched
    (cfg : config) (e : env) (fetched : STTService.Fetched) (audioFileId : string)
    (language : value) (w : world) :
  let result :=
    TranscriptController.transcribeAudio cfg e fetched audioFileId language w in
  statusCode (fst result) = 409 ->
  (exists t,
      List.find (TranscriptController.owned_by audioFileId) (transcripts w) = Some t
      /\ fst result = conflict "Transcript already exists for this audio file"
                               (Transcript._id t) (Transcript.createdAt t))
  /\ audioFiles (snd result) = audioFiles w
  /\ same_state w (snd result)
  /\ log (snd result) = (log w ++ [Read AudioFiles; Read Transcripts])%list.
Proof.
  unfold TranscriptController.transcribeAudio, handler.
  destruct (TranscriptController.validateLanguage _) as [err|lang];
    [cbn; discriminate|].
  destruct (matchesObjectId audioFileId); [|cbn; discriminate].
  cbn. unfold bind, findById, findOne. cbn.
  destruct (List.find (has_id audioFileId) (audioFiles w)) as [a|] eqn:Ha;
    [|cbn; discriminate].
  cbn.
  destruct (List.find (TranscriptController.owned_by audioFileId) (transcripts w))
    as [t|] eqn:Ht.
  - cbn. intros _. split; [exists t; split; reflexivity|].
    repeat split. rewrite <- app_assoc. reflexivity.
  - cbn. unfold findByIdAndUpdate, try_catch, save. cbn. rewrite Ha. cbn.
    rewrite transcribeAudio_outcome.
    destruct (STTService.refusal _ _ _) as [refused|]; cbn.
    + erewrite find_update_first by (eassumption || (cbn; apply (find_some _ _ Ha))).
      cbn. discriminate.
    + destruct fetched as [cause|status statusText errorMessage|answer]; cbn.
      1, 2: erewrite find_update_first
              by (eassumption || (cbn; apply (find_some _ _ Ha)));
            cbn; discriminate.
      destruct (Transcript.validate _); cbn;
        erewrite find_update_first by (eassumption || (cbn; apply (find_some _ _ Ha)));
        cbn; discriminate.
Qed.

(** *** One downstream record per upstream record *)

Lemma transcribe_effect (cfg : config) (e : env) (fetched : STTService.Fetched)
    (audioFileId : string) (language : value) (w : world) :
  let result :=
    TranscriptController.transcribeAudio cfg e fetched audioFileId language w in
  transcripts (snd result) = transcripts w
  \/ (List.find (TranscriptController.owned_by audioFileId) (transcripts w) = None
      /\ exists t, transcripts (snd result) = (transcripts w ++ [t])%list
                   /\ Transcript.audioFileId t = castObjectId audioFileId).
Proof.
  unfold TranscriptController.transcribeAudio, handler.
  destruct (TranscriptController.validateLanguage _) as [err|lang];
    [left; reflexivity|].
  destruct (matchesObjectId audioFileId); [|left; reflexivity].
  cbn. unfold bind, findById, findOne. cbn.
  destruct (List.find (has_id audioFileId) (audioFiles w)) as [a|] eqn:Ha;
    [|left; reflexivity].
  cbn.
  destruct (List.find (TranscriptController.owned_by audioFileId) (transcripts w))
    as [t|] eqn:Ht; [left; reflexivity|].
  cbn. unfold findByIdAndUpdate, try_catch, save. cbn. rewrite Ha. cbn.
  rewrite transcribeAudio_outcome.
  destruct (STTService.refusal _ _ _) as [refused|]; cbn.
  { erewrite find_update_first by (eassumption || (cbn; apply (find_some _ _ Ha))).
    left. reflexivity. }
  destruct fetched as [cause|status statusText errorMessage|answer]; cbn.
  1, 2: erewrite find_update_first
          by (eassumption || (cbn; apply (find_some _ _ Ha)));
        left; reflexivity.
  destruct (Transcript.validate _); cbn;
    erewrite find_update_first by (eassumption || (cbn; apply (find_some _ _ Ha)));
    cbn; [right | left; reflexivity].
  split; [reflexivity|]. eexists. split; reflexivity.
Qed.

Lemma transcribe_existing (cfg : config) (e : env) (fetched : STTService.Fetched)
    (audioFileId : string) (language : value) (w : world) (t : Transcript.t) :
  List.find (TranscriptController.owned_by audioFileId) (transcripts w) = Some t ->
  let result :=
    TranscriptController.transcribeAudio cfg e fetched audioFileId language w in
  same_state w (snd result)
  /\ In (statusCode (fst result)) [400; 404; 409]
  /\ (Routes.well_formed (Routes.Transcribe fetched audioFileId language) = true ->
      Routes.upstream_exists (Routes.Transcribe fetched audioFileId language) w
        = true ->
      fst result = conflict "Transcript already exists for this audio file"
                            (Transcript._id t) (Transcript.createdAt t)).
Proof.
  intros Ht. unfold Routes.well_formed, Routes.upstream_exists.
  unfold TranscriptController.transcribeAudio, handler. cbn [Routes.upstream_id].
  destruct (TranscriptController.validateLanguage _) as [err|lang].
  { cbn. rewrite andb_false_r. repeat split; auto; discriminate. }
  destruct (matchesObjectId audioFileId).
  2:{ cbn. repeat split; auto; discriminate. }
  cbn. unfold bind, findById, findOne. cbn.
  destruct (List.find (has_id audioFileId) (audioFiles w)) as [a|] eqn:Ha.
  - cbn. rewrite Ht. cbn. repeat split; auto.
  - cbn. repeat split; auto. intros _ Hex.
    destruct (find_existsb _ _ Hex) as [a Ha']. cbn in Ha'. congruence.
Qed.

Lemma analyze_effect (cfg : config) (e : env) (call : string + value)
    (transcriptId : string) (w : world) :
  let result := AnalysisController.analyzeTranscript cfg e call transcriptId w in
  analyses (snd result) = analyses w
  \/ (List.find (AnalysisController.about transcriptId) (analyses w) = None
      /\ exists a, analyses (snd result) = (analyses w ++ [a])%list
                   /\ Analysis.transcriptId a = castObjectId transcriptId).
Proof.
  unfold AnalysisController.analyzeTranscript, handler.
  destruct (matchesObjectId transcriptId); [|left; reflexivity].
  cbn. unfold bind, findById, findOne, populate. cbn.
  destruct (List.find (has_id transcriptId) (transcripts w)) as [t|] eqn:Ht;
    [|left; reflexivity].
  cbn.
  destruct (List.find (AnalysisController.about transcriptId) (analyses w))
    as [a|] eqn:Ha; [left; reflexivity|].
  cbn. destruct (pure_analyzeTranscript cfg call (elapsed e)) as [r Hr]. rewrite Hr.
  destruct r as [err|res]; [left; reflexivity|].
  destruct (List.find _ (audioFiles w)) as [af|]; [|left; reflexivity].
  cbn. unfold save. cbn.
  destruct (Analysis.validate _); cbn; [right | left; reflexivity].
  split; [reflexivity|]. eexists. split; reflexivity.
Qed.

Lemma analyze_existing (cfg : config) (e : env) (call : string + value)
    (transcriptId : string) (w : world) (a : Analysis.t) :
  List.find (AnalysisController.about transcriptId) (analyses w) = Some a ->
  let result := AnalysisController.analyzeTranscript cfg e call transcriptId w in
  same_state w (snd result)
  /\ In (statusCode (fst result)) [400; 404; 409]
  /\ (Routes.well_formed (Routes.Analyze call transcriptId) = true ->
      Routes.upstream_exists (Routes.Analyze call transcriptId) w = true ->
      fst result = conflict "Analysis already exists for this transcript"
                            (Analysis._id a) (Analysis.createdAt a)).
Proof.
  intros Ha. unfold Routes.well_formed, Routes.upstream_exists.
  unfold AnalysisController.analyzeTranscript, handler. cbn [Routes.upstream_id].
  destruct (matchesObjectId transcriptId).
  2:{ cbn. repeat split; auto; discriminate. }
  cbn. unfold bind, findById, findOne, populate. cbn.
  destruct (List.find (has_id transcriptId) (transcripts w)) as [t|] eqn:Ht.
  - cbn. rewrite Ha. cbn. repeat split; auto.
  - cbn. repeat split; auto. intros _ Hex.
    destruct (find_existsb _ _ Hex) as [t Ht']. cbn in Ht'. congruence.
Qed.

Lemma coach_effect (cfg : config) (e : env) (call : string + value)
    (analysisId : string) (agentId : value) (w : world) :
  let result :=
    CoachingController.generateCoachingPlan cfg e call analysisId agentId w in
  coachingPlans (snd result) = coachingPlans w
  \/ (List.find (CoachingController.from analysisId) (coachingPlans w) = None
      /\ exists p, coachingPlans (snd result) = (coachingPlans w ++ [p])%list
                   /\ CoachingPlan.analysisId p = castObjectId analysisId).
Proof.
  unfold CoachingController.generateCoachingPlan, handler.
  destruct (CoachingController.validateAgentId _); [left; reflexivity|].
  destruct (matchesObjectId analysisId); [|left; reflexivity].
  cbn. unfold bind, findById, findOne, populate. cbn.
  destruct (List.find (has_id analysisId) (analyses w)) as [a|] eqn:Ha;
    [|left; reflexivity].
  cbn.
  destruct (List.find (CoachingController.from analysisId) (coachingPlans w))
    as [p|] eqn:Hp; [left; reflexivity|].
  cbn. destruct (pure_generateCoachingPlan cfg call (elapsed e)) as [r Hr].
  rewrite Hr.
  destruct r as [err|res]; [left; reflexivity|].
  destruct (List.find _ (audioFiles w)) as [af|]; [|left; reflexivity].
  cbn. unfold save. cbn.
  destruct (CoachingPlan.validate _); cbn; [right | left; reflexivity].
  split; [reflexivity|]. eexists. split; reflexivity.
Qed.

Lemma coach_existing (cfg : config) (e : env) (call : string + value)
    (analysisId : string) (agentId : value) (w : world) (p : CoachingPlan.t) :
  List.find (CoachingController.from analysisId) (coachingPlans w) = Some p ->
  let result :=
    CoachingController.generateCoachingPlan cfg e call analysisId agentId w in
  same_state w (snd result)
  /\ In (statusCode (fst result)) [400; 404; 409]
  /\ (Routes.well_formed (Routes.Coach call analysisId agentId) = true ->
      Routes.upstream_exists (Routes.Coach call analysisId agentId) w = true ->
      fst result = conflict "Coaching plan already exists for this analysis"
                            (CoachingPlan._id p) (CoachingPlan.createdAt p)).
Proof.
  intros Hp. unfold Routes.well_formed, Routes.upstream_exists.
  unfold CoachingController.generateCoachingPlan, handler. cbn [Routes.upstream_id].
  destruct (CoachingController.validateAgentId _).
  { cbn. rewrite andb_false_r. repeat split; auto; discriminate. }
  destruct (matchesObjectId analysisId).
  2:{ cbn. repeat split; auto; discriminate. }
  cbn. unfold bind, findById, findOne, populate. cbn.
  destruct (List.find (has_id analysisId) (analyses w)) as [a|] eqn:Ha.
  - cbn. rewrite Hp. cbn. repeat split; auto.
  - cbn. repeat split; auto. intros _ Hex.
    destruct (find_existsb _ _ Hex) as [a Ha']. cbn in Ha'. congruence.
Qed.

Lemma hd_error_map {A B : Type} (f : A -> B) (l : list A) :
  hd_error (map f l) = option_map f (hd_error l).
Proof. destruct l; reflexivity. Qed.

(** C1, as amended: a create request never brings the downstream records of
    an upstream id to more than one (or more than there were); when one
    exists already for the id of the request, the store is left as it is and
    the answer is 400, 404 or 409; it is 409 with the id of the first
    existing record whenever the request passes the checks on its shape and
    the upstream record exists. *)
Theorem C1_existing_downstream_blocks_creation
    (cfg : config) (e : env) (r : Routes.create) (w : world) :
  let result := Routes.run_create cfg e r w in
  (forall u,
      (List.length (Routes.downstream r u (snd result))
       <= Nat.max 1 (List.length (Routes.downstream r u w)))%nat)
  /\ (forall d,
        hd_error (Routes.downstream r (castObjectId (Routes.upstream_id r)) w)
        = Some d ->
        same_state w (snd result)
        /\ In (statusCode (fst result)) [400; 404; 409]
        /\ (Routes.well_formed r = true ->
            Routes.upstream_exists r w = true ->
            fst result = conflict (Routes.conflict_message r) (fst d) (snd d))).
Proof.
  destruct r as [call id language | call id | call id agentId];
    cbn [Routes.run_create Routes.upstream_id Routes.conflict_message];
    unfold Routes.downstream; split.
  - intros u. rewrite !length_map.
    apply (length_filter_after Transcript.audioFileId _ _ (castObjectId id)).
    apply transcribe_effect.
  - intros d. rewrite hd_error_map, <- find_is_head_of_filter.
    destruct (List.find _ (transcripts w)) as [t|] eqn:Ht; [|discriminate].
    intros [= <-]. apply (transcribe_existing cfg e call id language w t Ht).
  - intros u. rewrite !length_map.
    apply (length_filter_after Analysis.transcriptId _ _ (castObjectId id)).
    apply analyze_effect.
  - intros d. rewrite hd_error_map, <- find_is_head_of_filter.
    destruct (List.find _ (analyses w)) as [a|] eqn:Ha; [|discriminate].
    intros [= <-]. apply (analyze_existing cfg e call id w a Ha).
  - intros u. rewrite !length_map.
    apply (length_filter_after CoachingPlan.analysisId _ _ (castObjectId id)).
    apply coach_effect.
  - intros d. rewrite hd_error_map, <- find_is_head_of_filter.
    destruct (List.find _ (coachingPlans w)) as [p|] eqn:Hp; [|discriminate].
    intros [= <-]. apply (coach_existing cfg e call id agentId w p Hp).
Qed.

(** *** Analysis *)

Lemma required_number_present (path : string) (lo hi : Q) (v : value) :
  required_number path lo hi v = [] -> present v = true.
Proof. destruct v; cbn; congruence. Qed.

Lemma analysis_valid_score (d : Analysis.t) :
  Analysis.validate d = [] ->
  present (field (Analysis.sentiment d) "score") = true.
Proof.
  unfold Analysis.validate. intros H. apply concat_nil_inv in H.
  inversion H as [|? ? _ H1]. inversion H1 as [|? ? Hs _].
  apply (required_number_present _ _ _ _ Hs).
Qed.

(** C4: on an existing transcript without an analysis, either the request
    succeeds, and then the provider's answer holds a non-null
    [sentiment.overall], [sentiment.score] and [summary] and one analysis is
    stored, or it fails with a 500 and the store is as it was. *)
Theorem C4_analysis_needs_sentiment_and_summary
    (cfg : config) (e : env) (call : string + value) (transcriptId : string)
    (w : world) (t : Transcript.t) :
  matchesObjectId transcriptId = true ->
  List.find (has_id transcriptId) (transcripts w) = Some t ->
  List.find (AnalysisController.about transcriptId) (analyses w) = None ->
  let result := AnalysisController.analyzeTranscript cfg e call transcriptId w in
  (statusCode (fst result) = 201
   /\ success (fst result) = true
   /\ exists r a,
        call = inr r
        /\ present (field (field r "sentiment") "overall") = true
        /\ present (field (field r "sentiment") "score") = true
        /\ present (field r "summary") = true
        /\ data (fst result) = Analyzed a
        /\ analyses (snd result) = (analyses w ++ [a])%list)
  \/ (statusCode (fst result) = 500
      /\ success (fst result) = false
      /\ same_state w (snd result)).
Proof.
  intros Hid Ht Ha.
  unfold AnalysisController.analyzeTranscript, handler. rewrite Hid. cbn.
  unfold bind, findById, findOne, populate. cbn. rewrite Ht. cbn. rewrite Ha. cbn.
  destruct (pure_analyzeTranscript cfg call (elapsed e)) as [r Hr]. rewrite Hr.
  destruct r as [err|res]; [right; repeat split|].
  destruct (analyzeTranscript_returns _ _ _ _ _ _ (Hr w))
    as [_ [r [-> [-> [Ho [Hs Hsum]]]]]].
  destruct (List.find _ (audioFiles w)) as [af|]; [|right; repeat split].
  cbn. unfold save. cbn.
  destruct (Analysis.validate _) eqn:Hv; cbn; [left | right; repeat split].
  repeat split. exists r. eexists. repeat split.
  - apply truthy_present, Ho.
  - apply (analysis_valid_score _ Hv).
  - apply truthy_present, Hsum.
Qed.

(** *** Coaching *)

Lemma includes_In (l : list string) (s : string) : In s l -> includes l s = true.
Proof.
  intros H. unfold includes. apply existsb_exists. exists s.
  split; [exact H | apply String.eqb_refl].
Qed.

Lemma generateCoachingPlan_accepts (cfg : config) (r : value) (elapsed : Z)
    (w : world) :
  keyConfigured cfg = true ->
  truthy (field r "agentId") = true ->
  truthy (field (field r "overallPerformance") "score") = true ->
  truthy (field (field r "overallPerformance") "level") = true ->
  LLMService.generateCoachingPlan cfg (inr r) elapsed w
  = (inr (LLMService.mkResult r elapsed), w).
Proof.
  intros Hk Ha Hs Hl.
  pose proof (truthy_defined _ Hs) as Hs'. pose proof (truthy_defined _ Hl) as Hl'.
  pose proof (field_parent _ _ Hs') as Hp.
  unfold LLMService.generateCoachingPlan, LLMService.checkCoachingPlan,
    try_catch, bind, lift, ret, throw.
  rewrite Hk. cbn [negb].
  rewrite (defined_get r "agentId") by (apply truthy_defined, Ha).
  rewrite Ha. cbn.
  rewrite (defined_get r "overallPerformance") by (apply truthy_defined, Hp).
  rewrite Hp. cbn.
  rewrite (defined_get _ "score") by exact Hs'. rewrite Hs. cbn.
  rewrite (defined_get _ "level") by exact Hl'. rewrite Hl. reflexivity.
Qed.

(** C5, as amended: on an existing analysis without a coaching plan, either
    the request succeeds, and then the provider's answer holds a non-null
    [agentId], [overallPerformance.score] and [overallPerformance.level] and
    one plan is stored, or it fails with a 500 and the store is as it was.
    It does succeed when [agentId] is a non-empty string, the score a number
    other than zero between 0 and 100, the level one of the five levels, the
    other paths of the plan validate and the audio file of the analysis is
    still there. *)
Theorem C5_coaching_needs_agent_and_performance
    (cfg : config) (e : env) (call : string + value) (analysisId : string)
    (agentId : value) (w : world) (a : Analysis.t) :
  CoachingController.validateAgentId
    (if isUndefined agentId then JStr "agent_001" else agentId) = None ->
  matchesObjectId analysisId = true ->
  List.find (has_id analysisId) (analyses w) = Some a ->
  List.find (CoachingController.from analysisId) (coachingPlans w) = None ->
  let result :=
    CoachingController.generateCoachingPlan cfg e call analysisId agentId w in
  ((statusCode (fst result) = 201
    /\ success (fst result) = true
    /\ exists r p,
         call = inr r
         /\ present (field r "agentId") = true
         /\ present (field (field r "overallPerformance") "score") = true
         /\ present (field (field r "overallPerformance") "level") = true
         /\ data (fst result) = Generated p
         /\ coachingPlans (snd result) = (coachingPlans w ++ [p])%list)
   \/ (statusCode (fst result) = 500
       /\ success (fst result) = false
       /\ same_state w (snd result)))
  /\ (forall r agent score level audioFile,
        keyConfigured cfg = true ->
        call = inr r ->
        field r "agentId" = JStr agent -> agent <> "" ->
        field (field r "overallPerformance") "score" = JNum score ->
        ~ (score == 0)%Q -> (0 <= score)%Q -> (score <= 100)%Q ->
        field (field r "overallPerformance") "level" = JStr level ->
        In level CoachingPlan.levels ->
        List.find (fun d => (AudioFile._id d =? Analysis.audioFileId a)%string)
                  (audioFiles w) = Some audioFile ->
        otherCoachingPaths
          (CoachingPlan.others
             (CoachingController.newCoachingPlan e analysisId
                (AudioFile._id audioFile) (LLMService.mkResult r (elapsed e)))) = [] ->
        statusCode (fst result) = 201).
Proof.
  intros Hagent Hid Ha Hp.
  unfold CoachingController.generateCoachingPlan, handler. rewrite Hagent, Hid. cbn.
  unfold bind, findById, findOne, populate. cbn. rewrite Ha. cbn. rewrite Hp. cbn.
  split.
  - destruct (pure_generateCoachingPlan cfg call (elapsed e)) as [r Hr]. rewrite Hr.
    destruct r as [err|res]; [right; repeat split|].
    destruct (generateCoachingPlan_returns _ _ _ _ _ _ (Hr w))
      as [_ [r [-> [-> [Hag [Hs Hl]]]]]].
    destruct (List.find _ (audioFiles w)) as [af|]; [|right; repeat split].
    cbn. unfold save. cbn.
    destruct (CoachingPlan.validate _) eqn:Hv; cbn; [left | right; repeat split].
    repeat split. exists r. eexists. repeat split; apply truthy_present; assumption.
  - intros r agent score level audioFile Hk -> Hag Hne Hs Hnz H0 H100 Hl Hin Haf
      Hother.
    assert (Hinc : includes CoachingPlan.levels level = true)
      by (apply includes_In; exact Hin).
    assert (Hlevel : (level =? "")%string = false).
    { destruct (String.eqb_spec level "") as [->|]; [|reflexivity].
      repeat (destruct Hin as [Hin|Hin]; try discriminate Hin). contradiction. }
    rewrite generateCoachingPlan_accepts; [|exact Hk|..].
    + rewrite Haf. cbn. unfold save. cbn.
      assert (Hv : CoachingPlan.validate
                     (CoachingController.newCoachingPlan e analysisId
                        (AudioFile._id audioFile)
                        (LLMService.mkResult r (elapsed e))) = []).
      { unfold CoachingPlan.validate. cbn. rewrite Hag, Hs, Hl, Hother. cbn.
        unfold required_string, within, one_of.
        destruct (String.eqb_spec agent ""); [contradiction|].
        apply Qle_bool_iff in H0, H100. rewrite H0, H100, Hinc, Hlevel.
        reflexivity. }
      rewrite Hv. reflexivity.
    + rewrite Hag. cbn. destruct (String.eqb_spec agent ""); [contradiction|reflexivity].
    + rewrite Hs. cbn. destruct (Z.eqb_spec (Qnum score) 0) as [E|]; [|reflexivity].
      exfalso. apply Hnz. unfold Qeq. cbn. rewrite E. reflexivity.
    + rewrite Hl. cbn. rewrite Hlevel. reflexivity.
Qed.

End Pipeline.

(** ** Confidence *)

Section Confidence.

Context {P : Platform}.

Lemma accumulate_sums (segments : list WhisperSegment.t) (a b : Q) :
  (fst (fold_left STTService.accumulate segments (a, b))
   == a + sumQ (map STTService.segmentDuration segments))%Q
  /\ (snd (fold_left STTService.accumulate segments (a, b))
      == b + sumQ (map (fun s => STTService.segmentConfidence s
                                 * STTService.segmentDuration s) segments))%Q.
Proof.
  revert a b. induction segments as [|s l IH]; intros a b.
  - cbn. split; ring.
  - destruct (IH (a + STTService.segmentDuration s)%Q
                 (b + STTService.segmentConfidence s * STTService.segmentDuration s)%Q)
      as [H1 H2].
    cbn [fold_left map]. unfold sumQ. cbn [fold_right]. fold sumQ.
    change (STTService.accumulate (a, b) s)
      with ((a + STTService.segmentDuration s)%Q,
            (b + STTService.segmentConfidence s * STTService.segmentDuration s)%Q).
    rewrite H1, H2. unfold sumQ. split; ring.
Qed.

Lemma stored_weights (segments : list WhisperSegment.t) :
  map segmentWeight (STTService.transformSegments segments)
  = map STTService.segmentDuration segments.
Proof. unfold STTService.transformSegments. rewrite map_map. reflexivity. Qed.

Lemma stored_values (segments : list WhisperSegment.t) :
  map (fun s => (segmentValue s * segmentWeight s)%Q)
      (STTService.transformSegments segments)
  = map (fun s => (STTService.segmentConfidence s * STTService.segmentDuration s)%Q)
        segments.
Proof. unfold STTService.transformSegments. rewrite map_map. reflexivity. Qed.

Lemma Math_min_compat (a b : Q) : (a == b)%Q -> (Math_min a 1 == Math_min b 1)%Q.
Proof.
  intros E. unfold Math_min.
  destruct (Qle_bool a 1) eqn:Ea, (Qle_bool b 1) eqn:Eb; try reflexivity; try exact E.
  - apply Qle_bool_iff in Ea. rewrite E in Ea. apply Qle_bool_iff in Ea. congruence.
  - apply Qle_bool_iff in Eb. rewrite <- E in Eb. apply Qle_bool_iff in Eb. congruence.
Qed.

Lemma weighted_sum_le (l : list Segment.t) :
  (forall s, In s l -> (0 <= segmentWeight s)%Q /\ (segmentValue s <= 1)%Q) ->
  (sumQ (map (fun s => segmentValue s * segmentWeight s) l)
   <= sumQ (map segmentWeight l))%Q.
Proof.
  induction l as [|s l IH]; intros H; cbn.
  - apply Qle_refl.
  - destruct (H s (or_introl eq_refl)) as [Hw Hv].
    apply Qplus_le_compat.
    + rewrite <- (Qmult_1_l (segmentWeight s)) at 2.
      apply Qmult_le_compat_r; assumption.
    + apply IH. intros s' Hs'. apply H. right. exact Hs'.
Qed.

(** C6, as amended: a segment without a provider confidence gets 0.8; when
    the durations of the segments add up to more than zero the overall
    confidence is the smaller of their duration-weighted average and 1,
    which is the average itself when no duration is negative and no
    confidence exceeds 1; and it is 0.8 when they do not add up to more
    than zero. *)
Theorem C6_confidence_default_and_weighted_average
    (segments : list WhisperSegment.t) :
  let stored := STTService.transformSegments segments in
  let overall := STTService.calculateOverallConfidence segments in
  (forall i s,
      nth_error segments i = Some s -> WhisperSegment.avg_logprob s = None ->
      exists s', nth_error stored i = Some s'
                 /\ Segment.confidence s' = Some (8 # 10))
  /\ ((0 < totalWeight stored)%Q ->
      (overall == Math_min (weightedAverage stored) 1)%Q)
  /\ ((0 < totalWeight stored)%Q ->
      (forall s, In s stored -> (0 <= segmentWeight s)%Q /\ (segmentValue s <= 1)%Q) ->
      (overall == weightedAverage stored)%Q)
  /\ ((totalWeight stored <= 0)%Q -> overall = 8 # 10).
Proof.
  intros stored overall.
  assert (Hacc := accumulate_sums segments 0 0).
  destruct Hacc as [Ht Hw]. rewrite Qplus_0_l in Ht, Hw.
  assert (Htotal : (fst (fold_left STTService.accumulate segments (0, 0))
                    == totalWeight stored)%Q).
  { unfold totalWeight, stored. rewrite stored_weights. exact Ht. }
  assert (Hmin : (0 < totalWeight stored)%Q ->
                 (overall == Math_min (weightedAverage stored) 1)%Q).
  { intros Hpos. unfold overall, STTService.calculateOverallConfidence.
    destruct segments as [|s l].
    - exfalso. revert Hpos. apply Qle_not_lt. discriminate.
    - destruct (Qle_bool _ 0) eqn:E; cbn [negb].
      + apply Qle_bool_iff in E. rewrite Htotal in E.
        exfalso. exact (Qle_not_lt _ _ E Hpos).
      + apply Math_min_compat. unfold weightedAverage.
        unfold stored at 1. rewrite stored_values, <- Hw, <- Htotal. reflexivity. }
  repeat split.
  - intros i s Hs Hnone. unfold stored, STTService.transformSegments.
    rewrite nth_error_map, Hs. cbn. eexists. split; [reflexivity|].
    cbn. unfold STTService.segmentConfidence. rewrite Hnone. reflexivity.
  - exact Hmin.
  - intros Hpos Hall. rewrite (Hmin Hpos). unfold Math_min.
    destruct (Qle_bool (weightedAverage stored) 1) eqn:E; [reflexivity|].
    exfalso. assert (weightedAverage stored <= 1)%Q as Hle.
    { unfold weightedAverage. apply Qle_shift_div_r; [exact Hpos|].
      rewrite Qmult_1_l. apply weighted_sum_le, Hall. }
    apply Qle_bool_iff in Hle. congruence.
  - intros Hle. unfold overall, STTService.calculateOverallConfidence.
    destruct segments as [|s l]; [reflexivity|].
    rewrite <- Htotal in Hle. apply Qle_bool_iff in Hle. rewrite Hle. reflexivity.
Qed.

End Confidence.

(** ** Uploads *)

Section Uploads.

Context {O : Ordering}.

Lemma append_not_empty (s1 s2 : string) : s2 <> "" -> s1 ++ s2 <> "".
Proof.
  intros H E. destruct s1; cbn in E; [contradiction | discriminate].
Qed.

Lemma allowed_extension_not_empty (name : string) :
  includes UploadService.allowedExtensions (toLowerCase (extname name)) = true ->
  extname name <> "" /\ name <> "".
Proof.
  intros H. split; intros E; rewrite E in H; discriminate H.
Qed.

Lemma allowed_type_is_valid (m : string) :
  includes allowedTypes m = true ->
  (m =? "")%string = false /\ includes AudioFile.mimetypes m = true.
Proof.
  intros H. split; [|exact H].
  destruct (String.eqb_spec m "") as [->|]; [discriminate H | reflexivity].
Qed.

Lemma normalize_not_empty (p : string) : normalize p <> "".
Proof.
  destruct p as [|c p]; [discriminate|].
  unfold normalize.
  set (kept := slashed _).
  destruct (String.eqb_spec kept "") as [_|Hk].
  - destruct (Ascii.eqb c "/"); [discriminate|].
    destruct (match last_char _ with Some l => _ | None => _ end); discriminate.
  - destruct (Ascii.eqb c "/").
    + discriminate.
    + change ("" ++ kept ++ ?x) with (kept ++ x).
      destruct kept as [|k kept]; [contradiction | discriminate].
Qed.

Lemma path_join_not_empty (a b : string) : path_join a b <> "".
Proof.
  unfold path_join.
  destruct (a =? "")%string; [apply normalize_not_empty|].
  destruct (b =? "")%string; apply normalize_not_empty.
Qed.

(** The request of one file part that the middleware stores. *)
Lemma one_part_stored (cfg : config) (e : env) (file : UploadService.Upload)
    (w : world) :
  UploadService.fileFilter file = None ->
  UploadService.fieldname file = "audioFile" ->
  Z.of_nat (String.length (UploadService.content file)) < maxFileSize cfg ->
  let filename := uuid e ++ extname (UploadService.originalname file) in
  let path := path_join (uploadPath cfg) filename in
  let size := Z.of_nat (String.length (UploadService.content file)) in
  UploadService.getUploadMiddleware cfg e [file] w
  = (inr (Some (UploadService.mkFile (UploadService.originalname file)
                  (UploadService.mimetype file) filename path size)),
     set_files ((path, size) :: files w) w).
Proof.
  intros Hfilter Hfield Hsize.
  assert (Hname : (UploadService.originalname file =? "")%string = false).
  { unfold UploadService.fileFilter in Hfilter.
    destruct (includes allowedTypes _); [|discriminate].
    destruct (includes UploadService.allowedExtensions _) eqn:Hext; [|discriminate].
    destruct (String.eqb_spec (UploadService.originalname file) "") as [E|]; [|reflexivity].
    rewrite E in Hext. discriminate Hext. }
  unfold UploadService.getUploadMiddleware, UploadService.storeFirst, bind.
  rewrite Hname, Hfield, Hfilter. cbn [negb String.eqb Ascii.eqb Bool.eqb andb].
  destruct (Z.leb_spec (maxFileSize cfg)
              (Z.of_nat (String.length (UploadService.content file)))); [lia|].
  reflexivity.
Qed.



End Uploads.

(** ** Operations by id *)

Section Queries.

Context {P : Platform} {O : Ordering}.

(** C8: an operation keyed by a record id answers 400 to an id that is not
    24 hexadecimal digits and leaves the world, its log of store operations
    included, exactly as it was. *)
Theorem C8_malformed_id_refused_before_any_lookup
    (op : Routes.by_id) (id : string) (w : world) :
  matchesObjectId id = false ->
  let result := Routes.run_by_id op id w in
  statusCode (fst result) = 400
  /\ success (fst result) = false
  /\ snd result = w
  /\ log (snd result) = log w.
Proof.
  intros Hid.
  enough (statusCode (fst (Routes.run_by_id op id w)) = 400
          /\ success (fst (Routes.run_by_id op id w)) = false
          /\ snd (Routes.run_by_id op id w) = w) as [H1 [H2 H3]]
    by (cbv zeta; rewrite H3; auto).
  destruct op; cbn [Routes.run_by_id].
  all: unfold UploadController.getUploadInfo, UploadController.deleteUpload,
         UploadController.updateStatus, TranscriptController.transcribeAudio,
         TranscriptController.getTranscript,
         TranscriptController.getTranscriptByAudioFile,
         TranscriptController.updateTranscript,
         TranscriptController.deleteTranscript,
         AnalysisController.analyzeTranscript, AnalysisController.getAnalysis,
         AnalysisController.getAnalysisByTranscript,
         AnalysisController.deleteAnalysis,
         CoachingController.generateCoachingPlan,
         CoachingController.getCoachingPlan,
         CoachingController.getCoachingPlanByAnalysis,
         CoachingController.updateCoachingPlan,
         CoachingController.deleteCoachingPlan, handler.
  all: rewrite ?Hid; cbn [negb].
  all: try (repeat split; reflexivity).
  - (* updateStatus *)
    destruct (UploadController.validateStatus status) eqn:E;
      destruct status; cbn; rewrite ?Hid; repeat split; discriminate E.
  - (* transcribeAudio *)
    destruct (TranscriptController.validateLanguage _); rewrite ?Hid;
      repeat split; reflexivity.
  - (* updateTranscript *)
    destruct (TranscriptController.validateUpdate text segments) eqn:E;
      destruct text; cbn; rewrite ?Hid; repeat split; discriminate E.
  - (* generateCoachingPlan *)
    destruct (CoachingController.validateAgentId _); rewrite ?Hid;
      repeat split; reflexivity.
  - (* updateCoachingPlan *)
    destruct (Joi_coachingUpdate updateData); rewrite ?Hid;
      repeat split; reflexivity.
Qed.

(** *** Pagination *)

Lemma ceil_div_bounds (a b : Z) :
  0 < b -> a <= ceil_div a b * b < a + b.
Proof.
  intros Hb. unfold ceil_div.
  pose proof (Z.div_mod (- a) b ltac:(lia)) as Hdm.
  pose proof (Z.mod_pos_bound (- a) b Hb) as Hr.
  nia.
Qed.

Lemma limited_length {A : Type} (n : Z) (l : list A) :
  0 < n -> Z.of_nat (List.length (limited n l)) <= n.
Proof.
  intros Hn. unfold limited. destruct (Z.eqb_spec n 0); [lia|].
  rewrite length_firstn. lia.
Qed.

Lemma find_length {A : Type} `{Model A} (filter : A -> bool) (sort : string * Z)
    (skip n : Z) (w w' : world) (l : list A) :
  0 < n -> find filter sort skip n w = (inr l, w') ->
  Z.of_nat (List.length l) <= n.
Proof.
  intros Hn. unfold find. destruct (skip <? 0); [discriminate|].
  destruct (negb (sortable (fst sort))); [discriminate|].
  intros [= <- _]. apply limited_length, Hn.
Qed.

(** The shape shared by the list handlers. *)
Lemma listing_page {A : Type} (failure : string) (query : IO (list A))
    (count : IO Z) (wrap : list A -> payload) (page n : Z) (w : world)
    (p : Pagination) :
  (forall l, Routes.items (wrap l) = Z.of_nat (List.length l)) ->
  (0 < n -> forall w1 w2 l, query w1 = (inr l, w2) -> Z.of_nat (List.length l) <= n) ->
  let result :=
    handler failure
      (r <- promise_all2 query count ;;
       ret (page_of (wrap (fst r)) (paginate page n (snd r)))) w in
  pagination (fst result) = Some p ->
  0 < limit p ->
  Routes.items (data (fst result)) <= limit p
  /\ current p = page
  /\ total p = ceil_div (totalItems p) (limit p)
  /\ totalItems p <= total p * limit p < totalItems p + limit p
  /\ (current p = total p -> current p * limit p >= totalItems p).
Proof.
  intros Hwrap Hquery. unfold handler, bind, promise_all2, ret.
  destruct (query w) as [[e1|l] w1] eqn:Eq; destruct (count w1) as [[e2|c] w2];
    cbn; try discriminate.
  intros [= <-]. cbn. intros Hn.
  pose proof (ceil_div_bounds c n Hn) as Hb.
  rewrite Hwrap. repeat split; try lia.
  apply (Hquery Hn _ _ _ Eq).
Qed.

(** C9, as amended: a list request that is answered with a page whose limit
    is positive returns at most that many items, reports as total the
    ceiling of the number of matching items over the limit, and on the page
    whose number is that total the page number times the limit reaches the
    number of items. *)
Theorem C9_page_within_limit_and_total_is_ceiling
    (r : Routes.listing) (w : world) (p : Pagination) :
  let result := Routes.run_listing r w in
  pagination (fst result) = Some p ->
  0 < limit p ->
  Routes.items (data (fst result)) <= limit p
  /\ total p = ceil_div (totalItems p) (limit p)
  /\ totalItems p <= total p * limit p < totalItems p + limit p
  /\ (current p = total p -> current p * limit p >= totalItems p).
Proof.
  intros result Hp Hl. subst result.
  destruct r as [q | q | q | agentId q | q]; cbn [Routes.run_listing] in *.
  - eapply (listing_page _ _ _ UploadList) in Hp; try exact Hl.
    + tauto.
    + reflexivity.
    + intros Hn w1 w2 l Hf. apply (find_length _ _ _ _ _ _ _ Hn Hf).
  - eapply (listing_page _ _ _ TranscriptList) in Hp; try exact Hl.
    + tauto.
    + reflexivity.
    + intros Hn w1 w2 l. unfold bind, at_least.
      destruct (TranscriptController.q_minConfidence q) as [[c|]|]; cbn;
        try discriminate.
      all: destruct (find _ _ _ _ w1) as [[err|l0] w3] eqn:Ef; try discriminate.
      all: unfold populate_each; intros [= <- _]; rewrite ?length_map.
      all: apply (find_length _ _ _ _ _ _ _ Hn Ef).
  - eapply (listing_page _ _ _ AnalysisList) in Hp; try exact Hl.
    + tauto.
    + reflexivity.
    + intros Hn w1 w2 l. unfold bind, at_least.
      destruct (AnalysisController.q_minSatisfaction q) as [[c|]|]; cbn;
        try discriminate.
      all: destruct (find _ _ _ _ w1) as [[err|l0] w3] eqn:Ef; try discriminate.
      all: unfold populate_each; intros [= <- _]; rewrite ?length_map.
      all: apply (find_length _ _ _ _ _ _ _ Hn Ef).
  - eapply (listing_page _ _ _ CoachingList) in Hp; try exact Hl.
    + tauto.
    + reflexivity.
    + intros Hn w1 w2 l. unfold CoachingController.page_of_plans, bind.
      destruct (find _ _ _ _ w1) as [[err|l0] w3] eqn:Ef; try discriminate.
      unfold populate_each; intros [= <- _]; rewrite ?length_map.
      apply (find_length _ _ _ _ _ _ _ Hn Ef).
  - eapply (listing_page _ _ _ CoachingList) in Hp; try exact Hl.
    + tauto.
    + reflexivity.
    + intros Hn w1 w2 l. unfold CoachingController.page_of_plans, bind, at_least.
      destruct (CoachingController.q_minScore q) as [[c|]|]; cbn;
        try discriminate.
      all: destruct (find _ _ _ _ w1) as [[err|l0] w3] eqn:Ef; try discriminate.
      all: unfold populate_each; intros [= <- _]; rewrite ?length_map.
      all: apply (find_length _ _ _ _ _ _ _ Hn Ef).
Qed.

End Queries.

(** * Further properties *)

(** ** Relations that every step of a computation keeps *)

Section Keeping.

Variable R : world -> world -> Prop.
Hypothesis R_refl : forall w, R w w.
Hypothesis R_trans : forall w1 w2 w3, R w1 w2 -> R w2 w3 -> R w1 w3.

Lemma keeps_ret {A : Type} (a : A) : keeps R (ret a).
Proof. intros w. apply R_refl. Qed.

Lemma keeps_throw {A : Type} (e : exn) : keeps R (throw (A := A) e).
Proof. intros w. apply R_refl. Qed.

Lemma keeps_lift {A : Type} (r : exn + A) : keeps R (lift r).
Proof. intros w. apply R_refl. Qed.

Lemma keeps_bind {A B : Type} (m : IO A) (k : A -> IO B) :
  keeps R m -> (forall a, keeps R (k a)) -> keeps R (bind m k).
Proof.
  intros Hm Hk w. unfold bind. specialize (Hm w).
  destruct (m w) as [[e|a] w1]; [exact Hm|].
  eapply R_trans; [exact Hm | apply Hk].
Qed.

Lemma keeps_try_catch {A : Type} (m : IO A) (h : exn -> IO A) :
  keeps R m -> (forall e, keeps R (h e)) -> keeps R (try_catch m h).
Proof.
  intros Hm Hh w. unfold try_catch. specialize (Hm w).
  destruct (m w) as [[e|a] w1]; [|exact Hm].
  eapply R_trans; [exact Hm | apply Hh].
Qed.

Lemma keeps_promise_all2 {A B : Type} (m1 : IO A) (m2 : IO B) :
  keeps R m1 -> keeps R m2 -> keeps R (promise_all2 m1 m2).
Proof.
  intros H1 H2 w. unfold promise_all2. specialize (H1 w).
  destruct (m1 w) as [r1 w1]. specialize (H2 w1).
  destruct (m2 w1) as [r2 w2].
  assert (R w w2) by (eapply R_trans; eassumption).
  destruct r1, r2; assumption.
Qed.

Lemma keeps_handler (failure : string) (body : IO response) (w : world) :
  keeps R body -> R w (snd (handler failure body w)).
Proof.
  intros Hb. unfold handler. specialize (Hb w).
  destruct (body w) as [[e|r] w1]; exact Hb.
Qed.

Lemma keeps_statistics {D : Type} (failure : string) (body : IO D) (w : world) :
  keeps R body -> R w (snd (statistics failure body w)).
Proof.
  intros Hb. unfold statistics. specialize (Hb w).
  destruct (body w) as [[e|r] w1]; exact Hb.
Qed.

End Keeping.

(** ** Requests that only read *)

Lemma only_read_refl (w : world) : only_read w w.
Proof.
  split; [reflexivity|]. exists []. rewrite app_nil_r. split; reflexivity.
Qed.

Lemma only_read_trans (w1 w2 w3 : world) :
  only_read w1 w2 -> only_read w2 w3 -> only_read w1 w3.
Proof.
  intros [S1 [r1 [L1 F1]]] [S2 [r2 [L2 F2]]]. split.
  - unfold same_state in *. congruence.
  - exists (r1 ++ r2)%list. rewrite L2, L1, app_assoc. split; [reflexivity|].
    rewrite forallb_app, F1, F2. reflexivity.
Qed.

Lemma only_read_logged (c : collection) (w : world) : only_read w (logged (Read c) w).
Proof. split; [reflexivity|]. exists [Read c]. split; reflexivity. Qed.

Section Reading.

Context {P : Platform} {O : Ordering}.

Lemma reads_findOne {A : Type} `{Model A} (filter : A -> bool) :
  keeps only_read (findOne filter).
Proof. intros w. apply only_read_logged. Qed.

Lemma reads_populate {A : Type} `{Model A} (id : ObjectId) :
  keeps only_read (populate (A := A) id).
Proof. intros w. apply only_read_logged. Qed.

Lemma reads_find {A : Type} `{Model A} (filter : A -> bool) (sort : string * Z)
    (skip limit : Z) :
  keeps only_read (find filter sort skip limit).
Proof.
  intros w. unfold find. destruct (skip <? 0); [apply only_read_logged|].
  destruct (negb (sortable (fst sort))); apply only_read_logged.
Qed.

Lemma reads_countDocuments {A : Type} `{Model A} (filter : A -> bool) :
  keeps only_read (countDocuments filter).
Proof. intros w. apply only_read_logged. Qed.

Lemma reads_countBy {A : Type} `{Model A} (path : A -> string) :
  keeps only_read (countBy path).
Proof. intros w. apply only_read_logged. Qed.

Lemma reads_sumOf {A : Type} `{Model A} (path : A -> Z) :
  keeps only_read (sumOf path).
Proof. intros w. apply only_read_logged. Qed.

Lemma reads_averageOf {A : Type} `{Model A} (path : A -> Q) :
  keeps only_read (averageOf path).
Proof. intros w. apply only_read_logged. Qed.

Lemma reads_populate_each {A B : Type} `{Model B} (ref : A -> ObjectId) (l : list A) :
  keeps only_read (populate_each (B := B) ref l).
Proof.
  intros w. unfold populate_each. cbn [snd].
  destruct l; [apply only_read_refl | apply only_read_logged].
Qed.

Lemma reads_getFileInfo (filePath : string) :
  keeps only_read (UploadService.getFileInfo filePath).
Proof. intros w. apply only_read_refl. Qed.

Lemma reads_at_least {N : Type} (path : string) (bound : option (option N)) :
  keeps only_read (at_least path bound).
Proof. intros w. destruct bound as [[n|]|]; apply only_read_refl. Qed.

Ltac reads :=
  repeat first
    [ apply reads_findOne | apply reads_populate | apply reads_find
    | apply reads_countDocuments | apply reads_populate_each
    | apply reads_getFileInfo | apply reads_at_least
    | apply reads_countBy | apply reads_sumOf | apply reads_averageOf
    | apply (keeps_ret only_read only_read_refl)
    | apply (keeps_throw only_read only_read_refl)
    | apply (keeps_bind only_read only_read_trans); [|intros ?]
    | apply (keeps_promise_all2 only_read only_read_trans)
    | match goal with
      | |- keeps _ (if ?b then _ else _) => destruct b
      | |- keeps _ (match ?x with _ => _ end) => destruct x
      end ].

Lemma get_by_id_only_reads (op : Routes.by_id) (id : string) (w : world) :
  Routes.method_of op = Routes.GET ->
  only_read w (snd (Routes.run_by_id op id w)).
Proof.
  destruct op; try discriminate; intros _; cbn [Routes.run_by_id];
    apply (keeps_handler only_read);
    unfold findById, TranscriptController.populated, AnalysisController.populated,
      CoachingController.populated; reads.
Qed.

Lemma listing_only_reads (r : Routes.listing) (w : world) :
  only_read w (snd (Routes.run_listing r w)).
Proof.
  destruct r; cbn [Routes.run_listing];
    apply (keeps_handler only_read);
    unfold CoachingController.page_of_plans; reads.
Qed.

(** X22: A GET request changes nothing. The handlers routed from GET (the
    reads by id, the lists, the statistics of uploads and of transcripts)
    leave the four collections and the files as they were, and add only
    reads to the log of store operations. *)
Theorem get_requests_only_read (w : world) :
  (forall r, Routes.verb r = Routes.GET -> only_read w (snd (Routes.run r w)))
  /\ only_read w (snd (TranscriptController.getTranscriptStats w))
  /\ (forall bound fsStats,
        only_read w (snd (UploadController.getUploadStats bound fsStats w))).
Proof.
  split; [|split].
  - intros [cfg e upload | op id | r] Hverb; cbn in Hverb; [discriminate| |].
    + apply get_by_id_only_reads, Hverb.
    + apply listing_only_reads.
  - apply (keeps_statistics only_read).
    reads.
  - intros bound fsStats. apply (keeps_statistics only_read).
    unfold UploadController.getDatabaseStats. reads.
Qed.

End Reading.

(** ** The schemas are respected by every request *)

Lemma keeps_weaken {A : Type} (R1 R2 : world -> world -> Prop) (m : IO A) :
  (forall w w', R1 w w' -> R2 w w') -> keeps R1 m -> keeps R2 m.
Proof. intros H Hm w. apply H, Hm. Qed.

Lemma keeps_pure {A : Type} (R : world -> world -> Prop) (m : IO A) :
  (forall w, R w w) -> pure m -> keeps R m.
Proof. intros Hr [r Hm] w. rewrite Hm. apply Hr. Qed.

Lemma Forall_update_first {A : Type} (Q : A -> Prop) (p : A -> bool) (f : A -> A)
    (l : list A) :
  (forall a, Q a -> Q (f a)) -> Forall Q l -> Forall Q (update_first p f l).
Proof.
  intros Hf. induction 1 as [|x l Hx Hl IH]; cbn; [constructor|].
  destruct (p x); constructor; auto.
Qed.

Lemma Forall_remove_first {A : Type} (Q : A -> Prop) (p : A -> bool) (l : list A) :
  Forall Q l -> Forall Q (remove_first p l).
Proof.
  induction 1 as [|x l Hx Hl IH]; cbn; [constructor|].
  destruct (p x); [assumption | constructor; assumption].
Qed.

Lemma Forall_snoc {A : Type} (Q : A -> Prop) (l : list A) (a : A) :
  Forall Q l -> Q a -> Forall Q (l ++ [a]).
Proof. intros Hl Ha. apply Forall_app. split; [assumption | constructor; auto]. Qed.

Section Schemas.

Context {P : Platform} {O : Ordering}.

Lemma respects_refl (w : world) : respects w w.
Proof. intros H. exact H. Qed.

Lemma respects_trans (w1 w2 w3 : world) :
  respects w1 w2 -> respects w2 w3 -> respects w1 w3.
Proof. unfold respects. auto. Qed.

Lemma same_state_respects (w w' : world) : same_state w w' -> respects w w'.
Proof.
  unfold same_state, fresh_log, respects, schemas_respected.
  intros [= -> -> -> -> _]. auto.
Qed.

Lemma only_read_respects (w w' : world) : only_read w w' -> respects w w'.
Proof. intros [H _]. apply same_state_respects, H. Qed.

Lemma audio_valid_after (d : AudioFile.t) (s : string) (now : Z) (q : option Q) :
  includes AudioFile.statuses s = true ->
  AudioFile.validate d = [] ->
  AudioFile.validate
    (AudioFile.set_updatedAt now
       (AudioFile.set_status s
          (match q with Some q => AudioFile.set_duration q d | None => d end))) = [].
Proof.
  intros Hs. unfold AudioFile.validate, required_string, one_of.
  destruct d, q; cbn -[includes]; rewrite Hs;
    repeat match goal with
           | |- context [if ?b then _ else _] => destruct b
           end; cbn; congruence.
Qed.

Lemma plan_required_of_valid (d : CoachingPlan.t) :
  CoachingPlan.validate d = [] -> requiredOfPlan d = [].
Proof.
  unfold CoachingPlan.validate, requiredOfPlan. intros H.
  apply concat_nil_inv in H.
  inversion H as [|? ? E1 H']. inversion H' as [|? ? E2 H''].
  inversion H'' as [|? ? E3 _].
  cbn. rewrite E1, E2, E3. reflexivity.
Qed.

Lemma respects_save_audio (d : AudioFile.t) : keeps respects (save d).
Proof.
  intros w [Ha [Ht [Hn Hp]]]. unfold save. cbn.
  destruct (AudioFile.validate d) eqn:E; cbn; repeat split; auto.
  apply Forall_snoc; assumption.
Qed.

Lemma respects_save_transcript (d : Transcript.t) : keeps respects (save d).
Proof.
  intros w [Ha [Ht [Hn Hp]]]. unfold save. cbn.
  destruct (Transcript.validate d) eqn:E; cbn; repeat split; auto.
  apply Forall_snoc; assumption.
Qed.

Lemma respects_save_analysis (d : Analysis.t) : keeps respects (save d).
Proof.
  intros w [Ha [Ht [Hn Hp]]]. unfold save. cbn.
  destruct (Analysis.validate d) eqn:E; cbn; repeat split; auto.
  apply Forall_snoc; assumption.
Qed.

Lemma respects_save_plan (d : CoachingPlan.t) : keeps respects (save d).
Proof.
  intros w [Ha [Ht [Hn Hp]]]. unfold save. cbn.
  destruct (CoachingPlan.validate d) eqn:E; cbn; repeat split; auto.
  apply Forall_snoc; [assumption | apply plan_required_of_valid, E].
Qed.

Lemma respects_update_audio (id : string) (f : AudioFile.t -> AudioFile.t) :
  (forall d, AudioFile.validate d = [] -> AudioFile.validate (f d) = []) ->
  keeps respects (findByIdAndUpdate id f).
Proof.
  intros Hf w [Ha [Ht [Hn Hp]]]. unfold findByIdAndUpdate. cbn.
  destruct (List.find _ _); cbn; repeat split; auto.
  apply Forall_update_first; assumption.
Qed.

Lemma respects_update_transcript (id : string) (f : Transcript.t -> Transcript.t) :
  (forall d, Transcript.validate d = [] -> Transcript.validate (f d) = []) ->
  keeps respects (findByIdAndUpdate id f).
Proof.
  intros Hf w [Ha [Ht [Hn Hp]]]. unfold findByIdAndUpdate. cbn.
  destruct (List.find _ _); cbn; repeat split; auto.
  apply Forall_update_first; assumption.
Qed.

Lemma respects_update_plan (id : string) (f : CoachingPlan.t -> CoachingPlan.t) :
  (forall d, requiredOfPlan d = [] -> requiredOfPlan (f d) = []) ->
  keeps respects (findByIdAndUpdate id f).
Proof.
  intros Hf w [Ha [Ht [Hn Hp]]]. unfold findByIdAndUpdate. cbn.
  destruct (List.find _ _); cbn; repeat split; auto.
  apply Forall_update_first; assumption.
Qed.

Lemma respects_delete_audio (id : string) :
  keeps respects (findByIdAndDelete (A := AudioFile.t) id).
Proof.
  intros w [Ha [Ht [Hn Hp]]]. unfold findByIdAndDelete. cbn.
  destruct (List.find _ _); cbn; repeat split; auto.
  apply Forall_remove_first, Ha.
Qed.

Lemma respects_delete_transcript (id : string) :
  keeps respects (findByIdAndDelete (A := Transcript.t) id).
Proof.
  intros w [Ha [Ht [Hn Hp]]]. unfold findByIdAndDelete. cbn.
  destruct (List.find _ _); cbn; repeat split; auto.
  apply Forall_remove_first, Ht.
Qed.

Lemma respects_delete_analysis (id : string) :
  keeps respects (findByIdAndDelete (A := Analysis.t) id).
Proof.
  intros w [Ha [Ht [Hn Hp]]]. unfold findByIdAndDelete. cbn.
  destruct (List.find _ _); cbn; repeat split; auto.
  apply Forall_remove_first, Hn.
Qed.

Lemma respects_delete_plan (id : string) :
  keeps respects (findByIdAndDelete (A := CoachingPlan.t) id).
Proof.
  intros w [Ha [Ht [Hn Hp]]]. unfold findByIdAndDelete. cbn.
  destruct (List.find _ _); cbn; repeat split; auto.
  apply Forall_remove_first, Hp.
Qed.

Lemma respects_deleteFile (filePath : string) :
  keeps respects (UploadService.deleteFile filePath).
Proof.
  intros w. unfold UploadService.deleteFile.
  destruct (stat filePath w); cbn; intros H; exact H.
Qed.

Lemma respects_stt (cfg : config) (fetched : STTService.Fetched) (elapsed : Z)
    (filePath language : string) :
  keeps respects (STTService.transcribeAudio cfg fetched elapsed filePath language).
Proof. intros w. rewrite transcribeAudio_outcome. apply respects_refl. Qed.

End Schemas.

Section SchemasKept.

Context {P : Platform} {O : Ordering}.

Lemma respects_reads {A : Type} (m : IO A) : keeps only_read m -> keeps respects m.
Proof. apply keeps_weaken. intros w w'. apply only_read_respects. Qed.

Lemma transcript_valid_after (d : Transcript.t) (text : string)
    (segments : option (list Segment.t)) (now : Z) :
  text <> "" ->
  Transcript.validate d = [] ->
  Transcript.validate
    (Transcript.set_updatedAt now
       (match segments with
        | Some l => Transcript.set_segments l (Transcript.set_text text d)
        | None => Transcript.set_text text d
        end)) = [].
Proof.
  intros Ht Hd.
  assert (Hc : within "confidence" 0 1 (Transcript.confidence d) = []).
  { unfold Transcript.validate in Hd. apply concat_nil_inv in Hd.
    inversion Hd as [|? ? _ H']. inversion H' as [|? ? E _]. exact E. }
  unfold Transcript.validate, required_string.
  destruct d, segments; cbn in *; rewrite Hc;
    destruct (String.eqb_spec text "") as [|_]; try contradiction; reflexivity.
Qed.

Ltac respect :=
  repeat first
    [ apply respects_reads;
      first [ apply reads_findOne | apply reads_populate | apply reads_find
            | apply reads_countDocuments | apply reads_populate_each
            | apply reads_getFileInfo | apply reads_at_least ]
    | apply respects_save_audio | apply respects_save_transcript
    | apply respects_save_analysis | apply respects_save_plan
    | apply respects_delete_audio | apply respects_delete_transcript
    | apply respects_delete_analysis | apply respects_delete_plan
    | apply respects_deleteFile | apply respects_stt
    | apply (keeps_pure respects _ respects_refl (pure_analyzeTranscript _ _ _))
    | apply (keeps_pure respects _ respects_refl (pure_generateCoachingPlan _ _ _))
    | apply (keeps_ret respects respects_refl)
    | apply (keeps_throw respects respects_refl)
    | apply (keeps_bind respects respects_trans); [|intros ?]
    | apply (keeps_try_catch respects respects_trans); [|intros ?]
    | apply (keeps_promise_all2 respects respects_trans)
    | match goal with
      | |- keeps _ (if ?b then _ else _) => destruct b
      | |- keeps _ (match ?x with _ => _ end) => destruct x
      end ].

Lemma by_id_respects (op : Routes.by_id) (id : string) (w : world) :
  respects w (snd (Routes.run_by_id op id w)).
Proof.
  destruct op eqn:Eop;
    try (apply only_read_respects, get_by_id_only_reads; reflexivity);
    cbn [Routes.run_by_id]; apply (keeps_handler respects);
    unfold findById.
  - (* deleteUpload *) respect.
  - (* updateStatus *)
    unfold UploadController.validateStatus.
    destruct status; try (respect; fail).
    destruct (includes AudioFile.statuses s) eqn:Hs; respect.
    apply respects_update_audio. intros d. apply (audio_valid_after d s _ None Hs).
  - (* transcribeAudio *)
    respect.
    + apply respects_update_audio. intros d.
      apply (audio_valid_after d "processing" _ None). reflexivity.
    + apply respects_update_audio. intros d.
      apply (audio_valid_after d "completed" _ (Some _)). reflexivity.
    + apply respects_update_audio. intros d.
      apply (audio_valid_after d "failed" _ None). reflexivity.
  - (* updateTranscript *)
    unfold TranscriptController.validateUpdate, TranscriptController.populated.
    destruct text; try (respect; fail).
    destruct (String.eqb_spec s "") as [->|Hs]; [respect|].
    destruct segments as [l|].
    + destruct (TranscriptController.first_error _ l); respect.
      apply respects_update_transcript. intros d.
      apply (transcript_valid_after d s (Some l) _ Hs).
    + respect. apply respects_update_transcript. intros d.
      apply (transcript_valid_after d s None _ Hs).
  - (* deleteTranscript *) respect.
  - (* analyzeTranscript *) respect.
  - (* deleteAnalysis *) respect.
  - (* generateCoachingPlan *) respect.
  - (* updateCoachingPlan *)
    unfold CoachingController.populated. respect.
    apply respects_update_plan. intros d Hd. exact Hd.
  - (* deleteCoachingPlan *) respect.
Qed.

Lemma uploadAudio_respects (e : env) (file : option UploadService.File)
    (w : world) :
  respects w (snd (UploadController.uploadAudio e file w)).
Proof.
  unfold UploadController.uploadAudio, UploadService.processUploadedFile.
  destruct file as [f|]; cbn; [|intros Hw; exact Hw].
  unfold bind, save, ret. cbn.
  match goal with
  | |- context [AudioFile.validate ?d] =>
      pose proof (respects_save_audio d w) as Hs; unfold save in Hs; cbn in Hs;
      destruct (AudioFile.validate d); cbn in *
  end.
  - exact Hs.
  - destruct (_ =? _)%string; cbn; [intros Hw; exact Hw|].
    apply (keeps_try_catch respects respects_trans);
      [apply respects_deleteFile | intros ?; apply (keeps_ret respects respects_refl)].
Qed.

Lemma respects_set_files (fs : list (string * Z)) (w : world) :
  respects w (set_files fs w).
Proof. intros H. exact H. Qed.

Lemma storeFirst_respects (cfg : config) (e : env) (file : UploadService.Upload) :
  keeps respects (UploadService.storeFirst cfg e file).
Proof.
  intros w. unfold UploadService.storeFirst.
  destruct (_ =? _)%string; [apply respects_refl|].
  destruct (negb _); [apply respects_refl|].
  destruct (UploadService.fileFilter file); [apply respects_refl|].
  destruct (_ <=? _); [apply respects_refl | apply respects_set_files].
Qed.

Lemma middleware_respects (cfg : config) (e : env)
    (parts : list UploadService.Upload) :
  keeps respects (UploadService.getUploadMiddleware cfg e parts).
Proof.
  unfold UploadService.getUploadMiddleware.
  destruct parts as [|file more]; [apply (keeps_ret respects respects_refl)|].
  apply (keeps_bind respects respects_trans); [apply storeFirst_respects|].
  intros stored. destruct more; [apply (keeps_ret respects respects_refl)|].
  apply (keeps_bind respects respects_trans);
    [|intros _; apply (keeps_throw respects respects_refl)].
  intros w. destruct stored; [apply respects_set_files | apply respects_refl].
Qed.

Lemma upload_respects (cfg : config) (e : env)
    (parts : list UploadService.Upload) (w : world) :
  respects w (snd (UploadController.postUpload cfg e parts w)).
Proof.
  unfold UploadController.postUpload.
  pose proof (middleware_respects cfg e parts w) as Hm.
  destruct (UploadService.getUploadMiddleware cfg e parts w) as [[err|file] w1];
    cbn [snd] in *; [exact Hm|].
  eapply respects_trans; [exact Hm | apply uploadAudio_respects].
Qed.

(** X23: No request stores a document its schema rejects. If every audio
    file, transcript and analysis of the store passes the validators of its
    schema and every coaching plan has its required fields, the same holds
    after any sequence of uploads, requests by id and list requests, also
    through the updates, which run no schema validator. *)
Theorem requests_keep_the_schemas (rs : list Routes.request) (w : world) :
  schemas_respected w -> schemas_respected (Routes.serve rs w).
Proof.
  unfold Routes.serve. revert w.
  induction rs as [|r rs IH]; intros w Hw; [exact Hw|].
  cbn [fold_left]. apply IH.
  destruct r as [cfg e upload | op id | r]; cbn [Routes.run].
  - apply upload_respects, Hw.
  - apply by_id_respects, Hw.
  - apply (only_read_respects _ _ (listing_only_reads r w)), Hw.
Qed.

End SchemasKept.

(** ** Uploads *)

Section UploadsMore.

Context {O : Ordering}.

Lemma uploaded_record_valid (cfg : config) (e : env) (file : UploadService.Upload)
    (d : AudioFile.t) :
  UploadService.fileFilter file = None ->
  AudioFile.originalName d = UploadService.originalname file ->
  AudioFile.filename d = uuid e ++ extname (UploadService.originalname file) ->
  AudioFile.path d = path_join (uploadPath cfg)
                       (uuid e ++ extname (UploadService.originalname file)) ->
  AudioFile.mimetype d = UploadService.mimetype file ->
  AudioFile.status d = "uploaded" ->
  AudioFile.validate d = [].
Proof.
  unfold UploadService.fileFilter.
  destruct (includes allowedTypes (UploadService.mimetype file)) eqn:Htype;
    [|discriminate].
  destruct (includes UploadService.allowedExtensions _) eqn:Hext; [|discriminate].
  intros _ H1 H2 H3 H4 H5.
  destruct (allowed_extension_not_empty _ Hext) as [Hx Hname].
  destruct (allowed_type_is_valid _ Htype) as [Hm Hmime].
  unfold AudioFile.validate, required_string, one_of.
  rewrite H1, H2, H3, H4, H5, Hm, Hmime.
  destruct (String.eqb_spec (UploadService.originalname file) "");
    [contradiction|].
  destruct (String.eqb_spec (uuid e ++ extname (UploadService.originalname file)) "")
    as [E|_]; [exfalso; exact (append_not_empty _ _ Hx E)|].
  destruct (String.eqb_spec
              (path_join (uploadPath cfg)
                 (uuid e ++ extname (UploadService.originalname file))) "") as [E|_];
    [exfalso; exact (path_join_not_empty _ _ E)|].
  reflexivity.
Qed.

Lemma accepted_name (file : UploadService.Upload) :
  UploadService.fileFilter file = None ->
  (UploadService.originalname file =? "")%string = false.
Proof.
  unfold UploadService.fileFilter.
  destruct (includes allowedTypes _); [|discriminate].
  destruct (includes UploadService.allowedExtensions _) eqn:Hext; [|discriminate].
  intros _.
  destruct (String.eqb_spec (UploadService.originalname file) "") as [E|]; [|reflexivity].
  rewrite E in Hext. discriminate Hext.
Qed.

(** What the first file part comes to: passed over, refused with an error, or
    stored. *)
Lemma storeFirst_run (cfg : config) (e : env) (file : UploadService.Upload)
    (w : world) :
  let size := Z.of_nat (String.length (UploadService.content file)) in
  let filename := uuid e ++ extname (UploadService.originalname file) in
  let path := path_join (uploadPath cfg) filename in
  (UploadService.originalname file = ""
   /\ UploadService.fileFilter file <> None
   /\ UploadService.storeFirst cfg e file w = (inr None, w))
  \/ (UploadService.originalname file <> ""
      /\ UploadService.fieldname file <> "audioFile"
      /\ UploadService.storeFirst cfg e file w
         = (inl (UploadService.MulterError "Unexpected field"
                   "LIMIT_UNEXPECTED_FILE"), w))
  \/ (UploadService.fieldname file = "audioFile"
      /\ (exists err,
            UploadService.fileFilter file = Some err
            /\ statusCode (errorHandler cfg err) = 400
            /\ UploadService.storeFirst cfg e file w = (inl err, w)))
  \/ (UploadService.fieldname file = "audioFile"
      /\ UploadService.fileFilter file = None
      /\ maxFileSize cfg <= size
      /\ UploadService.storeFirst cfg e file w
         = (inl (UploadService.MulterError "File too large" "LIMIT_FILE_SIZE"), w))
  \/ (UploadService.fieldname file = "audioFile"
      /\ UploadService.fileFilter file = None
      /\ size < maxFileSize cfg
      /\ UploadService.storeFirst cfg e file w
         = (inr (Some (UploadService.mkFile (UploadService.originalname file)
                         (UploadService.mimetype file) filename path size)),
            set_files ((path, size) :: files w) w)).
Proof.
  intros size filename path. unfold UploadService.storeFirst.
  destruct (String.eqb_spec (UploadService.originalname file) "") as [Hname|Hname].
  { left. split; [exact Hname|]. split; [|reflexivity].
    intros E. apply accepted_name in E. rewrite Hname in E. discriminate E. }
  destruct (String.eqb_spec (UploadService.fieldname file) "audioFile")
    as [Hfield|Hfield]; cbn [negb].
  2:{ right. left. auto. }
  destruct (UploadService.fileFilter file) as [err|] eqn:Hfilter.
  { right. right. left. split; [exact Hfield|]. exists err.
    split; [reflexivity|]. split; [|reflexivity].
    unfold UploadService.fileFilter in Hfilter.
    destruct (includes allowedTypes _); cbn [negb] in Hfilter.
    - destruct (includes UploadService.allowedExtensions _);
        cbn [negb] in Hfilter; [discriminate|].
      injection Hfilter as <-. reflexivity.
    - injection Hfilter as <-. reflexivity. }
  fold size.
  destruct (Z.leb_spec (maxFileSize cfg) size) as [Hbig|Hfits].
  - right. right. right. left. auto.
  - right. right. right. right. auto.
Qed.

(** What an accepted upload below the limit does. *)
Lemma accepted_upload (cfg : config) (e : env) (file : UploadService.Upload)
    (w : world) :
  UploadService.fileFilter file = None ->
  UploadService.fieldname file = "audioFile" ->
  Z.of_nat (String.length (UploadService.content file)) < maxFileSize cfg ->
  let size := Z.of_nat (String.length (UploadService.content file)) in
  let filename := uuid e ++ extname (UploadService.originalname file) in
  let path := path_join (uploadPath cfg) filename in
  let a := AudioFile.mk (newId e) (UploadService.originalname file) filename path
             (UploadService.mimetype file) size None (now e) "uploaded"
             (now e) (now e) in
  UploadController.postUpload cfg e [file] w
  = (done 201 "Audio file uploaded successfully" (Uploaded a),
     mkWorld (audioFiles w ++ [a]) (transcripts w) (analyses w) (coachingPlans w)
             ((path, size) :: files w) (log w ++ [Write AudioFiles])).
Proof.
  intros Hf Hfield Hsize size filename path a.
  unfold UploadController.postUpload.
  rewrite (one_part_stored cfg e file w Hf Hfield Hsize).
  unfold UploadController.uploadAudio, UploadService.processUploadedFile,
    bind, ret, save. cbn.
  fold size. fold filename. fold path. fold a.
  rewrite (uploaded_record_valid cfg e file a Hf) by reflexivity.
  reflexivity.
Qed.

Lemma find_app_none {A : Type} (p : A -> bool) (l l' : list A) :
  List.find p l = None -> List.find p (l ++ l') = List.find p l'.
Proof.
  induction l as [|x l IH]; cbn; [reflexivity|].
  destruct (p x); [discriminate | exact IH].
Qed.

(** The answer to an upload request and the world after it, by what the
    first file part comes to and whether another one follows. *)
Lemma postUpload_run (cfg : config) (e : env) (file : UploadService.Upload)
    (more : list UploadService.Upload) (w : world) :
  let size := Z.of_nat (String.length (UploadService.content file)) in
  let result := UploadController.postUpload cfg e (file :: more) w in
  (statusCode (fst result) = 400 /\ snd result = w
   /\ (more = []
       \/ UploadService.fileFilter file <> None
       \/ UploadService.fieldname file <> "audioFile")
   /\ (UploadService.fileFilter file <> None
       \/ UploadService.fieldname file <> "audioFile"))
  \/ (statusCode (fst result) = 413 /\ snd result = w
      /\ UploadService.fieldname file = "audioFile"
      /\ UploadService.fileFilter file = None
      /\ maxFileSize cfg <= size)
  \/ (statusCode (fst result) = 500 /\ snd result = w
      /\ more <> []
      /\ (UploadService.originalname file = ""
          \/ (UploadService.fieldname file = "audioFile"
              /\ UploadService.fileFilter file = None
              /\ size < maxFileSize cfg)))
  \/ (statusCode (fst result) = 201
      /\ more = []
      /\ UploadService.fieldname file = "audioFile"
      /\ UploadService.fileFilter file = None
      /\ size < maxFileSize cfg).
Proof.
  intros size result. subst result.
  destruct (storeFirst_run cfg e file w)
    as [[Hname [Hno Hrun]] | [[Hname [Hfield Hrun]] | [[Hfield [err [Herr [H400 Hrun]]]]
       | [[Hfield [Hf [Hbig Hrun]]] | [Hfield [Hf [Hfits Hrun]]]]]]].
  - (* passed over *)
    destruct more as [|second more].
    + left. unfold UploadController.postUpload, UploadService.getUploadMiddleware,
        bind. rewrite Hrun. cbn. auto 6.
    + right. right. left.
      unfold UploadController.postUpload, UploadService.getUploadMiddleware, bind.
      rewrite Hrun. cbn.
      destruct (nodeEnv cfg =? "production")%string; cbn;
        (split; [reflexivity|]; split; [reflexivity|]; split; [discriminate | auto]).
  - (* another field *)
    left. unfold UploadController.postUpload, UploadService.getUploadMiddleware, bind.
    rewrite Hrun. cbn. auto 6.
  - (* refused by the filter *)
    left. unfold UploadController.postUpload, UploadService.getUploadMiddleware, bind.
    rewrite Hrun. cbn [fst snd].
    assert (Hno : UploadService.fileFilter file <> None) by (rewrite Herr; discriminate).
    auto 6.
  - (* too large *)
    right. left.
    unfold UploadController.postUpload, UploadService.getUploadMiddleware, bind.
    rewrite Hrun. cbn. auto 6.
  - (* stored *)
    destruct more as [|second more].
    + right. right. right.
      rewrite (accepted_upload cfg e file w Hf Hfield Hfits). cbn. auto 6.
    + right. right. left.
      unfold UploadController.postUpload, UploadService.getUploadMiddleware, bind.
      rewrite Hrun. cbn. rewrite String.eqb_refl. cbn.
      assert (Hw : forall fs, set_files (files w) (set_files fs w) = w)
        by (intros fs; destruct w; reflexivity).
      rewrite Hw.
      destruct (nodeEnv cfg =? "production")%string; cbn;
        (split; [reflexivity|]; split; [reflexivity|]; split; [discriminate | auto]).
Qed.


(** X2: After an upload answered 201, the record is found under its id, with
    the status [uploaded], and the file on disk has the size of the record,
    which is the size of what was sent. *)
Theorem upload_then_info
    (cfg : config) (e : env) (file : UploadService.Upload) (w : world) :
  statusCode (fst (UploadController.postUpload cfg e [file] w)) = 201 ->
  matchesObjectId (newId e) = true ->
  castObjectId (newId e) = newId e ->
  List.find (has_id (newId e)) (audioFiles w) = None ->
  let uploaded := snd (UploadController.postUpload cfg e [file] w) in
  exists a,
    fst (UploadController.getUploadInfo (newId e) uploaded)
    = found (UploadInfo a (Some (AudioFile.size a)))
    /\ AudioFile.status a = "uploaded"
    /\ AudioFile.size a = Z.of_nat (String.length (UploadService.content file))
    /\ AudioFile.originalName a = UploadService.originalname file
    /\ stat (AudioFile.path a) uploaded = Some (AudioFile.size a).
Proof.
  intros H201 Hid Hcast Hfresh.
  destruct (postUpload_run cfg e file [] w)
    as [[Hc _] | [[Hc _] | [[Hc _] | [_ [_ [Hfield [Hf Hfits]]]]]]];
    try (rewrite H201 in Hc; discriminate Hc).
  cbv zeta. rewrite (accepted_upload cfg e file w Hf Hfield Hfits). cbn [snd].
  exists (AudioFile.mk (newId e) (UploadService.originalname file)
            (uuid e ++ extname (UploadService.originalname file))
            (path_join (uploadPath cfg)
               (uuid e ++ extname (UploadService.originalname file)))
            (UploadService.mimetype file)
            (Z.of_nat (String.length (UploadService.content file)))
            None (now e) "uploaded" (now e) (now e)).
  split; [|repeat split].
  - unfold UploadController.getUploadInfo, handler. rewrite Hid. cbn.
    unfold bind, findById, findOne. cbn.
    rewrite find_app_none by exact Hfresh. cbn.
    unfold has_id. cbn. rewrite Hcast, String.eqb_refl. cbn.
    unfold UploadService.getFileInfo, stat. cbn. rewrite String.eqb_refl.
    reflexivity.
  - unfold stat. cbn. rewrite String.eqb_refl. reflexivity.
Qed.

End UploadsMore.

(** ** The path of a stored upload and its extension *)

Lemma scan_stopped (l : list ascii) (i : Z) (st : ext_state) :
  stopped st = true -> ext_scan l i st = st.
Proof.
  revert i. induction l as [|c l IH]; intros i Hs; cbn; [reflexivity|].
  unfold ext_step. rewrite Hs. apply IH, Hs.
Qed.

(** Past the dot of the extension, the scan only records whether the
    character before the dot is itself a dot. *)
Lemma scan_name (l rest : list ascii) (i j e pd : Z) :
  j <> -1 -> e <> -1 ->
  forallb (fun c => negb (Ascii.eqb c "/")) l = true ->
  exists pd',
    (l = [] -> pd' = pd)
    /\ (l <> [] -> pd' = 1 \/ pd' = -1)
    /\ ext_scan (l ++ rest) i (mkExt j 0 e false pd false)
       = ext_scan rest (i - Z.of_nat (List.length l)) (mkExt j 0 e false pd' false).
Proof.
  intros Hj He. revert i pd. induction l as [|c l IH]; intros i pd Hl.
  - exists pd. cbn. rewrite Z.sub_0_r. repeat split; auto. intros H. contradiction.
  - cbn [forallb] in Hl. apply andb_prop in Hl. destruct Hl as [Hc Hl].
    apply negb_true_iff in Hc.
    assert (Hstep : exists pd1, (pd1 = 1 \/ pd1 = -1)
                    /\ ext_step (mkExt j 0 e false pd false) i c
                       = mkExt j 0 e false pd1 false).
    { unfold ext_step. cbn. rewrite Hc.
      destruct (Z.eqb_spec e (-1)) as [|_]; [contradiction|]. cbn.
      destruct (Z.eqb_spec j (-1)) as [|_]; [contradiction|]. cbn.
      destruct (Ascii.eqb c "."); [|exists (-1); auto].
      destruct (Z.eqb_spec pd 1) as [->|_]; cbn; exists 1; auto. }
    destruct Hstep as [pd1 [Hpd1 Hstep]].
    destruct (IH (i - 1) pd1 Hl) as [pd' [H1 [H2 H3]]].
    exists pd'. split; [discriminate|]. split.
    + intros _. destruct l as [|c' l']; [rewrite H1; auto | apply H2; discriminate].
    + cbn [app ext_scan List.length]. rewrite Hstep, H3. f_equal. lia.
Qed.

(** Before the dot, the characters of the extension set the end and nothing
    else. *)
Lemma scan_body (l rest : list ascii) (i e : Z) :
  e <> -1 -> forallb sep_free l = true ->
  ext_scan (l ++ rest) i (mkExt (-1) 0 e false 0 false)
  = ext_scan rest (i - Z.of_nat (List.length l)) (mkExt (-1) 0 e false 0 false).
Proof.
  intros He. revert i. induction l as [|c l IH]; intros i Hl.
  - cbn. rewrite Z.sub_0_r. reflexivity.
  - cbn [forallb] in Hl. apply andb_prop in Hl. destruct Hl as [Hc Hl].
    unfold sep_free in Hc. apply andb_prop in Hc. destruct Hc as [Hs Hd].
    apply negb_true_iff in Hs, Hd.
    cbn [app ext_scan List.length].
    assert (Hstep : ext_step (mkExt (-1) 0 e false 0 false) i c
                    = mkExt (-1) 0 e false 0 false).
    { unfold ext_step. cbn. rewrite Hs, Hd.
      destruct (Z.eqb_spec e (-1)) as [|_]; [contradiction|]. reflexivity. }
    rewrite Hstep, (IH (i - 1) Hl). f_equal. lia.
Qed.

Lemma forallb_rev {A : Type} (p : A -> bool) (l : list A) :
  forallb p (rev l) = forallb p l.
Proof.
  induction l as [|x l IH]; [reflexivity|].
  cbn [rev forallb]. rewrite forallb_app, IH. cbn. rewrite andb_true_r.
  apply andb_comm.
Qed.

Lemma append_assoc' (a b c : string) : (a ++ b) ++ c = a ++ (b ++ c).
Proof.
  induction a as [|x a IH]; [reflexivity|].
  change ((String x a ++ b) ++ c) with (String x ((a ++ b) ++ c)).
  change (String x a ++ (b ++ c)) with (String x (a ++ (b ++ c))).
  rewrite IH. reflexivity.
Qed.

Lemma list_of_append (a b : string) :
  list_ascii_of_string (a ++ b)
  = (list_ascii_of_string a ++ list_ascii_of_string b)%list.
Proof.
  induction a as [|c a IH]; [reflexivity|].
  change (String c a ++ b) with (String c (a ++ b)). cbn. rewrite IH. reflexivity.
Qed.

Lemma length_of_list (s : string) :
  List.length (list_ascii_of_string s) = String.length s.
Proof. induction s as [|c s IH]; cbn; [|rewrite IH]; reflexivity. Qed.

Lemma substring_suffix (a b : string) :
  substring (String.length a) (String.length b) (a ++ b) = b.
Proof.
  induction a as [|c a IH].
  - change ("" ++ b) with b. cbn [String.length].
    induction b as [|c b IHb]; cbn; [reflexivity|]. rewrite IHb. reflexivity.
  - change (String c a ++ b) with (String c (a ++ b)). cbn. exact IH.
Qed.

Lemma all_chars_forallb (p : ascii -> bool) (s : string) :
  all_chars p s = forallb p (list_ascii_of_string s).
Proof. induction s as [|c s IH]; cbn; [|rewrite IH]; reflexivity. Qed.

(** The extension of [name.body], alone or after a directory and a slash,
    when the name is not empty and has no slash and the body is not empty and
    has neither slash nor dot, is [.body]. *)
Lemma extname_of_stored (pre name body : string) :
  pre = "" \/ (exists dir, pre = dir ++ "/") ->
  name <> "" -> all_chars (fun c => negb (Ascii.eqb c "/")) name = true ->
  body <> "" -> all_chars sep_free body = true ->
  extname (pre ++ name ++ String "." body) = String "." body.
Proof.
  intros Hpre Hname Hslash Hbody Hfree.
  set (p := pre ++ name ++ String "." body).
  set (P := list_ascii_of_string pre).
  set (N := list_ascii_of_string name).
  set (B := list_ascii_of_string body).
  assert (Hchars : list_ascii_of_string p = (P ++ N ++ "."%char :: B)%list).
  { unfold p. rewrite !list_of_append. reflexivity. }
  assert (HB : B <> []).
  { unfold B. destruct body; [contradiction | discriminate]. }
  assert (HN : N <> []).
  { unfold N. destruct name; [contradiction | discriminate]. }
  assert (Hrev : rev (list_ascii_of_string p)
                 = (rev B ++ "."%char :: rev N ++ rev P)%list).
  { rewrite Hchars, !rev_app_distr. cbn [rev]. rewrite <- !app_assoc. reflexivity. }
  set (len := Z.of_nat (List.length (list_ascii_of_string p))).
  assert (Hlen : len = Z.of_nat (List.length P) + Z.of_nat (List.length N) + 1
                       + Z.of_nat (List.length B)).
  { unfold len. rewrite Hchars, !length_app. cbn [List.length]. lia. }
  assert (HBlen : 0 < Z.of_nat (List.length B)) by (destruct B; [contradiction | cbn; lia]).
  assert (HNlen : 0 < Z.of_nat (List.length N)) by (destruct N; [contradiction | cbn; lia]).
  set (j := Z.of_nat (List.length P) + Z.of_nat (List.length N)).
  assert (Hscan : exists pd sp stop,
             (pd = 1 \/ pd = -1)
             /\ ext_scan (rev (list_ascii_of_string p)) (len - 1)
                  (mkExt (-1) 0 (-1) true 0 false)
                = mkExt j sp len false pd stop).
  { rewrite Hrev.
    destruct (rev B) as [|b0 B'] eqn:EB.
    { exfalso. apply HB. apply (f_equal (@rev ascii)) in EB.
      rewrite rev_involutive in EB. exact EB. }
    assert (HfreeB : forallb sep_free (b0 :: B') = true).
    { rewrite <- EB, forallb_rev. unfold B. rewrite <- all_chars_forallb.
      exact Hfree. }
    assert (HlenB : Z.of_nat (List.length B) = 1 + Z.of_nat (List.length B')).
    { rewrite <- (length_rev B), EB. cbn [List.length]. lia. }
    cbn [forallb] in HfreeB. apply andb_prop in HfreeB.
    destruct HfreeB as [Hb0 HfreeB'].
    unfold sep_free in Hb0. apply andb_prop in Hb0. destruct Hb0 as [Hs0 Hd0].
    apply negb_true_iff in Hs0, Hd0.
    cbn [app ext_scan].
    assert (Hfirst : ext_step (mkExt (-1) 0 (-1) true 0 false) (len - 1) b0
                     = mkExt (-1) 0 len false 0 false).
    { unfold ext_step. cbn. rewrite Hs0, Hd0. cbn. f_equal. lia. }
    rewrite Hfirst.
    rewrite scan_body by (lia || exact HfreeB').
    cbn [ext_scan].
    assert (Hdot : ext_step (mkExt (-1) 0 len false 0 false)
                     (len - 1 - 1 - Z.of_nat (List.length B')) "."
                   = mkExt j 0 len false 0 false).
    { unfold ext_step. cbn.
      destruct (Z.eqb_spec len (-1)) as [|_]; [lia|]. cbn. f_equal. unfold j. lia. }
    rewrite Hdot.
    assert (HslashN : forallb (fun c => negb (Ascii.eqb c "/")) (rev N) = true).
    { rewrite forallb_rev. unfold N. rewrite <- all_chars_forallb. exact Hslash. }
    destruct (scan_name (rev N) (rev P)
                (len - 1 - 1 - Z.of_nat (List.length B') - 1) j len 0
                ltac:(unfold j; lia) ltac:(lia) HslashN)
      as [pd [_ [Hpd Hn]]].
    rewrite Hn.
    assert (Hpd' : pd = 1 \/ pd = -1).
    { apply Hpd. intros E. apply HN. apply (f_equal (@rev ascii)) in E.
      rewrite rev_involutive in E. exact E. }
    destruct Hpre as [-> | [dir ->]].
    - exists pd, 0, false. split; [exact Hpd' | reflexivity].
    - assert (HP : rev P = ("/"%char :: rev (list_ascii_of_string dir))%list).
      { unfold P. rewrite list_of_append, rev_app_distr. reflexivity. }
      rewrite HP. cbn [ext_scan].
      set (i := len - 1 - 1 - Z.of_nat (List.length B') - 1
                - Z.of_nat (List.length (rev N))).
      assert (Hsl : ext_step (mkExt j 0 len false pd false) i "/"
                    = mkExt j (i + 1) len false pd true) by reflexivity.
      rewrite Hsl, scan_stopped by reflexivity.
      exists pd, (i + 1), true. split; [exact Hpd' | reflexivity]. }
  destruct Hscan as [pd [sp [stop [Hpd Hscan]]]].
  unfold extname. fold p. fold len. rewrite Hscan. cbn [startDot end_ preDotState startPart].
  assert (Hj : j < len - 1) by (unfold j; lia).
  destruct (Z.eqb_spec j (-1)) as [|_]; [unfold j in *; lia|].
  destruct (Z.eqb_spec len (-1)) as [|_]; [lia|].
  destruct (Z.eqb_spec pd 0) as [|_]; [lia|].
  destruct (Z.eqb_spec j (len - 1)) as [|_]; [lia|].
  rewrite andb_false_r. cbn [orb andb].
  replace (Z.to_nat j) with (String.length (pre ++ name)).
  2:{ unfold j, P, N. rewrite !length_of_list.
      rewrite <- (length_of_list (pre ++ name)), list_of_append.
      rewrite length_app, !length_of_list. lia. }
  replace (Z.to_nat (len - j)) with (String.length (String "." body)).
  2:{ rewrite Hlen. unfold j, B. rewrite length_of_list. cbn [String.length]. lia. }
  replace p with ((pre ++ name) ++ String "." body).
  2:{ unfold p. rewrite append_assoc'. reflexivity. }
  apply substring_suffix.
Qed.

(** *** The file name at the end of a joined path *)

Lemma split_on_not_nil (sep : ascii) (p : string) : split_on sep p <> [].
Proof.
  destruct p as [|c p]; cbn; [discriminate|].
  destruct (Ascii.eqb c sep); [discriminate|].
  destruct (split_on sep p); discriminate.
Qed.

Lemma split_on_none (sep : ascii) (f : string) :
  all_chars (fun c => negb (Ascii.eqb c sep)) f = true -> split_on sep f = [f].
Proof.
  induction f as [|c f IH]; cbn; [reflexivity|].
  intros H. apply andb_prop in H. destruct H as [Hc Hf].
  apply negb_true_iff in Hc. rewrite Hc, (IH Hf). reflexivity.
Qed.

Lemma split_on_last (sep : ascii) (a f : string) :
  all_chars (fun c => negb (Ascii.eqb c sep)) f = true ->
  split_on sep (a ++ String sep f) = (split_on sep a ++ [f])%list.
Proof.
  intros Hf. induction a as [|c a IH].
  - change ("" ++ String sep f) with (String sep f). cbn.
    rewrite Ascii.eqb_refl, (split_on_none sep f Hf). reflexivity.
  - change (String c a ++ String sep f) with (String c (a ++ String sep f)).
    cbn. rewrite IH.
    destruct (Ascii.eqb c sep); [reflexivity|].
    destruct (split_on sep a) as [|first others] eqn:E;
      [exfalso; exact (split_on_not_nil sep a E) | reflexivity].
Qed.

Lemma fold_normalize_last (allow : bool) (l : list string) (f : string)
    (res : list string) :
  f <> "" -> f <> "." -> f <> ".." ->
  fold_left (normalize_step allow) (l ++ [f]) res
  = f :: fold_left (normalize_step allow) l res.
Proof.
  intros H0 H1 H2. rewrite fold_left_app. cbn [fold_left].
  set (kept := fold_left (normalize_step allow) l res). unfold normalize_step.
  destruct (String.eqb_spec f ""); [contradiction|].
  destruct (String.eqb_spec f "."); [contradiction|].
  destruct (String.eqb_spec f ".."); [contradiction|].
  reflexivity.
Qed.

Lemma slashed_last (l : list string) (f : string) :
  slashed (l ++ [f])
  = match l with [] => f | _ => slashed l ++ String "/" f end.
Proof.
  induction l as [|x l IH]; [reflexivity|].
  change ((x :: l) ++ [f])%list with (x :: (l ++ [f]))%list.
  destruct l as [|y l].
  - reflexivity.
  - change (slashed (x :: (y :: l) ++ [f]))
      with (x ++ "/" ++ slashed ((y :: l) ++ [f])).
    rewrite IH.
    change (slashed (x :: y :: l)) with (x ++ "/" ++ slashed (y :: l)).
    change ("/" ++ slashed (y :: l) ++ String "/" f)
      with (String "/" (slashed (y :: l) ++ String "/" f)).
    change ("/" ++ slashed (y :: l)) with (String "/" (slashed (y :: l))).
    rewrite append_assoc'.
    change (String "/" (slashed (y :: l)) ++ String "/" f)
      with (String "/" (slashed (y :: l) ++ String "/" f)).
    reflexivity.
Qed.

Lemma last_char_append (a f : string) :
  f <> "" -> last_char (a ++ f) = last_char f.
Proof.
  intros Hf. induction a as [|c a IH].
  - reflexivity.
  - change (String c a ++ f) with (String c (a ++ f)). cbn [last_char].
    destruct (a ++ f) eqn:E; [|exact IH].
    exfalso. destruct a; [change ("" ++ f) with f in E; contradiction|].
    change (String a a0 ++ f) with (String a (a0 ++ f)) in E. discriminate E.
Qed.

Lemma append_empty_r (a : string) : a ++ "" = a.
Proof.
  induction a as [|c a IH]; [reflexivity|].
  change (String c a ++ "") with (String c (a ++ "")). rewrite IH. reflexivity.
Qed.

(** A path that ends in a file name which has no slash and is neither empty
    nor [.] nor [..], does not end in a slash after it, normalizes to a path
    that ends in that file name, after a slash when anything comes before
    it. *)
Lemma normalize_keeps_name (p f : string) :
  p = f \/ (exists a, p = a ++ String "/" f) ->
  all_chars (fun c => negb (Ascii.eqb c "/")) f = true ->
  f <> "" -> f <> "." -> f <> ".." ->
  exists pre,
    (pre = "" \/ exists dir, pre = dir ++ "/") /\ normalize p = pre ++ f.
Proof.
  intros Hp Hslash H0 H1 H2.
  assert (Hlast : match last_char p with
                  | Some l => Ascii.eqb l "/"
                  | None => false
                  end = false).
  { assert (Hf : match last_char f with
                 | Some l => Ascii.eqb l "/"
                 | None => false
                 end = false).
    { clear Hp H1 H2. induction f as [|c f IH]; [contradiction|].
      cbn in Hslash. apply andb_prop in Hslash. destruct Hslash as [Hc Hf].
      destruct f as [|d f].
      - cbn. apply negb_true_iff, Hc.
      - apply IH; [exact Hf | discriminate]. }
    destruct Hp as [-> | [a ->]]; [exact Hf|].
    rewrite last_char_append by discriminate.
    cbn [last_char]. destruct f; [contradiction | exact Hf]. }
  assert (Hsplit : exists l, split_on "/" p = (l ++ [f])%list).
  { destruct Hp as [-> | [a ->]].
    - exists []. apply split_on_none, Hslash.
    - exists (split_on "/" a). apply split_on_last, Hslash. }
  destruct Hsplit as [l Hsplit].
  destruct p as [|c p'].
  { exfalso. destruct Hp as [E | [a E]]; [symmetry in E; contradiction|].
    destruct a; cbv in E; discriminate E. }
  unfold normalize. rewrite Hlast, Hsplit.
  rewrite fold_normalize_last by assumption.
  cbn [rev]. rewrite slashed_last.
  set (kept := rev (fold_left (normalize_step (negb (Ascii.eqb c "/"))) l [])).
  destruct kept as [|k kept'].
  - destruct (String.eqb_spec f ""); [contradiction|].
    rewrite append_empty_r.
    destruct (Ascii.eqb c "/").
    + exists "/". split; [right; exists ""; reflexivity | reflexivity].
    + exists "". split; [left; reflexivity | reflexivity].
  - set (d := slashed (k :: kept')).
    destruct (String.eqb_spec (d ++ String "/" f) "") as [E|_].
    { exfalso. destruct d; discriminate E. }
    rewrite append_empty_r.
    destruct (Ascii.eqb c "/").
    + exists ("/" ++ d ++ "/"). split; [right; exists ("/" ++ d); reflexivity|].
      change ("/" ++ d ++ String "/" f) with (String "/" (d ++ String "/" f)).
      change (("/" ++ d ++ "/") ++ f) with (String "/" ((d ++ "/") ++ f)).
      rewrite append_assoc'. reflexivity.
    + exists (d ++ "/"). split; [right; exists d; reflexivity|].
      change ("" ++ d ++ String "/" f) with (d ++ String "/" f).
      rewrite append_assoc'. reflexivity.
Qed.

Lemma path_join_keeps_name (a f : string) :
  all_chars (fun c => negb (Ascii.eqb c "/")) f = true ->
  f <> "" -> f <> "." -> f <> ".." ->
  exists pre,
    (pre = "" \/ exists dir, pre = dir ++ "/") /\ path_join a f = pre ++ f.
Proof.
  intros Hslash H0 H1 H2. unfold path_join.
  destruct (a =? "")%string.
  - apply normalize_keeps_name; auto.
  - destruct (String.eqb_spec f ""); [contradiction|].
    apply normalize_keeps_name; auto.
    right. exists a. reflexivity.
Qed.

Lemma includes_inv (l : list string) (s : string) :
  includes l s = true -> In s l.
Proof.
  unfold includes. intros H. apply existsb_exists in H.
  destruct H as [x [Hin Heq]]. apply String.eqb_eq in Heq. subst. exact Hin.
Qed.

Lemma lower_dot (c : ascii) : lower c = "."%char -> c = "."%char.
Proof.
  destruct c as [[] [] [] [] [] [] [] []]; vm_compute; intros H;
    first [reflexivity | discriminate H].
Qed.

Lemma sep_free_lower (c : ascii) : sep_free (lower c) = true -> sep_free c = true.
Proof.
  destruct c as [[] [] [] [] [] [] [] []]; vm_compute; intros H; exact H.
Qed.

Lemma sep_free_toLowerCase (s : string) :
  all_chars sep_free (toLowerCase s) = true -> all_chars sep_free s = true.
Proof.
  induction s as [|c s IH]; cbn; [auto|]. intros H.
  apply andb_prop in H. destruct H as [Hc Hs].
  rewrite (sep_free_lower c Hc), (IH Hs). reflexivity.
Qed.

(** An extension the filter lets through is a dot and a name that the
    speech-to-text service supports, whatever its case. *)
Lemma allowed_extension_shape (ext : string) :
  includes UploadService.allowedExtensions (toLowerCase ext) = true ->
  exists body,
    ext = String "." body /\ body <> "" /\ all_chars sep_free body = true
    /\ includes STTService.supportedFormats (toLowerCase body) = true.
Proof.
  intros H. apply includes_inv in H.
  destruct ext as [|c body]; [cbn in H; intuition discriminate|].
  exists body.
  assert (Hl : lower c = "."%char
               /\ In (toLowerCase body) ["wav"; "mp3"; "mpeg"; "mp4"; "flac"]).
  { cbn [toLowerCase] in H. unfold UploadService.allowedExtensions in H.
    cbn [In] in H.
    repeat match type of H with
           | _ \/ _ => destruct H as [H | H]
           end; try contradiction;
      injection H as Hc Hb; (split; [symmetry; exact Hc |]);
      rewrite <- Hb; cbn; auto 6. }
  destruct Hl as [Hc Hb]. apply lower_dot in Hc. subst c.
  split; [reflexivity|].
  assert (Hfree : all_chars sep_free (toLowerCase body) = true
                  /\ toLowerCase body <> ""
                  /\ includes STTService.supportedFormats (toLowerCase body) = true).
  { cbn [In] in Hb.
    repeat match type of Hb with
           | _ \/ _ => destruct Hb as [Hb | Hb]
           end; try contradiction; rewrite <- Hb;
      (split; [reflexivity | split; [discriminate | reflexivity]]). }
  destruct Hfree as [Hfree [Hne Hsup]].
  split; [|split; [apply sep_free_toLowerCase, Hfree | exact Hsup]].
  intros ->. apply Hne. reflexivity.
Qed.

Lemma allowed_type_is_supported (m : string) :
  includes allowedTypes m = true -> STTService.isFormatSupported m = true.
Proof.
  intros H. apply includes_inv in H. unfold allowedTypes in H. cbn [In] in H.
  repeat match type of H with
         | _ \/ _ => destruct H as [H | H]
         end; try contradiction; subst m; reflexivity.
Qed.

(** X3: What the upload filter lets through, the speech-to-text service
    takes: the stored file has a MIME type and an extension that the service
    supports, and the service's checks before the provider is called refuse
    it only for a missing key or for a size over the provider's limit. *)
Theorem stored_upload_has_a_supported_format
    (cfg : config) (e : env) (file : UploadService.Upload)
    (f : UploadService.File) (w w' : world) :
  uuid e <> "" ->
  all_chars (fun c => negb (Ascii.eqb c "/")) (uuid e) = true ->
  UploadService.getUploadMiddleware cfg e [file] w = (inr (Some f), w') ->
  STTService.isFormatSupported (UploadService.file_mimetype f) = true
  /\ includes STTService.supportedFormats
       (remove_first_dot (toLowerCase (extname (UploadService.path f)))) = true
  /\ (keyConfigured cfg = true ->
      UploadService.size f <= STTService.maxFileSize ->
      STTService.refusal cfg (UploadService.path f)
        (stat (UploadService.path f) w') = None).
Proof.
  intros Hname Hslash Hrun.
  unfold UploadService.getUploadMiddleware, UploadService.storeFirst, bind in Hrun.
  destruct (UploadService.originalname file =? "")%string; [discriminate|].
  destruct (negb _); [discriminate|].
  destruct (UploadService.fileFilter file) as [err|] eqn:Hfilter; [discriminate|].
  destruct (maxFileSize cfg <=? _) eqn:Hsize; [discriminate|].
  injection Hrun as Hf Hw. subst f w'.
  unfold UploadService.fileFilter in Hfilter.
  destruct (includes allowedTypes (UploadService.mimetype file)) eqn:Htype;
    [|discriminate]. cbn [negb] in Hfilter.
  destruct (includes UploadService.allowedExtensions _) eqn:Hext; [|discriminate].
  destruct (allowed_extension_shape _ Hext) as [body [Hshape [Hbody [Hfree Hsup]]]].
  cbn [UploadService.file_mimetype UploadService.path UploadService.size].
  rewrite Hshape.
  assert (Hbody_slash : all_chars (fun c => negb (Ascii.eqb c "/")) body = true).
  { clear - Hfree. induction body as [|c body IH]; [reflexivity|].
    cbn in *. apply andb_prop in Hfree. destruct Hfree as [Hc Hb].
    unfold sep_free in Hc. apply andb_prop in Hc. destruct Hc as [Hc _].
    rewrite Hc, (IH Hb). reflexivity. }
  assert (Hfile_slash : all_chars (fun c => negb (Ascii.eqb c "/"))
                          (uuid e ++ String "." body) = true).
  { clear - Hslash Hbody_slash. induction (uuid e) as [|c u IH].
    - change ("" ++ String "." body) with (String "." body). cbn. exact Hbody_slash.
    - change (String c u ++ String "." body) with (String c (u ++ String "." body)).
      cbn in *. apply andb_prop in Hslash. destruct Hslash as [Hc Hu].
      rewrite Hc, (IH Hu). reflexivity. }
  assert (Hlong : forall s, (String.length s <= 2)%nat ->
                    uuid e ++ String "." body <> s).
  { intros s Hs E. apply (f_equal String.length) in E.
    assert (Hl : forall a b, String.length (a ++ b)
                             = (String.length a + String.length b)%nat).
    { intros a b. induction a as [|c a IH]; [reflexivity|].
      change (String c a ++ b) with (String c (a ++ b)). cbn. rewrite IH. reflexivity. }
    rewrite Hl in E. cbn [String.length] in E.
    destruct (uuid e); [contradiction|]. destruct body; [contradiction|].
    cbn [String.length] in E. lia. }
  destruct (path_join_keeps_name (uploadPath cfg) (uuid e ++ String "." body)
              Hfile_slash
              (Hlong "" ltac:(cbn; lia)) (Hlong "." ltac:(cbn; lia))
              (Hlong ".." ltac:(cbn; lia)))
    as [pre [Hpre Hjoin]].
  assert (Hpath : extname (path_join (uploadPath cfg) (uuid e ++ String "." body))
                  = String "." body).
  { rewrite Hjoin. apply extname_of_stored; assumption. }
  assert (Hformat : includes STTService.supportedFormats
            (remove_first_dot (toLowerCase
               (extname (path_join (uploadPath cfg)
                           (uuid e ++ String "." body))))) = true).
  { rewrite Hpath. exact Hsup. }
  split; [apply allowed_type_is_supported, Htype|].
  split; [exact Hformat|].
  intros Hkey Hfits.
  unfold STTService.refusal. rewrite Hkey. cbn [negb].
  unfold stat. cbn [files set_files List.find fst snd option_map].
  rewrite String.eqb_refl. cbn [option_map snd].
  destruct (STTService.maxFileSize <? _) eqn:Hbig; [apply Z.ltb_lt in Hbig; lia|].
  rewrite Hformat. reflexivity.
Qed.

(** ** Deleting and updating *)

Lemma find_nowhere {A : Type} (p : A -> bool) (l : list A) :
  (forall x, In x l -> p x = false) -> List.find p l = None.
Proof.
  induction l as [|x l IH]; cbn; [reflexivity|]. intros H.
  rewrite (H x) by auto. apply IH. intros y Hy. apply H. auto.
Qed.

Lemma find_remove_first_key {A : Type} (key : A -> string) (k : string) (l : list A) :
  NoDup (map key l) ->
  List.find (fun x => (key x =? k)%string)
            (remove_first (fun x => (key x =? k)%string) l) = None.
Proof.
  induction l as [|x l IH]; cbn; [reflexivity|].
  intros Hnd. inversion Hnd as [|? ? Hx Hl]; subst.
  destruct (String.eqb_spec (key x) k) as [E|E].
  - apply find_nowhere. intros y Hy.
    destruct (String.eqb_spec (key y) k) as [E'|]; [|reflexivity].
    exfalso. apply Hx. rewrite E, <- E'. apply in_map, Hy.
  - cbn. destruct (String.eqb_spec (key x) k); [contradiction | auto].
Qed.

Lemma find_remove_first_other {A : Type} (p q : A -> bool) (l : list A) :
  (forall x, q x = true -> p x = false) ->
  List.find q (remove_first p l) = List.find q l.
Proof.
  intros H. induction l as [|x l IH]; cbn; [reflexivity|].
  destruct (p x) eqn:Hp.
  - destruct (q x) eqn:Hq; [|reflexivity].
    apply H in Hq. congruence.
  - cbn. destruct (q x); [reflexivity | exact IH].
Qed.

Lemma find_remove_first_absent {A : Type} (p : A -> bool) (l : list A) :
  List.find p l = None -> remove_first p l = l.
Proof.
  induction l as [|x l IH]; cbn; [reflexivity|].
  destruct (p x); [discriminate|]. intros H. rewrite IH by exact H. reflexivity.
Qed.

Section Deleting.

Context {P : Platform} {O : Ordering}.

(** X5: Deleting an upload that exists removes its record and its file, and
    nothing else: the other files stay, and so do the transcripts, analyses
    and coaching plans, those made from the deleted upload included. *)
Theorem deleteUpload_removes_record_and_file_only
    (id : string) (w : world) (a : AudioFile.t) :
  matchesObjectId id = true ->
  List.find (has_id id) (audioFiles w) = Some a ->
  NoDup (map fst (files w)) ->
  let result := UploadController.deleteUpload id w in
  statusCode (fst result) = 200
  /\ audioFiles (snd result) = remove_first (has_id id) (audioFiles w)
  /\ stat (AudioFile.path a) (snd result) = None
  /\ (forall p, p <> AudioFile.path a -> stat p (snd result) = stat p w)
  /\ transcripts (snd result) = transcripts w
  /\ analyses (snd result) = analyses w
  /\ coachingPlans (snd result) = coachingPlans w.
Proof.
  intros Hid Ha Hnd.
  assert (Hother : forall p, p <> AudioFile.path a ->
            List.find (fun f : string * Z => (fst f =? p)%string)
              (remove_first (fun f => (fst f =? AudioFile.path a)%string) (files w))
            = List.find (fun f => (fst f =? p)%string) (files w)).
  { intros p Hp. apply find_remove_first_other. intros x Hx.
    apply String.eqb_eq in Hx. apply String.eqb_neq. congruence. }
  unfold UploadController.deleteUpload, handler. rewrite Hid. cbn.
  unfold bind, findById, findOne, try_catch, UploadService.deleteFile,
    findByIdAndDelete, stat. cbn. rewrite Ha. cbn.
  destruct (List.find (fun f => (fst f =? AudioFile.path a)%string) (files w))
    as [f|] eqn:Hf; cbn; rewrite Ha; cbn.
  - repeat split.
    + rewrite (find_remove_first_key fst (AudioFile.path a) (files w) Hnd).
      reflexivity.
    + intros p Hp. rewrite (Hother p Hp). reflexivity.
  - repeat split. rewrite Hf. reflexivity.
Qed.

Lemma deleted_then (A : Type) `{Model A} (id : string) (w : world) (d : A) :
  NoDup (map id_of (docs w)) ->
  List.find (has_id id) (docs w) = Some d ->
  List.find (has_id id) (remove_first (has_id id) (docs w)) = None.
Proof.
  intros Hnd _. unfold has_id.
  apply (find_remove_first_key id_of (castObjectId id) (docs w) Hnd).
Qed.

(** X6: With the ids of a collection distinct, a record that was deleted is not
    found any more: reading it and deleting it again are both answered
    404. *)
Theorem deleted_record_is_gone (w : world) (id : string)
    (del get : Routes.by_id) :
  NoDup (map AudioFile._id (audioFiles w)) ->
  NoDup (map Transcript._id (transcripts w)) ->
  NoDup (map Analysis._id (analyses w)) ->
  NoDup (map CoachingPlan._id (coachingPlans w)) ->
  In (del, get) [(Routes.DeleteUpload, Routes.GetUploadInfo);
                 (Routes.DeleteTranscript, Routes.GetTranscript);
                 (Routes.DeleteAnalysis, Routes.GetAnalysis);
                 (Routes.DeleteCoachingPlan, Routes.GetCoachingPlan)] ->
  statusCode (fst (Routes.run_by_id del id w)) = 200 ->
  let after := snd (Routes.run_by_id del id w) in
  statusCode (fst (Routes.run_by_id get id after)) = 404
  /\ statusCode (fst (Routes.run_by_id del id after)) = 404.
Proof.
  intros Na Nt Nn Np Hin.
  repeat (destruct Hin as [[= <- <-]|Hin]); try contradiction;
    cbn [Routes.run_by_id];
    unfold UploadController.deleteUpload, UploadController.getUploadInfo,
      TranscriptController.deleteTranscript, TranscriptController.getTranscript,
      AnalysisController.deleteAnalysis, AnalysisController.getAnalysis,
      CoachingController.deleteCoachingPlan, CoachingController.getCoachingPlan,
      handler;
    (destruct (matchesObjectId id); cbn; [|discriminate]);
    unfold bind, findById, findOne, findByIdAndDelete, try_catch,
      UploadService.deleteFile; cbn.
  - destruct (List.find (has_id id) (audioFiles w)) as [a|] eqn:Ha; cbn;
      [|discriminate].
    pose proof (deleted_then AudioFile.t id w a Na Ha) as Hgone. cbn in Hgone.
    unfold stat. cbn.
    destruct (List.find (fun f => (fst f =? AudioFile.path a)%string) (files w));
      cbn; rewrite Ha; cbn; intros _;
      rewrite Hgone; cbn; rewrite ?Hgone; split; reflexivity.
  - destruct (List.find (has_id id) (transcripts w)) as [t|] eqn:Ht; cbn;
      [|discriminate].
    pose proof (deleted_then Transcript.t id w t Nt Ht) as Hgone. cbn in Hgone.
    intros _. rewrite Hgone. cbn. split; reflexivity.
  - destruct (List.find (has_id id) (analyses w)) as [a|] eqn:Ha; cbn;
      [|discriminate].
    pose proof (deleted_then Analysis.t id w a Nn Ha) as Hgone. cbn in Hgone.
    intros _. rewrite Hgone. cbn. split; reflexivity.
  - destruct (List.find (has_id id) (coachingPlans w)) as [p|] eqn:Hp; cbn;
      [|discriminate].
    pose proof (deleted_then CoachingPlan.t id w p Np Hp) as Hgone. cbn in Hgone.
    intros _. rewrite Hgone. cbn. split; reflexivity.
Qed.

End Deleting.

Section Updating.

Context {P : Platform} {O : Ordering}.

(** The shape of a refusal: not 200, no accepted reading of the request, and
    the store as it was. *)
Ltac refused :=
  cbn -[includes];
  split;
  [ split; [discriminate
           | intros [? [? ?]]; exfalso; intuition (discriminate || congruence)]
  | split; [ intros ? ? ?; exfalso; intuition (discriminate || congruence)
           | intros _; split; [cbn; auto | reflexivity] ] ].

(** X7: A status update is answered 200 exactly when the status is one of the
    four, the id is well formed and the record exists; it then writes the
    status and the time of the update into that record and touches nothing
    else. In every other case the answer is 400 or 404 and the store is as it
    was. *)
Theorem updateStatus_writes_one_status
    (e : env) (id : string) (status : value) (w : world) :
  let result := UploadController.updateStatus e id status w in
  let accepted s a :=
    status = JStr s /\ includes AudioFile.statuses s = true
    /\ matchesObjectId id = true
    /\ List.find (has_id id) (audioFiles w) = Some a in
  (statusCode (fst result) = 200 <-> exists s a, accepted s a)
  /\ (forall s a, accepted s a ->
        fst result
        = done 200 "Status updated successfully"
               (StatusChanged (AudioFile._id a) s (now e))
        /\ audioFiles (snd result)
           = update_first (has_id id)
               (fun d => AudioFile.set_updatedAt (now e) (AudioFile.set_status s d))
               (audioFiles w)
        /\ List.find (has_id id) (audioFiles (snd result))
           = Some (AudioFile.set_updatedAt (now e) (AudioFile.set_status s a))
        /\ transcripts (snd result) = transcripts w
        /\ analyses (snd result) = analyses w
        /\ coachingPlans (snd result) = coachingPlans w
        /\ files (snd result) = files w)
  /\ (statusCode (fst result) <> 200 ->
      In (statusCode (fst result)) [400; 404] /\ same_state w (snd result)).
Proof.
  cbv zeta.
  unfold UploadController.updateStatus, UploadController.validateStatus, handler.
  destruct status as [| |b|q|s|l|l]; try (refused; fail).
  destruct (includes AudioFile.statuses s) eqn:Hs; [|refused].
  destruct (matchesObjectId id) eqn:Hid; [|refused].
  cbn -[includes]. unfold bind, findByIdAndUpdate. cbn -[includes].
  destruct (List.find (has_id id) (audioFiles w)) as [a|] eqn:Ha; [|refused].
  cbn -[includes].
  split; [split; [intros _; exists s, a; auto | reflexivity]|].
  split; [|intros H; contradiction H; reflexivity].
  intros s' a' [[= <-] [_ [_ [= <-]]]]. repeat split.
  refine (find_update_first _
            (fun d => AudioFile.set_updatedAt (now e) (AudioFile.set_status s d))
            _ _ Ha _).
  cbn. apply (find_some _ _ Ha).
Qed.

(** The numbers the update schema takes are those from 0 up to the largest
    safe integer. *)
Lemma unsafeNumber_false (x : Q) :
  (0 <= x)%Q ->
  TranscriptController.unsafeNumber x = false <-> (x <= inject_Z (2 ^ 53 - 1))%Q.
Proof.
  intros Hx. unfold TranscriptController.unsafeNumber.
  assert (Hlow : Qle_bool (inject_Z (- (2 ^ 53 - 1))) x = true).
  { apply Qle_bool_iff. apply Qle_trans with (y := 0%Q); [|exact Hx].
    unfold Qle. cbn. lia. }
  rewrite Hlow. cbn [negb]. rewrite orb_false_r, negb_false_iff.
  apply Qle_bool_iff.
Qed.

Lemma number_in_range (x : Q) :
  (if TranscriptController.unsafeNumber x then false else Qle_bool 0 x) = true
  <-> (0 <= x <= inject_Z (2 ^ 53 - 1))%Q.
Proof.
  destruct (Qle_bool 0 x) eqn:E0.
  - pose proof (proj1 (Qle_bool_iff _ _) E0) as H0.
    pose proof (unsafeNumber_false x H0) as Hu.
    destruct (TranscriptController.unsafeNumber x).
    + split; [discriminate|]. intros [_ H]. apply Hu in H. discriminate.
    + split; [intros _; split; [exact H0 | apply Hu; reflexivity] | reflexivity].
  - split.
    + destruct (TranscriptController.unsafeNumber x); discriminate.
    + intros [H _]. apply Qle_bool_iff in H. congruence.
Qed.

Lemma validateSegment_none (s : Segment.t) :
  TranscriptController.validateSegment s = None <-> segment_ok s.
Proof.
  unfold TranscriptController.validateSegment, segment_ok.
  pose proof (number_in_range (Segment.start s)) as Hs.
  pose proof (number_in_range (Segment.end_ s)) as He.
  destruct (String.eqb_spec (Segment.text s) "") as [E|E];
    [split; [discriminate | intros [H _]; contradiction]|].
  destruct (TranscriptController.unsafeNumber (Segment.start s));
    [split; [discriminate | intros [_ [H _]]; apply Hs in H; discriminate]|].
  destruct (Qle_bool 0 (Segment.start s)); cbn [negb];
    [|split; [discriminate | intros [_ [H _]]; apply Hs in H; discriminate]].
  destruct (TranscriptController.unsafeNumber (Segment.end_ s));
    [split; [discriminate | intros [_ [_ [H _]]]; apply He in H; discriminate]|].
  destruct (Qle_bool 0 (Segment.end_ s)); cbn [negb];
    [|split; [discriminate | intros [_ [_ [H _]]]; apply He in H; discriminate]].
  pose proof (proj1 Hs eq_refl) as Hs'. pose proof (proj1 He eq_refl) as He'.
  destruct (Segment.confidence s) as [c|].
  - pose proof (number_in_range c) as Hc.
    destruct (TranscriptController.unsafeNumber c).
    + split; [discriminate|]. intros [_ [_ [_ H]]].
      destruct (H c eq_refl) as [H0 H1]. 
      assert (Hr : (0 <= c <= inject_Z (2 ^ 53 - 1))%Q).
      { split; [exact H0|]. apply Qle_trans with (y := 1%Q); [exact H1|].
        unfold Qle. cbn. lia. }
      apply Hc in Hr. discriminate.
    + destruct (Qle_bool 0 c) eqn:E0; cbn [negb].
      * destruct (Qle_bool c 1) eqn:E1; cbn [negb].
        -- split; [intros _|reflexivity].
           split; [exact E|]. split; [exact Hs'|]. split; [exact He'|].
           intros c' [= <-]. split; apply Qle_bool_iff; assumption.
        -- split; [discriminate|]. intros [_ [_ [_ H]]].
           destruct (H c eq_refl) as [_ H1]. apply Qle_bool_iff in H1. congruence.
      * split; [discriminate|]. intros [_ [_ [_ H]]].
        destruct (H c eq_refl) as [H0 _]. apply Qle_bool_iff in H0. congruence.
  - split; [intros _|reflexivity].
    split; [exact E|]. split; [exact Hs'|]. split; [exact He'|]. discriminate.
Qed.

Lemma first_error_none {A : Type} (check : A -> option string) (l : list A) :
  TranscriptController.first_error check l = None
  <-> forall x, In x l -> check x = None.
Proof.
  induction l as [|x l IH]; cbn.
  - split; [intros _ ? [] | reflexivity].
  - destruct (check x) eqn:E.
    + split; [discriminate|]. intros H. rewrite (H x) in E by auto. discriminate.
    + rewrite IH. split.
      * intros H y [<-|Hy]; auto.
      * intros H y Hy. apply H. auto.
Qed.

(** What the handler of the update does, by the first error of the schema. *)
Lemma updateTranscript_run
    (e : env) (id : string) (text : value) (segments : option (list Segment.t))
    (w : world) :
  let result := TranscriptController.updateTranscript e id text segments w in
  let accepted s t :=
    text = JStr s /\ s <> ""
    /\ match segments with
       | Some l => TranscriptController.first_error
                     TranscriptController.validateSegment l
       | None => None
       end = None
    /\ matchesObjectId id = true
    /\ List.find (has_id id) (transcripts w) = Some t in
  (statusCode (fst result) = 200 <-> exists s t, accepted s t)
  /\ (forall s t, accepted s t ->
        exists t',
          List.find (has_id id) (transcripts (snd result)) = Some t'
          /\ Transcript.text t' = s
          /\ Transcript.segments t'
             = match segments with Some l => l | None => Transcript.segments t end
          /\ Transcript.confidence t' = Transcript.confidence t
          /\ Transcript.language t' = Transcript.language t
          /\ Transcript.audioFileId t' = Transcript.audioFileId t
          /\ Transcript.updatedAt t' = now e
          /\ audioFiles (snd result) = audioFiles w
          /\ analyses (snd result) = analyses w)
  /\ (statusCode (fst result) <> 200 ->
      In (statusCode (fst result)) [400; 404] /\ same_state w (snd result)).
Proof.
  cbv zeta.
  unfold TranscriptController.updateTranscript, TranscriptController.validateUpdate,
    handler.
  destruct text as [| |b|q|s|l|l]; try (refused; fail).
  destruct (String.eqb_spec s "") as [->|Hs]; [refused|].
  destruct (match segments with
            | Some l => TranscriptController.first_error
                          TranscriptController.validateSegment l
            | None => None
            end) as [err|] eqn:Hseg; [refused|].
  destruct (matchesObjectId id) eqn:Hid; [|refused].
  cbn. unfold bind, findByIdAndUpdate, TranscriptController.populated, populate.
  cbn.
  destruct (List.find (has_id id) (transcripts w)) as [t|] eqn:Ht; [|refused].
  cbn.
  split; [split; [intros _; exists s, t; repeat split; auto | reflexivity]|].
  split; [|intros H; contradiction H; reflexivity].
  intros s' t' [[= <-] [_ [_ [_ [= <-]]]]].
  eexists. split.
  { refine (find_update_first _
              (fun d => Transcript.set_updatedAt (now e)
                          (match segments with
                           | Some l => Transcript.set_segments l
                                         (Transcript.set_text s d)
                           | None => Transcript.set_text s d
                           end)) _ _ Ht _).
    destruct segments; cbn; apply (find_some _ _ Ht). }
  destruct segments; cbn; repeat split.
Qed.

(** X8: A transcript update is answered 200 exactly when the text is a string
    that is not empty, every segment, if segments are given, has a text that
    is not empty, a start and an end from 0 up to the largest safe integer
    and a confidence, if any, between 0 and 1, the id is well formed and the
    record exists. It then replaces the text, and the segments when given,
    and leaves the confidence, the language and the reference to the audio
    file as they were; every other request is answered 400 or 404 and leaves
    the store as it was. *)
Theorem updateTranscript_replaces_text_only
    (e : env) (id : string) (text : value) (segments : option (list Segment.t))
    (w : world) :
  let result := TranscriptController.updateTranscript e id text segments w in
  let accepted s t :=
    text = JStr s /\ s <> ""
    /\ (forall l, segments = Some l -> Forall segment_ok l)
    /\ matchesObjectId id = true
    /\ List.find (has_id id) (transcripts w) = Some t in
  (statusCode (fst result) = 200 <-> exists s t, accepted s t)
  /\ (forall s t, accepted s t ->
        exists t',
          List.find (has_id id) (transcripts (snd result)) = Some t'
          /\ Transcript.text t' = s
          /\ Transcript.segments t'
             = match segments with Some l => l | None => Transcript.segments t end
          /\ Transcript.confidence t' = Transcript.confidence t
          /\ Transcript.language t' = Transcript.language t
          /\ Transcript.audioFileId t' = Transcript.audioFileId t
          /\ Transcript.updatedAt t' = now e
          /\ audioFiles (snd result) = audioFiles w
          /\ analyses (snd result) = analyses w)
  /\ (statusCode (fst result) <> 200 ->
      In (statusCode (fst result)) [400; 404] /\ same_state w (snd result)).
Proof.
  cbv zeta.
  assert (Hsegments :
            match segments with
            | Some l => TranscriptController.first_error
                          TranscriptController.validateSegment l
            | None => None
            end = None
            <-> forall l, segments = Some l -> Forall segment_ok l).
  { destruct segments as [l|].
    - rewrite first_error_none. split.
      + intros H l' [= <-]. apply Forall_forall. intros x Hx.
        apply validateSegment_none, H, Hx.
      + intros H x Hx. apply validateSegment_none.
        exact (proj1 (Forall_forall _ _) (H l eq_refl) x Hx).
    - split; [intros _ l; discriminate | reflexivity]. }
  destruct (updateTranscript_run e id text segments w) as [H200 [Hthen Helse]].
  split; [|split; [|exact Helse]].
  - rewrite H200.
    split; intros [s [t [Ht [Hs [Hl Hrest]]]]]; exists s, t;
      (split; [exact Ht|]; split; [exact Hs|]; split; [|exact Hrest]);
      apply Hsegments; exact Hl.
  - intros s t [Ht [Hs [Hl Hrest]]]. apply (Hthen s t).
    split; [exact Ht|]. split; [exact Hs|]. split; [|exact Hrest].
    apply Hsegments; exact Hl.
Qed.

End Updating.

(** ** Transcription, from the request to the store *)

Lemma In_update_first {A : Type} (p : A -> bool) (f : A -> A) (l : list A) (y : A) :
  In y (update_first p f l) -> In y l \/ exists x, In x l /\ y = f x.
Proof.
  induction l as [|x l IH]; cbn; [tauto|].
  destruct (p x); cbn.
  - intros [<-|H]; [right; exists x; auto | auto].
  - intros [<-|H]; [auto|]. destruct (IH H) as [H'|[x' [H1 H2]]]; [auto|].
    right. exists x'. auto.
Qed.

Section Transcribing.

Context {P : Platform} {O : Ordering}.

(** The three ways a transcription request goes: refused before anything
    is written; failed, with the audio file marked; or done. *)
Lemma transcribeAudio_run (cfg : config) (e : env) (fetched : STTService.Fetched)
    (audioFileId : string) (language : value) (w : world) :
  let result :=
    TranscriptController.transcribeAudio cfg e fetched audioFileId language w in
  (In (statusCode (fst result)) [400; 404; 409] /\ same_state w (snd result))
  \/ exists lang a,
       TranscriptController.validateLanguage
         (if isUndefined language then JStr "en" else language) = inr lang
       /\ matchesObjectId audioFileId = true
       /\ List.find (has_id audioFileId) (audioFiles w) = Some a
       /\ List.find (TranscriptController.owned_by audioFileId) (transcripts w) = None
       /\ ((exists reason,
              fst result = fail 500 "Transcription failed" reason
              /\ snd result
                 = mkWorld
                     (update_first (has_id audioFileId)
                        (TranscriptController.mark e "failed") (audioFiles w))
                     (transcripts w) (analyses w) (coachingPlans w) (files w)
                     (log w ++ [Read AudioFiles; Read Transcripts;
                                Write AudioFiles; Write AudioFiles])
              /\ (STTService.refusal cfg (AudioFile.path a)
                    (stat (AudioFile.path a) w) = None ->
                  forall answer, fetched = STTService.Ok answer ->
                  Transcript.validate
                    (TranscriptController.newTranscript e audioFileId
                       (STTService.transform answer (elapsed e) lang)) <> []))
           \/ (exists answer,
                 let provided := STTService.transform answer (elapsed e) lang in
                 let t := TranscriptController.newTranscript e audioFileId provided in
                 fetched = STTService.Ok answer
                 /\ STTService.refusal cfg (AudioFile.path a)
                      (stat (AudioFile.path a) w) = None
                 /\ Transcript.validate t = []
                 /\ fst result
                    = done 201 "Audio file transcribed successfully" (Transcribed t)
                 /\ snd result
                    = mkWorld
                        (update_first (has_id audioFileId)
                           (TranscriptController.complete e
                              (STTService.duration provided))
                           (audioFiles w))
                        (transcripts w ++ [t]) (analyses w) (coachingPlans w)
                        (files w)
                        (log w ++ [Read AudioFiles; Read Transcripts;
                                   Write AudioFiles; Write Transcripts;
                                   Write AudioFiles]))).
Proof.
  cbv zeta. unfold TranscriptController.transcribeAudio, handler.
  destruct (TranscriptController.validateLanguage _) as [err|lang] eqn:Hl;
    [left; cbn; split; [auto | reflexivity]|].
  destruct (matchesObjectId audioFileId) eqn:Hid;
    [|left; cbn; split; [auto | reflexivity]].
  cbn. unfold bind, findById, findOne. cbn.
  destruct (List.find (has_id audioFileId) (audioFiles w)) as [a|] eqn:Ha;
    [|left; cbn; split; [auto | reflexivity]].
  cbn.
  destruct (List.find (TranscriptController.owned_by audioFileId) (transcripts w))
    as [t|] eqn:Ht; [left; cbn; split; [auto | reflexivity]|].
  right. exists lang, a. repeat (split; [reflexivity|]).
  cbn. unfold findByIdAndUpdate, try_catch, save. cbn. rewrite Ha. cbn.
  rewrite transcribeAudio_outcome. unfold stat. cbn [files].
  assert (Hfound :
            List.find (has_id audioFileId)
              (update_first (has_id audioFileId)
                 (TranscriptController.mark e "processing") (audioFiles w))
            = Some (TranscriptController.mark e "processing" a)).
  { apply (find_update_first _ _ _ _ Ha). cbn. apply (find_some _ _ Ha). }
  destruct (STTService.refusal _ _ _) as [refused|] eqn:Hr; cbn.
  { rewrite Hfound. cbn. rewrite update_first_twice by reflexivity.
    rewrite <- !app_assoc. cbn.
    left. eexists. split; [reflexivity|]. split; [reflexivity|].
    intros H. discriminate H. }
  destruct fetched as [cause|status statusText errorMessage|answer]; cbn.
  1, 2: rewrite Hfound; cbn; rewrite update_first_twice by reflexivity;
        rewrite <- !app_assoc; cbn;
        left; eexists; split; [reflexivity|]; split; [reflexivity|];
        intros _ answer H; discriminate H.
  destruct (Transcript.validate _) eqn:Hv; cbn; rewrite Hfound; cbn;
    rewrite update_first_twice by reflexivity; rewrite <- !app_assoc; cbn.
  - right. exists answer. repeat split; assumption.
  - left. eexists. split; [reflexivity|]. split; [reflexivity|].
    intros _ answer' [= <-]. rewrite Hv. discriminate.
Qed.

(** X9: A transcription answered 201 can be read back: the transcript is found
    by the id of its audio file, with the audio file [completed] beside it,
    and a further transcription request for the same audio file, whatever
    its language and whatever the provider would say, is answered 400 when
    its language does not pass the check and otherwise 409 with the id of
    that transcript. *)
Theorem created_transcript_is_found_by_its_audio_file
    (cfg : config) (e : env) (fetched : STTService.Fetched) (audioFileId : string)
    (language : value) (w : world) :
  let result :=
    TranscriptController.transcribeAudio cfg e fetched audioFileId language w in
  statusCode (fst result) = 201 ->
  exists t a,
    data (fst result) = Transcribed t
    /\ fst (TranscriptController.getTranscriptByAudioFile audioFileId (snd result))
       = found (TranscriptDoc t (Some a))
    /\ AudioFile.status a = "completed"
    /\ forall cfg' e' fetched' language',
         let again :=
           fst (TranscriptController.transcribeAudio cfg' e' fetched' audioFileId
                  language' (snd result)) in
         match TranscriptController.validateLanguage
                 (if isUndefined language' then JStr "en" else language') with
         | inr _ =>
             again = conflict "Transcript already exists for this audio file"
                              (Transcript._id t) (Transcript.createdAt t)
         | inl err => again = fail 400 "Validation error" err
         end.
Proof.
  cbv zeta. intros H201.
  destruct (transcribeAudio_run cfg e fetched audioFileId language w)
    as [[Hin _]|[lang [a [Hl [Hid [Ha [Ht Hcase]]]]]]].
  { rewrite H201 in Hin. cbn in Hin. intuition discriminate. }
  destruct Hcase as [[reason [Hr _]]|[answer Hdone]].
  { rewrite Hr in H201. discriminate H201. }
  cbv zeta in Hdone. destruct Hdone as [_ [_ [_ [Hr Hw]]]].
  rewrite Hr, Hw. clear Hr Hw H201.
  generalize (STTService.transform answer (elapsed e) lang). intros provided.
  assert (Hfound :
            List.find (has_id audioFileId)
              (update_first (has_id audioFileId)
                 (TranscriptController.complete e (STTService.duration provided))
                 (audioFiles w))
            = Some (TranscriptController.complete e
                      (STTService.duration provided) a)).
  { apply (find_update_first _ _ _ _ Ha). cbn. apply (find_some _ _ Ha). }
  assert (Hown : TranscriptController.owned_by audioFileId
                   (TranscriptController.newTranscript e audioFileId provided)
                 = true).
  { unfold TranscriptController.owned_by. cbn. apply String.eqb_refl. }
  eexists. eexists. split; [reflexivity|]. split; [|split].
  - unfold TranscriptController.getTranscriptByAudioFile, handler. rewrite Hid.
    cbn. unfold bind, findOne, TranscriptController.populated, populate. cbn.
    rewrite find_app_none by exact Ht. cbn [List.find]. rewrite Hown. cbn.
    change (fun d : AudioFile.t => (AudioFile._id d =? castObjectId audioFileId)%string)
      with (has_id (A := AudioFile.t) audioFileId).
    rewrite Hfound. reflexivity.
  - reflexivity.
  - intros cfg' e' fetched' language'. cbv zeta.
    unfold TranscriptController.transcribeAudio, handler.
    destruct (TranscriptController.validateLanguage
                (if isUndefined language' then JStr "en" else language'))
      as [err|lang']; [reflexivity|].
    rewrite Hid. cbn.
    unfold bind, findById, findOne. cbn. rewrite Hfound. cbn.
    rewrite find_app_none by exact Ht. cbn [List.find]. rewrite Hown. reflexivity.
Qed.

(** X10: No transcription request leaves an audio file in the status
    [processing]: a file that has it afterwards had it before and was not
    touched. *)
Theorem no_audio_file_is_left_processing
    (cfg : config) (e : env) (fetched : STTService.Fetched) (audioFileId : string)
    (language : value) (w : world) (d : AudioFile.t) :
  let result :=
    TranscriptController.transcribeAudio cfg e fetched audioFileId language w in
  In d (audioFiles (snd result)) ->
  AudioFile.status d = "processing" ->
  In d (audioFiles w).
Proof.
  cbv zeta. intros Hin Hst.
  destruct (transcribeAudio_run cfg e fetched audioFileId language w)
    as [[_ Hsame]|[lang [a [_ [_ [_ [_ Hcase]]]]]]].
  { unfold same_state, fresh_log in Hsame. injection Hsame as H _. congruence. }
  destruct Hcase as [[reason [_ [Hw _]]]|[answer Hdone]].
  - rewrite Hw in Hin. cbn in Hin.
    destruct (In_update_first _ _ _ _ Hin) as [H|[x [_ ->]]];
      [exact H | discriminate Hst].
  - cbv zeta in Hdone. destruct Hdone as [_ [_ [_ [_ Hw]]]].
    rewrite Hw in Hin. cbn in Hin.
    destruct (In_update_first _ _ _ _ Hin) as [H|[x [_ ->]]];
      [exact H | discriminate Hst].
Qed.

(** X11: An audio file of more than 25MB is never transcribed: whatever the
    provider would answer, the request fails with the size in the message
    and the file is marked [failed]. *)
Theorem file_over_the_provider_limit_is_never_transcribed
    (cfg : config) (e : env) (fetched : STTService.Fetched) (audioFileId : string)
    (language : value) (lang : string) (w : world) (a : AudioFile.t) (size : Z) :
  TranscriptController.validateLanguage
    (if isUndefined language then JStr "en" else language) = inr lang ->
  matchesObjectId audioFileId = true ->
  List.find (has_id audioFileId) (audioFiles w) = Some a ->
  List.find (TranscriptController.owned_by audioFileId) (transcripts w) = None ->
  keyConfigured cfg = true ->
  stat (AudioFile.path a) w = Some size ->
  25 * 1024 * 1024 < size ->
  let result :=
    TranscriptController.transcribeAudio cfg e fetched audioFileId language w in
  fst result
  = fail 500 "Transcription failed"
         ("Transcription failed: File size "
          ++ showZ (round_div size (1024 * 1024))
          ++ "MB exceeds OpenAI limit of 25MB")
  /\ transcripts (snd result) = transcripts w
  /\ option_map AudioFile.status
       (List.find (has_id audioFileId) (audioFiles (snd result)))
     = Some "failed".
Proof.
  intros Hl Hid Ha Ht Hk Hstat Hsize.
  destruct (transcribe_failed cfg e fetched
              ("File size " ++ showZ (round_div size (1024 * 1024))
               ++ "MB exceeds OpenAI limit of 25MB")
              audioFileId language lang w a Hl Hid Ha Ht)
    as [Hr [Htr [_ [Hf _]]]].
  { rewrite transcribeAudio_outcome. unfold STTService.refusal.
    rewrite Hk, Hstat. cbn [negb].
    destruct (Z.ltb_spec STTService.maxFileSize size) as [_|Hle];
      [reflexivity|].
    unfold STTService.maxFileSize in Hle. lia. }
  cbv zeta. rewrite Hr, Htr, Hf. repeat split.
Qed.

End Transcribing.

(** ** Analysis and coaching, from the request to the store *)

Section Stages.

Context {P : Platform} {O : Ordering}.

(** The ways an analysis request goes. *)
Lemma analyzeTranscript_run (cfg : config) (e : env) (call : string + value)
    (transcriptId : string) (w : world) :
  let result := AnalysisController.analyzeTranscript cfg e call transcriptId w in
  (In (statusCode (fst result)) [400; 404; 409] /\ same_state w (snd result))
  \/ exists t,
       matchesObjectId transcriptId = true
       /\ List.find (has_id transcriptId) (transcripts w) = Some t
       /\ List.find (AnalysisController.about transcriptId) (analyses w) = None
       /\ ((statusCode (fst result) = 500 /\ same_state w (snd result)
            /\ (keyConfigured cfg = false ->
                error (fst result)
                = Some ("LLM Analysis failed: " ++ keyMissing))
            /\ (List.find (fun d => (AudioFile._id d =? Transcript.audioFileId t)%string)
                          (audioFiles w) = None ->
                forall res,
                  fst (LLMService.analyzeTranscript cfg call (elapsed e) w) = inr res ->
                  error (fst result)
                  = Some "Cannot read properties of null (reading '_id')"))
           \/ (exists r a,
                 let analysis :=
                   AnalysisController.newAnalysis e transcriptId (AudioFile._id a)
                     (LLMService.mkResult r (elapsed e)) in
                 call = inr r
                 /\ keyConfigured cfg = true
                 /\ List.find (fun d => (AudioFile._id d =? Transcript.audioFileId t)%string)
                              (audioFiles w) = Some a
                 /\ Analysis.validate analysis = []
                 /\ fst result
                    = done 201 "Transcript analyzed successfully" (Analyzed analysis)
                 /\ snd result
                    = mkWorld (audioFiles w) (transcripts w)
                              (analyses w ++ [analysis]) (coachingPlans w) (files w)
                              (log w ++ [Read Transcripts; Read AudioFiles;
                                         Read Analyses; Write Analyses]))).
Proof.
  cbv zeta. unfold AnalysisController.analyzeTranscript, handler.
  destruct (matchesObjectId transcriptId) eqn:Hid;
    [|left; cbn; split; [auto | reflexivity]].
  cbn. unfold bind, findById, findOne, populate. cbn.
  destruct (List.find (has_id transcriptId) (transcripts w)) as [t|] eqn:Ht;
    [|left; cbn; split; [auto | reflexivity]].
  cbn.
  destruct (List.find (AnalysisController.about transcriptId) (analyses w))
    as [a|] eqn:Ha; [left; cbn; split; [auto | reflexivity]|].
  right. exists t. repeat (split; [reflexivity|]).
  cbn. destruct (pure_analyzeTranscript cfg call (elapsed e)) as [r Hr].
  rewrite Hr.
  destruct r as [err|res].
  { left. cbn. repeat split.
    - intros Hk. revert Hr. unfold LLMService.analyzeTranscript, try_catch, throw.
      rewrite Hk. cbn. intros Hr. specialize (Hr w). injection Hr as <-.
      reflexivity.
    - intros _ res H. rewrite Hr in H. discriminate H. }
  destruct (analyzeTranscript_returns _ _ _ _ _ _ (Hr w))
    as [Hk [r [-> [-> _]]]].
  destruct (List.find _ (audioFiles w)) as [af|] eqn:Haf.
  2:{ left. cbn. repeat split.
      intros Hk'. congruence. }
  cbn. unfold save. cbn.
  destruct (Analysis.validate _) eqn:Hv; cbn.
  - right. exists r, af. rewrite <- !app_assoc. cbn. repeat split; assumption.
  - left. repeat split; intros H; congruence.
Qed.

(** The ways a coaching request goes. *)
Lemma generateCoachingPlan_run (cfg : config) (e : env) (call : string + value)
    (analysisId : string) (agentId : value) (w : world) :
  let result :=
    CoachingController.generateCoachingPlan cfg e call analysisId agentId w in
  (In (statusCode (fst result)) [400; 404; 409] /\ same_state w (snd result))
  \/ exists n,
       matchesObjectId analysisId = true
       /\ List.find (has_id analysisId) (analyses w) = Some n
       /\ List.find (CoachingController.from analysisId) (coachingPlans w) = None
       /\ ((statusCode (fst result) = 500 /\ same_state w (snd result)
            /\ (keyConfigured cfg = false ->
                error (fst result)
                = Some ("Coaching plan generation failed: " ++ keyMissing))
            /\ (List.find (fun d => (AudioFile._id d =? Analysis.audioFileId n)%string)
                          (audioFiles w) = None ->
                forall res,
                  fst (LLMService.generateCoachingPlan cfg call (elapsed e) w)
                  = inr res ->
                  error (fst result)
                  = Some "Cannot read properties of null (reading '_id')"))
           \/ (exists r a,
                 let plan :=
                   CoachingController.newCoachingPlan e analysisId (AudioFile._id a)
                     (LLMService.mkResult r (elapsed e)) in
                 call = inr r
                 /\ keyConfigured cfg = true
                 /\ List.find (fun d => (AudioFile._id d =? Analysis.audioFileId n)%string)
                              (audioFiles w) = Some a
                 /\ CoachingPlan.validate plan = []
                 /\ fst result
                    = done 201 "Coaching plan generated successfully" (Generated plan)
                 /\ snd result
                    = mkWorld (audioFiles w) (transcripts w) (analyses w)
                              (coachingPlans w ++ [plan]) (files w)
                              (log w ++ [Read Analyses; Read Transcripts;
                                         Read AudioFiles; Read CoachingPlans;
                                         Write CoachingPlans]))).
Proof.
  cbv zeta. unfold CoachingController.generateCoachingPlan, handler.
  destruct (CoachingController.validateAgentId _);
    [left; cbn; split; [auto | reflexivity]|].
  destruct (matchesObjectId analysisId) eqn:Hid;
    [|left; cbn; split; [auto | reflexivity]].
  cbn. unfold bind, findById, findOne, populate. cbn.
  destruct (List.find (has_id analysisId) (analyses w)) as [n|] eqn:Hn;
    [|left; cbn; split; [auto | reflexivity]].
  cbn.
  destruct (List.find (CoachingController.from analysisId) (coachingPlans w))
    as [p|] eqn:Hp; [left; cbn; split; [auto | reflexivity]|].
  right. exists n. repeat (split; [reflexivity|]).
  cbn. destruct (pure_generateCoachingPlan cfg call (elapsed e)) as [r Hr].
  rewrite Hr.
  destruct r as [err|res].
  { left. cbn. repeat split.
    - intros Hk. revert Hr.
      unfold LLMService.generateCoachingPlan, try_catch, throw.
      rewrite Hk. cbn. intros Hr. specialize (Hr w). injection Hr as <-.
      reflexivity.
    - intros _ res H. rewrite Hr in H. discriminate H. }
  destruct (generateCoachingPlan_returns _ _ _ _ _ _ (Hr w))
    as [Hk [r [-> [-> _]]]].
  destruct (List.find _ (audioFiles w)) as [af|] eqn:Haf.
  2:{ left. cbn. repeat split.
      intros Hk'. congruence. }
  cbn. unfold save. cbn.
  destruct (CoachingPlan.validate _) eqn:Hv; cbn.
  - right. exists r, af. rewrite <- !app_assoc. cbn. repeat split; assumption.
  - left. repeat split; intros H; congruence.
Qed.

(** X12: Without an API key no stage creates anything: a create request is never
    answered 201, the transcripts, analyses, plans and files stay as they
    were, and an analysis or coaching request leaves the whole store as it
    was. A transcription request that reaches the service all the same
    marks the audio file [failed]. *)
Theorem without_a_key_no_stage_creates
    (cfg : config) (e : env) (r : Routes.create) (w : world) :
  keyConfigured cfg = false ->
  let result := Routes.run_create cfg e r w in
  In (statusCode (fst result)) [400; 404; 409; 500]
  /\ transcripts (snd result) = transcripts w
  /\ analyses (snd result) = analyses w
  /\ coachingPlans (snd result) = coachingPlans w
  /\ files (snd result) = files w
  /\ match r with
     | Routes.Transcribe _ audioFileId _ =>
         forall a,
           Routes.well_formed r = true ->
           List.find (has_id audioFileId) (audioFiles w) = Some a ->
           List.find (TranscriptController.owned_by audioFileId) (transcripts w)
           = None ->
           fst result = fail 500 "Transcription failed"
                             ("Transcription failed: " ++ keyMissing)
           /\ List.find (has_id audioFileId) (audioFiles (snd result))
              = Some (TranscriptController.mark e "failed" a)
     | _ => same_state w (snd result)
     end.
Proof.
  intros Hk.
  assert (Hsame : forall w', same_state w w' ->
            transcripts w' = transcripts w /\ analyses w' = analyses w
            /\ coachingPlans w' = coachingPlans w /\ files w' = files w).
  { unfold same_state, fresh_log. intros w' [= ? ? ? ? ?]. auto. }
  destruct r as [fetched id language | call id | call id agentId];
    cbn [Routes.run_create]; cbv zeta.
  - assert (Hrefusal : forall p d, STTService.refusal cfg p d = Some keyMissing).
    { intros p d. unfold STTService.refusal. rewrite Hk. reflexivity. }
    assert (Hlast : forall a,
              Routes.well_formed (Routes.Transcribe fetched id language) = true ->
              List.find (has_id id) (audioFiles w) = Some a ->
              List.find (TranscriptController.owned_by id) (transcripts w) = None ->
              fst (TranscriptController.transcribeAudio cfg e fetched id language w)
              = fail 500 "Transcription failed"
                     ("Transcription failed: " ++ keyMissing)
              /\ List.find (has_id id)
                   (audioFiles
                      (snd (TranscriptController.transcribeAudio cfg e fetched id
                              language w)))
                 = Some (TranscriptController.mark e "failed" a)).
    { intros a Hwf Ha Ht. unfold Routes.well_formed in Hwf.
      cbn [Routes.upstream_id] in Hwf.
      apply andb_prop in Hwf. destruct Hwf as [Hid Hl].
      destruct (TranscriptController.validateLanguage _) as [err|lang] eqn:El;
        [discriminate Hl|].
      destruct (transcribe_failed cfg e fetched keyMissing id language lang w a
                  El Hid Ha Ht) as [H1 [_ [_ [H2 _]]]].
      { rewrite transcribeAudio_outcome, Hrefusal. reflexivity. }
      auto. }
    destruct (transcribeAudio_run cfg e fetched id language w)
      as [[Hin Hs]|[lang [a [_ [_ [_ [_ Hcase]]]]]]].
    + destruct (Hsame _ Hs) as [H1 [H2 [H3 H4]]].
      split; [cbn in *; tauto|]. repeat (split; [assumption|]). exact Hlast.
    + destruct Hcase as [[reason [Hr [Hw _]]]|[answer Hdone]].
      * rewrite Hr, Hw in Hlast |- *.
        split; [cbn; tauto|]. do 4 (split; [reflexivity|]). exact Hlast.
      * cbv zeta in Hdone. destruct Hdone as [_ [Hno _]].
        rewrite Hrefusal in Hno. discriminate Hno.
  - destruct (analyzeTranscript_run cfg e call id w)
      as [[Hin Hs]|[t [_ [_ [_ [[H500 [Hs _]]|[r [a [_ [Hk' _]]]]]]]]]].
    + destruct (Hsame _ Hs) as [H1 [H2 [H3 H4]]]. cbn in Hin.
      repeat split; try assumption. cbn. tauto.
    + destruct (Hsame _ Hs) as [H1 [H2 [H3 H4]]].
      repeat split; try assumption. rewrite H500. cbn. tauto.
    + congruence.
  - destruct (generateCoachingPlan_run cfg e call id agentId w)
      as [[Hin Hs]|[t [_ [_ [_ [[H500 [Hs _]]|[r [a [_ [Hk' _]]]]]]]]]].
    + destruct (Hsame _ Hs) as [H1 [H2 [H3 H4]]]. cbn in Hin.
      repeat split; try assumption. cbn. tauto.
    + destruct (Hsame _ Hs) as [H1 [H2 [H3 H4]]].
      repeat split; try assumption. rewrite H500. cbn. tauto.
    + congruence.
Qed.

(** X13: A transcript whose audio file is gone is never analysed: the request is
    answered 409 or 500 and stores nothing. When there is no analysis yet
    the answer is 500, and the provider has been asked all the same: if its
    answer passes the service's checks, the error is the failed read of the
    audio file's id. *)
Theorem transcript_without_audio_file_is_never_analysed
    (cfg : config) (e : env) (call : string + value) (transcriptId : string)
    (w : world) (t : Transcript.t) :
  matchesObjectId transcriptId = true ->
  List.find (has_id transcriptId) (transcripts w) = Some t ->
  List.find (fun d => (AudioFile._id d =? Transcript.audioFileId t)%string)
            (audioFiles w) = None ->
  let result := AnalysisController.analyzeTranscript cfg e call transcriptId w in
  In (statusCode (fst result)) [409; 500]
  /\ same_state w (snd result)
  /\ (List.find (AnalysisController.about transcriptId) (analyses w) = None ->
      statusCode (fst result) = 500
      /\ forall res,
           fst (LLMService.analyzeTranscript cfg call (elapsed e) w) = inr res ->
           error (fst result)
           = Some "Cannot read properties of null (reading '_id')").
Proof.
  intros Hid Ht Hgone. cbv zeta.
  unfold AnalysisController.analyzeTranscript, handler. rewrite Hid. cbn.
  unfold bind, findById, findOne, populate. cbn. rewrite Ht. cbn.
  destruct (List.find (AnalysisController.about transcriptId) (analyses w))
    as [a|] eqn:Ha.
  { cbn. split; [auto|]. split; [reflexivity | discriminate]. }
  cbn. destruct (pure_analyzeTranscript cfg call (elapsed e)) as [r Hr].
  rewrite !Hr. destruct r as [err|res]; cbn.
  { split; [auto|]. split; [reflexivity|]. intros _. split; [reflexivity|].
    intros res Hres. discriminate Hres. }
  rewrite Hgone. cbn.
  split; [auto|]. split; [reflexivity|]. intros _. split; reflexivity.
Qed.

(** X14: The same for a coaching plan: an analysis whose audio file is gone
    never gets one. *)
Theorem analysis_without_audio_file_is_never_coached
    (cfg : config) (e : env) (call : string + value) (analysisId : string)
    (agentId : value) (w : world) (n : Analysis.t) :
  CoachingController.validateAgentId
    (if isUndefined agentId then JStr "agent_001" else agentId) = None ->
  matchesObjectId analysisId = true ->
  List.find (has_id analysisId) (analyses w) = Some n ->
  List.find (fun d => (AudioFile._id d =? Analysis.audioFileId n)%string)
            (audioFiles w) = None ->
  let result :=
    CoachingController.generateCoachingPlan cfg e call analysisId agentId w in
  In (statusCode (fst result)) [409; 500]
  /\ same_state w (snd result)
  /\ (List.find (CoachingController.from analysisId) (coachingPlans w) = None ->
      statusCode (fst result) = 500
      /\ forall res,
           fst (LLMService.generateCoachingPlan cfg call (elapsed e) w) = inr res ->
           error (fst result)
           = Some "Cannot read properties of null (reading '_id')").
Proof.
  intros Hagent Hid Hn Hgone. cbv zeta.
  unfold CoachingController.generateCoachingPlan, handler. rewrite Hagent, Hid. cbn.
  unfold bind, findById, findOne, populate. cbn. rewrite Hn. cbn.
  destruct (List.find (CoachingController.from analysisId) (coachingPlans w))
    as [p|] eqn:Hp.
  { cbn. split; [auto|]. split; [reflexivity | discriminate]. }
  cbn. destruct (pure_generateCoachingPlan cfg call (elapsed e)) as [r Hr].
  rewrite !Hr. destruct r as [err|res]; cbn.
  { split; [auto|]. split; [reflexivity|]. intros _. split; [reflexivity|].
    intros res Hres. discriminate Hres. }
  rewrite Hgone. cbn.
  split; [auto|]. split; [reflexivity|]. intros _. split; reflexivity.
Qed.

Lemma find_by_found_id (l : list AudioFile.t) (id : ObjectId) (a : AudioFile.t) :
  List.find (fun d => (AudioFile._id d =? id)%string) l = Some a ->
  List.find (fun d => (AudioFile._id d =? AudioFile._id a)%string) l = Some a.
Proof.
  intros H. pose proof (find_some _ _ H) as [_ E]. apply String.eqb_eq in E.
  rewrite E. exact H.
Qed.

(** X15: An analysis answered 201 can be read back by the id of its transcript,
    with the transcript and the audio file beside it, and asking again is
    answered 409 with the id of that analysis. *)
Theorem created_analysis_is_found_by_its_transcript
    (cfg : config) (e : env) (call : string + value) (transcriptId : string)
    (w : world) :
  let result := AnalysisController.analyzeTranscript cfg e call transcriptId w in
  statusCode (fst result) = 201 ->
  exists n t a,
    data (fst result) = Analyzed n
    /\ fst (AnalysisController.getAnalysisByTranscript transcriptId (snd result))
       = found (AnalysisDoc n (Some t) (Some a))
    /\ Analysis.audioFileId n = AudioFile._id a
    /\ Transcript.audioFileId t = AudioFile._id a
    /\ forall cfg' e' call',
         fst (AnalysisController.analyzeTranscript cfg' e' call' transcriptId
                (snd result))
         = conflict "Analysis already exists for this transcript"
                    (Analysis._id n) (Analysis.createdAt n).
Proof.
  cbv zeta. intros H201.
  destruct (analyzeTranscript_run cfg e call transcriptId w)
    as [[Hin _]|[t [Hid [Ht [Hnone Hcase]]]]].
  { rewrite H201 in Hin. cbn in Hin. intuition discriminate. }
  destruct Hcase as [[H500 _]|[r [a Hdone]]].
  { rewrite H500 in H201. discriminate H201. }
  cbv zeta in Hdone. destruct Hdone as [_ [_ [Ha [_ [Hr Hw]]]]].
  rewrite Hr, Hw. clear Hr Hw H201.
  pose proof (find_some _ _ Ha) as [_ Eid]. apply String.eqb_eq in Eid.
  set (n := AnalysisController.newAnalysis e transcriptId (AudioFile._id a)
              (LLMService.mkResult r (elapsed e))).
  assert (Habout : AnalysisController.about transcriptId n = true).
  { unfold AnalysisController.about. cbn. apply String.eqb_refl. }
  exists n, t, a. split; [reflexivity|]. split; [|split; [reflexivity|split]].
  - unfold AnalysisController.getAnalysisByTranscript, handler. rewrite Hid.
    cbn -[n]. unfold bind, findOne, AnalysisController.populated, populate.
    cbn -[n]. rewrite find_app_none by exact Hnone. cbn [List.find].
    rewrite Habout. cbn -[n].
    change (Analysis.transcriptId n) with (castObjectId transcriptId).
    change (Analysis.audioFileId n) with (AudioFile._id a).
    change (List.find (fun d : Transcript.t =>
                         (Transcript._id d =? castObjectId transcriptId)%string)
                      (transcripts w))
      with (List.find (has_id (A := Transcript.t) transcriptId) (transcripts w)).
    rewrite Ht. cbn -[n]. rewrite (find_by_found_id _ _ _ Ha). reflexivity.
  - symmetry. exact Eid.
  - intros cfg' e' call'.
    unfold AnalysisController.analyzeTranscript, handler. rewrite Hid. cbn -[n].
    unfold bind, findById, findOne, populate. cbn -[n]. rewrite Ht. cbn -[n].
    rewrite find_app_none by exact Hnone. cbn [List.find]. rewrite Habout.
    reflexivity.
Qed.

(** X16: A coaching plan answered 201 can be read back by the id of its analysis,
    and a further coaching request for the same analysis, whatever agent it
    names and whatever the provider would say, is answered 400 when its
    agent id does not pass the check and otherwise 409 with the id of that
    plan. The plan is filed under the agent the provider named in its
    answer, cast to a string, whichever agent the request named. *)
Theorem created_plan_is_found_by_its_analysis
    (cfg : config) (e : env) (call : string + value) (analysisId : string)
    (agentId : value) (w : world) :
  let result :=
    CoachingController.generateCoachingPlan cfg e call analysisId agentId w in
  statusCode (fst result) = 201 ->
  exists p r n a,
    call = inr r
    /\ data (fst result) = Generated p
    /\ CoachingPlan.agentId p = castString (field r "agentId")
    /\ (forall s, field r "agentId" = JStr s -> CoachingPlan.agentId p = JStr s)
    /\ fst (CoachingController.getCoachingPlanByAnalysis analysisId (snd result))
       = found (CoachingDoc p (Some n) (Some a))
    /\ forall cfg' e' call' agentId',
         let again :=
           fst (CoachingController.generateCoachingPlan cfg' e' call' analysisId
                  agentId' (snd result)) in
         match CoachingController.validateAgentId
                 (if isUndefined agentId' then JStr "agent_001" else agentId') with
         | None =>
             again = conflict "Coaching plan already exists for this analysis"
                              (CoachingPlan._id p) (CoachingPlan.createdAt p)
         | Some err => again = fail 400 "Validation error" err
         end.
Proof.
  cbv zeta. intros H201.
  assert (Hagent : CoachingController.validateAgentId
                     (if isUndefined agentId then JStr "agent_001" else agentId)
                   = None).
  { revert H201. unfold CoachingController.generateCoachingPlan, handler.
    destruct (CoachingController.validateAgentId _); [discriminate | reflexivity]. }
  destruct (generateCoachingPlan_run cfg e call analysisId agentId w)
    as [[Hin _]|[n [Hid [Hn [Hnone Hcase]]]]].
  { rewrite H201 in Hin. cbn in Hin. intuition discriminate. }
  destruct Hcase as [[H500 _]|[r [a Hdone]]].
  { rewrite H500 in H201. discriminate H201. }
  cbv zeta in Hdone. destruct Hdone as [Hcall [_ [Ha [_ [Hr Hw]]]]].
  rewrite Hr, Hw. clear Hr Hw H201.
  set (p := CoachingController.newCoachingPlan e analysisId (AudioFile._id a)
              (LLMService.mkResult r (elapsed e))).
  assert (Hfrom : CoachingController.from analysisId p = true).
  { unfold CoachingController.from. cbn. apply String.eqb_refl. }
  exists p, r, n, a. split; [exact Hcall|]. split; [reflexivity|].
  split; [reflexivity|].
  split; [intros s Hs; unfold p; cbn; rewrite Hs; reflexivity|].
  split.
  - unfold CoachingController.getCoachingPlanByAnalysis, handler. rewrite Hid.
    cbn -[p]. unfold bind, findOne, CoachingController.populated, populate.
    cbn -[p]. rewrite find_app_none by exact Hnone. cbn [List.find].
    rewrite Hfrom. cbn -[p].
    change (CoachingPlan.analysisId p) with (castObjectId analysisId).
    change (CoachingPlan.audioFileId p) with (AudioFile._id a).
    change (List.find (fun d : Analysis.t =>
                         (Analysis._id d =? castObjectId analysisId)%string)
                      (analyses w))
      with (List.find (has_id (A := Analysis.t) analysisId) (analyses w)).
    rewrite Hn. cbn -[p]. rewrite (find_by_found_id _ _ _ Ha). reflexivity.
  - intros cfg' e' call' agentId'. cbv zeta.
    unfold CoachingController.generateCoachingPlan, handler.
    destruct (CoachingController.validateAgentId
                (if isUndefined agentId' then JStr "agent_001" else agentId'))
      as [err|]; [reflexivity|].
    rewrite Hid. cbn -[p].
    unfold bind, findById, findOne, populate. cbn -[p]. rewrite Hn. cbn -[p].
    rewrite find_app_none by exact Hnone. cbn [List.find]. rewrite Hfrom.
    reflexivity.
Qed.

End Stages.

(** ** Lists and pages *)

Lemma hasNext_iff (page n c : Z) :
  0 < n -> (page <? ceil_div c n) = true <-> page * n < c.
Proof.
  intros Hn. pose proof (ceil_div_bounds c n Hn) as Hb.
  rewrite Z.ltb_lt. split; intros H; nia.
Qed.

Lemma int_or_not_zero (p : option Z) (d : Z) : d <> 0 -> int_or p d <> 0.
Proof.
  intros Hd. unfold int_or. destruct p as [n|]; [|exact Hd].
  destruct (Z.eqb_spec n 0); assumption.
Qed.

Lemma firstn_plus {A : Type} (a b : nat) (l : list A) :
  firstn (a + b) l = (firstn a l ++ firstn b (skipn a l))%list.
Proof.
  revert l. induction a as [|a IH]; intros l; [reflexivity|].
  destruct l as [|x l]; cbn; [destruct b; reflexivity|].
  rewrite IH. reflexivity.
Qed.

Lemma concat_chunks {A : Type} (n m : nat) (l : list A) :
  concat (map (fun k => firstn n (skipn (k * n) l)) (seq 0 m)) = firstn (m * n) l.
Proof.
  induction m as [|m IH]; [reflexivity|].
  rewrite seq_S, map_app, concat_app, IH. cbn [map concat Nat.add].
  rewrite app_nil_r. rewrite <- firstn_plus. f_equal. lia.
Qed.

Lemma In_firstn {A : Type} (n : nat) (l : list A) (x : A) :
  In x (firstn n l) -> In x l.
Proof. intros H. rewrite <- (firstn_skipn n l). apply in_or_app. auto. Qed.

Lemma In_skipn {A : Type} (n : nat) (l : list A) (x : A) :
  In x (skipn n l) -> In x l.
Proof. intros H. rewrite <- (firstn_skipn n l). apply in_or_app. auto. Qed.

Section Listing.

Context {P : Platform} {O : Ordering}.

(** A list request answers 200 with a page, or 500 without one; it answers
    200 exactly when both queries return. *)
Lemma listing_run {A : Type} (failure : string) (query : IO (list A))
    (count : IO Z) (wrap : list A -> payload) (page n : Z) (w : world) :
  let result :=
    handler failure
      (r <- promise_all2 query count ;;
       ret (page_of (wrap (fst r)) (paginate page n (snd r)))) w in
  (statusCode (fst result) = 200 <->
   exists l c, fst (query w) = inr l /\ fst (count (snd (query w))) = inr c)
  /\ (statusCode (fst result) = 200 \/ statusCode (fst result) = 500)
  /\ (forall p, pagination (fst result) = Some p ->
      exists l c,
        fst (query w) = inr l /\ fst (count (snd (query w))) = inr c
        /\ data (fst result) = wrap l /\ p = paginate page n c).
Proof.
  cbv zeta. unfold handler, bind, promise_all2, ret.
  destruct (query w) as [[e1|l] w1] eqn:Eq; cbn [fst snd];
    destruct (count w1) as [[e2|c] w2] eqn:Ec; cbn.
  1-3: split; [split; [discriminate | intros [l' [c' [H1 H2]]]; congruence]|];
       split; [auto|]; intros p Hp; discriminate Hp.
  split; [split; [intros _; exists l, c; auto | reflexivity]|].
  split; [auto|]. intros p [= <-]. exists l, c. auto.
Qed.

(** What [find] returns, and when. *)
Lemma find_returns {A : Type} `{Model A} (filter : A -> bool) (sort : string * Z)
    (skip n : Z) (w : world) :
  (0 <= skip -> sortable (fst sort) = true ->
   find filter sort skip n w
   = (inr (limited n (skipn (Z.to_nat skip)
                        (sorted (fst sort) (snd sort) (List.filter filter (docs w))))),
      logged (Read coll) w))
  /\ (skip < 0 \/ sortable (fst sort) = false ->
      exists err, fst (find filter sort skip n w) = inl err).
Proof.
  unfold find. destruct (Z.ltb_spec skip 0) as [Hneg|Hpos].
  - split; [intros; lia | intros _; eexists; reflexivity].
  - destruct (sortable (fst sort)); cbn [negb].
    + split; [reflexivity | intros [E|E]; [lia | discriminate E]].
    + split; [intros _ E; discriminate E | intros _; eexists; reflexivity].
Qed.

(** The answer of a list handler, from when its two queries return. *)
Lemma listing_answers {A : Type} (failure : string) (query : IO (list A))
    (count : IO Z) (wrap : list A -> payload) (page n : Z) (w : world)
    (ok : Prop) :
  page <> 0 -> n <> 0 ->
  ((exists l, fst (query w) = inr l) <-> ok) ->
  (ok -> exists c, fst (count (snd (query w))) = inr c) ->
  let result :=
    handler failure
      (r <- promise_all2 query count ;;
       ret (page_of (wrap (fst r)) (paginate page n (snd r)))) w in
  (statusCode (fst result) = 200 <-> ok)
  /\ (statusCode (fst result) = 200 \/ statusCode (fst result) = 500)
  /\ (forall p, pagination (fst result) = Some p ->
      current p = page /\ limit p = n /\ current p <> 0 /\ limit p <> 0
      /\ (hasPrev p = true <-> 1 < current p)
      /\ (0 < limit p ->
          (hasNext p = true <-> current p * limit p < totalItems p))).
Proof.
  intros Hpage Hn Hq Hc.
  destruct (listing_run failure query count wrap page n w) as [H200 [Hor Hp]].
  cbv zeta. split; [|split; [exact Hor|]].
  - rewrite H200. split.
    + intros [l [c [Hl _]]]. apply Hq. eauto.
    + intros Hok. destruct (proj2 Hq Hok) as [l Hl]. destruct (Hc Hok) as [c Hcc].
      eauto.
  - intros p Hpp. destruct (Hp p Hpp) as [l [c [_ [_ [_ ->]]]]]. cbn.
    split; [reflexivity|]. split; [reflexivity|]. split; [exact Hpage|].
    split; [exact Hn|]. split; [apply Z.ltb_lt|].
    intros Hpos. apply hasNext_iff. exact Hpos.
Qed.

Ltac query_facts :=
  unfold CoachingController.page_of_plans;
  unfold bind, at_least, countDocuments, populate_each, ret, throw;
  cbn [fst snd];
  repeat match goal with
         | |- context [find ?f ?s ?k ?n ?w] =>
             let Hok := fresh "Hok" in
             let Hbad := fresh "Hbad" in
             let Hsort := fresh "Hsort" in
             destruct (find_returns f s k n w) as [Hok Hbad];
             destruct (Z.lt_ge_cases k 0) as [Hneg|Hpos];
             [ destruct (Hbad (or_introl Hneg)) as [err Herr];
               destruct (find f s k n w) as [[err'|l'] w'] eqn:Ef;
               [|discriminate Herr]
             | destruct (sortable (fst s)) eqn:Hsort;
               [ rewrite (Hok Hpos eq_refl)
               | destruct (Hbad (or_intror eq_refl)) as [err Herr];
                 destruct (find f s k n w) as [[err'|l'] w'] eqn:Ef;
                 [|discriminate Herr] ] ]
         end;
  cbn [fst snd].

(** What is left of [query_facts]: the query returned and the three
    conditions hold, or it did not and one of them fails. *)
Ltac listed :=
  first
    [ split;
      [ intros [? Hl]; discriminate Hl
      | intros [Hs [Hk Hb]];
        first [ lia
              | discriminate Hb
              | match goal with
                | Hsort : _ = false |- _ =>
                    exfalso; exact (eq_true_false_abs _ Hk Hsort)
                end ] ]
    | split;
      [ intros _; split;
        [ assumption
        | split; [match goal with Hsort : _ = true |- _ => exact Hsort end
                 | reflexivity] ]
      | intros _; eexists; reflexivity ] ].

(** X17: A list request is answered 200 or 500: 200, with a page, exactly when
    the skip is not negative, the store takes the path of the sort key (the
    field the request names in [sortBy], or the default) and the numeric
    bound of its filter, if it has one, was read as a number. Page and limit
    are never 0 in the answer, [hasNext] tells whether items remain after
    this page and [hasPrev] whether this is not the first. *)
Theorem list_request_answers (r : Routes.listing) (w : world) :
  let result := Routes.run_listing r w in
  let page := int_or (q_page (Routes.paging_of r)) 1 in
  let n := int_or (q_limit (Routes.paging_of r)) 10 in
  (statusCode (fst result) = 200 <->
   0 <= (page - 1) * n
   /\ sortKey (Routes.sort_path r) = true
   /\ Routes.bound_is_a_number r = true)
  /\ (statusCode (fst result) = 200 \/ statusCode (fst result) = 500)
  /\ (forall p, pagination (fst result) = Some p ->
      current p = page /\ limit p = n /\ current p <> 0 /\ limit p <> 0
      /\ (hasPrev p = true <-> 1 < current p)
      /\ (0 < limit p ->
          (hasNext p = true <-> current p * limit p < totalItems p))).
Proof.
  destruct r as [q | q | q | agentId q | q];
    unfold Routes.sort_path;
    cbn [Routes.run_listing Routes.paging_of Routes.bound_is_a_number];
    unfold UploadController.getUploads, TranscriptController.getTranscripts,
      AnalysisController.getAnalyses, CoachingController.getCoachingPlansByAgent,
      CoachingController.getCoachingPlans; cbv zeta;
    apply listing_answers;
    try (apply int_or_not_zero; discriminate).
  - query_facts; listed.
  - intros _. cbn. eexists. reflexivity.
  - destruct (TranscriptController.q_minConfidence q) as [[c|]|]; query_facts; listed.
  - destruct (TranscriptController.q_minConfidence q) as [[c|]|]; intros [_ [_ Hb]];
      try discriminate Hb; cbn; eexists; reflexivity.
  - destruct (AnalysisController.q_minSatisfaction q) as [[c|]|]; query_facts; listed.
  - destruct (AnalysisController.q_minSatisfaction q) as [[c|]|]; intros [_ [_ Hb]];
      try discriminate Hb; cbn; eexists; reflexivity.
  - query_facts; listed.
  - intros _. cbn. eexists. reflexivity.
  - destruct (CoachingController.q_minScore q) as [[c|]|]; query_facts; listed.
  - destruct (CoachingController.q_minScore q) as [[c|]|]; intros [_ [_ Hb]];
      try discriminate Hb; cbn; eexists; reflexivity.
Qed.

Lemma reads_page_of_plans (filter : CoachingPlan.t -> bool) (sort : string * Z)
    (skip n : Z) :
  keeps only_read (CoachingController.page_of_plans filter sort skip n).
Proof.
  unfold CoachingController.page_of_plans.
  apply (keeps_bind only_read only_read_trans); [apply reads_find|]. intros l.
  apply (keeps_bind only_read only_read_trans); [apply reads_populate_each|].
  intros l'. apply reads_populate_each.
Qed.

Lemma getUploads_page (q : UploadController.Query) (w : world) :
  0 <= (int_or (q_page (UploadController.paging q)) 1 - 1)
       * int_or (q_limit (UploadController.paging q)) 10 ->
  sortKey (fst (sort_of (UploadController.paging q) "uploadedAt")) = true ->
  fst (UploadController.getUploads q w)
  = page_of
      (UploadList
         (limited (int_or (q_limit (UploadController.paging q)) 10)
            (skipn (Z.to_nat ((int_or (q_page (UploadController.paging q)) 1 - 1)
                              * int_or (q_limit (UploadController.paging q)) 10))
               (sortAudioFiles
                  (fst (sort_of (UploadController.paging q) "uploadedAt"))
                  (snd (sort_of (UploadController.paging q) "uploadedAt"))
                  (List.filter (UploadController.matches q) (audioFiles w))))))
      (paginate (int_or (q_page (UploadController.paging q)) 1)
         (int_or (q_limit (UploadController.paging q)) 10)
         (Z.of_nat (List.length
                      (List.filter (UploadController.matches q) (audioFiles w))))).
Proof.
  intros Hskip Hsort. unfold UploadController.getUploads, handler, bind, promise_all2.
  cbv zeta.
  rewrite (proj1 (@find_returns AudioFile.t AudioFile_model (UploadController.matches q)
                    (sort_of (UploadController.paging q) "uploadedAt")
                    ((int_or (q_page (UploadController.paging q)) 1 - 1)
                     * int_or (q_limit (UploadController.paging q)) 10)
                    (int_or (q_limit (UploadController.paging q)) 10) w)
             Hskip Hsort).
  reflexivity.
Qed.

Lemma getUploads_refused_sort (q : UploadController.Query) (w : world) :
  sortKey (fst (sort_of (UploadController.paging q) "uploadedAt")) = false ->
  statusCode (fst (UploadController.getUploads q w)) = 500
  /\ data (fst (UploadController.getUploads q w)) = NoData.
Proof.
  intros Hsort. unfold UploadController.getUploads, handler, bind, promise_all2.
  cbv zeta.
  destruct (proj2 (@find_returns AudioFile.t AudioFile_model
                     (UploadController.matches q)
                     (sort_of (UploadController.paging q) "uploadedAt")
                     ((int_or (q_page (UploadController.paging q)) 1 - 1)
                      * int_or (q_limit (UploadController.paging q)) 10)
                     (int_or (q_limit (UploadController.paging q)) 10) w)
              (or_intror Hsort)) as [err Herr].
  destruct (find _ _ _ _ w) as [[err'|l] w'] eqn:E; [|discriminate Herr].
  cbn. split; reflexivity.
Qed.

(** X18: Walking the pages of the uploads, from 1 to the total the first answer
    reports, gives every matching record once, in the order of the sort,
    the store being the same and ordering the records the same way at every
    request; the pages after the last are empty. That is so when the store
    takes the sort key; when it does not, every page is answered 500 and
    carries no record. *)
Theorem pages_of_uploads_partition_the_matches
    (status mimetype sortBy sortOrder : option string) (n : Z) (w : world) :
  0 < n ->
  (forall path dir l, List.length (sortAudioFiles path dir l) = List.length l) ->
  let request k :=
    UploadController.mkQuery (mkPaging (Some k) (Some n) sortBy sortOrder)
                             status mimetype in
  let sort := sort_of (mkPaging None (Some n) sortBy sortOrder) "uploadedAt" in
  let matching :=
    sortAudioFiles (fst sort) (snd sort)
      (List.filter (UploadController.matches (request 1)) (audioFiles w)) in
  let page k :=
    match data (fst (UploadController.getUploads (request k) w)) with
    | UploadList l => l
    | _ => []
    end in
  (sortKey (fst sort) = true ->
   exists p,
     pagination (fst (UploadController.getUploads (request 1) w)) = Some p
     /\ concat (map (fun k => page (Z.of_nat k)) (seq 1 (Z.to_nat (total p))))
        = matching
     /\ forall k, total p < k -> page k = [])
  /\ (sortKey (fst sort) = false ->
      forall k,
        statusCode (fst (UploadController.getUploads (request k) w)) = 500
        /\ page k = []).
Proof.
  intros Hn Hlen request sort matching page.
  split.
  2:{ intros Hkey k.
      destruct (getUploads_refused_sort (request k) w Hkey) as [H500 Hdata].
      split; [exact H500|]. unfold page. rewrite Hdata. reflexivity. }
  intros Hkey.
  set (len := Z.of_nat (List.length
                 (List.filter (UploadController.matches (request 1)) (audioFiles w)))).
  assert (Hmlen : Z.of_nat (List.length matching) = len).
  { unfold matching. rewrite Hlen. reflexivity. }
  assert (Hint : int_or (Some n) 10 = n).
  { unfold int_or. destruct (Z.eqb_spec n 0); [lia | reflexivity]. }
  assert (Hpage : forall k, 1 <= k ->
            page k = firstn (Z.to_nat n) (skipn (Z.to_nat (k - 1) * Z.to_nat n) matching)).
  { intros k Hk. unfold page. rewrite getUploads_page.
    - cbn [data page_of UploadController.paging request q_page q_limit].
      rewrite Hint.
      assert (Hk' : int_or (Some k) 1 = k).
      { unfold int_or. destruct (Z.eqb_spec k 0); [lia | reflexivity]. }
      rewrite Hk'. unfold limited. destruct (Z.eqb_spec n 0); [lia|].
      rewrite Z.abs_eq by lia. rewrite Z2Nat.inj_mul by lia. reflexivity.
    - cbn [UploadController.paging request q_page q_limit]. rewrite Hint.
      unfold int_or. destruct (Z.eqb_spec k 0); nia.
    - exact Hkey. }
  pose proof (ceil_div_bounds len n Hn) as Hb.
  assert (Hlen0 : 0 <= len) by (unfold len; lia).
  assert (Htotal : 0 <= ceil_div len n) by nia.
  exists (paginate 1 n len). split; [|split].
  - rewrite getUploads_page.
    + cbn [pagination page_of UploadController.paging request q_page q_limit].
      rewrite Hint. reflexivity.
    + cbn [UploadController.paging request q_page q_limit]. cbn. lia.
    + exact Hkey.
  - cbn [total paginate].
    rewrite <- seq_shift, map_map.
    erewrite map_ext_in.
    2:{ intros k _. rewrite Hpage by lia.
        replace (Z.to_nat (Z.of_nat (S k) - 1)) with k by lia. reflexivity. }
    rewrite concat_chunks. apply firstn_all2.
    apply Nat2Z.inj_le. rewrite Hmlen, Nat2Z.inj_mul, !Z2Nat.id by lia. lia.
  - cbn [total paginate]. intros k Hk. rewrite Hpage by lia.
    rewrite skipn_all2; [destruct (Z.to_nat n); reflexivity|].
    apply Nat2Z.inj_le. rewrite Hmlen, Nat2Z.inj_mul, !Z2Nat.id by lia. nia.
Qed.

(** X19: The plans listed for an agent are plans of that agent, and the count
    beside them is the number of that agent's plans. *)
Theorem agent_listing_holds_only_that_agent
    (agentId : string) (q : Paging) (w : world)
    (l : list (CoachingPlan.t * option Analysis.t * option AudioFile.t))
    (p : Pagination) :
  (forall path dir plans x, In x (sortCoachingPlans path dir plans) -> In x plans) ->
  let result := CoachingController.getCoachingPlansByAgent agentId q w in
  data (fst result) = CoachingList l ->
  pagination (fst result) = Some p ->
  (forall plan n a, In (plan, n, a) l ->
     In plan (coachingPlans w) /\ CoachingPlan.agentId plan = JStr agentId)
  /\ totalItems p
     = Z.of_nat (List.length
                   (List.filter
                      (fun d => AnalysisController.is_string agentId
                                  (CoachingPlan.agentId d))
                      (coachingPlans w))).
Proof.
  intros Hsort. cbv zeta. unfold CoachingController.getCoachingPlansByAgent.
  cbv zeta. intros Hd Hp.
  set (filter := fun d => AnalysisController.is_string agentId
                            (CoachingPlan.agentId d)) in *.
  match type of Hp with
  | context [promise_all2 ?qu ?co] =>
      destruct (listing_run "Failed to retrieve coaching plans" qu co CoachingList
                  (int_or (q_page q) 1) (int_or (q_limit q) 10) w) as [_ [_ Hrun]];
      pose proof (reads_page_of_plans filter (sort_of q "generatedAt")
                    ((int_or (q_page q) 1 - 1) * int_or (q_limit q) 10)
                    (int_or (q_limit q) 10) w) as [Hsame _]
  end.
  destruct (Hrun p Hp) as [l' [c [Hq [Hc [Hd' ->]]]]].
  rewrite Hd in Hd'. injection Hd' as <-.
  split.
  - intros plan n a Hin. revert Hq.
    unfold CoachingController.page_of_plans, bind, populate_each.
    match goal with
    | |- context [find ?f ?s ?k ?n w] =>
        destruct (find f s k n w) as [[err|found] w'] eqn:Ef; cbn [fst snd];
        [discriminate|]
    end.
    intros [= <-]. clear Hd Hp Hrun Hc.
    apply in_map_iff in Hin. destruct Hin as [[plan' n'] [[= -> -> _] Hin]].
    apply in_map_iff in Hin. destruct Hin as [plan' [[= -> _] Hin]].
    revert Ef. unfold find. destruct (_ <? 0); [discriminate|].
    destruct (negb _); [discriminate|]. intros [= <- _].
    assert (Hin' : In plan (List.filter filter (coachingPlans w))).
    { eapply Hsort. unfold limited in Hin.
      destruct (_ =? 0) in Hin; [|apply In_firstn in Hin];
        apply In_skipn in Hin; exact Hin. }
    apply filter_In in Hin'. destruct Hin' as [Hpl Hs]. split; [exact Hpl|].
    unfold filter, AnalysisController.is_string in Hs.
    destruct (CoachingPlan.agentId plan); try discriminate Hs.
    apply String.eqb_eq in Hs. congruence.
  - cbn [totalItems paginate]. revert Hc. unfold countDocuments. cbn [fst].
    intros [= <-]. cbn [docs CoachingPlan_model].
    unfold same_state, fresh_log in Hsame. injection Hsame as _ _ _ E _.
    rewrite E. reflexivity.
Qed.

End Listing.

(** ** Statistics *)

Lemma bump_sum (k : string) (groups : list (string * Z)) :
  fold_right Z.add 0 (map snd (bump k groups))
  = fold_right Z.add 0 (map snd groups) + 1.
Proof.
  induction groups as [|[k' n] rest IH]; cbn; [reflexivity|].
  destruct (k' =? k)%string; cbn; lia.
Qed.

Lemma bump_keys (k : string) (groups : list (string * Z)) (x : string) :
  In x (map fst (bump k groups)) <-> x = k \/ In x (map fst groups).
Proof.
  induction groups as [|[k' n] rest IH]; cbn; [intuition auto|].
  destruct (String.eqb_spec k' k) as [->|Hne]; cbn; [intuition auto|].
  rewrite IH. intuition auto.
Qed.

Lemma bump_NoDup (k : string) (groups : list (string * Z)) :
  NoDup (map fst groups) -> NoDup (map fst (bump k groups)).
Proof.
  induction groups as [|[k' n] rest IH]; cbn; intros Hnd.
  - constructor; [intros [] | constructor].
  - inversion Hnd as [|? ? Hk Hrest]; subst.
    destruct (String.eqb_spec k' k) as [->|Hne]; cbn; [constructor; assumption|].
    constructor; [|apply IH, Hrest].
    rewrite bump_keys. intros [E|Hin]; [congruence | contradiction].
Qed.

Lemma bump_positive (k : string) (groups : list (string * Z)) :
  Forall (fun g => 0 < snd g) groups -> Forall (fun g => 0 < snd g) (bump k groups).
Proof.
  induction 1 as [|[k' n] rest Hn Hrest IH]; cbn.
  - constructor; [cbn; lia | constructor].
  - destruct (k' =? k)%string; constructor; cbn in *; auto; lia.
Qed.

Lemma tally_facts (keys : list string) :
  fold_right Z.add 0 (map snd (tally keys)) = Z.of_nat (List.length keys)
  /\ NoDup (map fst (tally keys))
  /\ Forall (fun g => 0 < snd g) (tally keys)
  /\ forall k, In k (map fst (tally keys)) <-> In k keys.
Proof.
  unfold tally.
  enough (H : forall groups,
             NoDup (map fst groups) -> Forall (fun g => 0 < snd g) groups ->
             let result := fold_left (fun groups k => bump k groups) keys groups in
             fold_right Z.add 0 (map snd result)
             = fold_right Z.add 0 (map snd groups) + Z.of_nat (List.length keys)
             /\ NoDup (map fst result)
             /\ Forall (fun g => 0 < snd g) result
             /\ forall k, In k (map fst result) <-> In k (map fst groups) \/ In k keys).
  { destruct (H [] (NoDup_nil _) (Forall_nil _)) as [H1 [H2 [H3 H4]]].
    cbn in *. split; [exact H1|]. split; [exact H2|]. split; [exact H3|].
    intros k. rewrite H4. tauto. }
  induction keys as [|k keys IH]; intros groups Hnd Hpos; cbn.
  - split; [lia|]. split; [exact Hnd|]. split; [exact Hpos|]. intros x.
    split; [intros Hx; left; exact Hx | intros [Hx|[]]; exact Hx].
  - destruct (IH (bump k groups) (bump_NoDup k groups Hnd) (bump_positive k groups Hpos))
      as [H1 [H2 [H3 H4]]].
    cbv zeta in *. rewrite H1, bump_sum.
    split; [lia|]. split; [exact H2|]. split; [exact H3|].
    intros x. rewrite H4, bump_keys. cbn [In]. intuition auto.
Qed.

Lemma Math_round_near (x : Q) :
  (x - (1 # 2) <= inject_Z (Math_round x) /\ inject_Z (Math_round x) <= x + (1 # 2))%Q.
Proof.
  unfold Math_round.
  pose proof (Qlt_floor (x + (1 # 2))) as H. rewrite inject_Z_plus in H.
  pose proof (Qfloor_le (x + (1 # 2))) as H'.
  change (inject_Z 1) with 1%Q in H. split; lra.
Qed.

Lemma Math_round_between (x : Q) (lo hi : Z) :
  (inject_Z lo <= x)%Q -> (x <= inject_Z hi)%Q -> lo <= Math_round x <= hi.
Proof.
  intros Hlo Hhi. unfold Math_round. split.
  - rewrite <- (Qfloor_Z lo). apply Qfloor_resp_le. lra.
  - pose proof (Qfloor_le (x + (1 # 2))) as Hf.
    assert (Hlt : (inject_Z (Qfloor (x + (1 # 2))) < inject_Z (hi + 1))%Q).
    { rewrite inject_Z_plus. change (inject_Z 1) with 1%Q. lra. }
    rewrite <- Zlt_Qlt in Hlt. lia.
Qed.

Section Statistics.

Context {P : Platform} {O : Ordering}.

Lemma sum_within (l : list Q) :
  Forall (fun q => 0 <= q /\ q <= 1)%Q l ->
  (0 <= fold_right Qplus 0 l /\ fold_right Qplus 0 l <= inject_Z (Z.of_nat (List.length l)))%Q.
Proof.
  induction 1 as [|q l [H0 H1] _ [IH0 IH1]]; cbn [fold_right List.length].
  - cbn. split; apply Qle_refl.
  - rewrite Nat2Z.inj_succ, <- Z.add_1_r, inject_Z_plus.
    change (inject_Z 1) with 1%Q. split; lra.
Qed.

Lemma filter_all {A : Type} (l : list A) : List.filter (fun _ => true) l = l.
Proof. induction l as [|x l IH]; cbn; [|rewrite IH]; reflexivity. Qed.

Lemma getDatabaseStats_returns (w : world) :
  let bytes := fold_right Z.add 0 (map AudioFile.size (audioFiles w)) in
  UploadController.getDatabaseStats w
  = (inr (UploadController.mkDatabaseStats
            (Z.of_nat (List.length (audioFiles w))) bytes
            (inject_Z (Math_round (inject_Z bytes / inject_Z (1024 * 1024) * 100))
             / 100)%Q
            (tally (map AudioFile.status (audioFiles w)))
            (tally (map AudioFile.mimetype (audioFiles w)))),
     mkWorld (audioFiles w) (transcripts w) (analyses w) (coachingPlans w) (files w)
             (log w ++ [Read AudioFiles; Read AudioFiles; Read AudioFiles;
                        Read AudioFiles])).
Proof.
  cbv zeta.
  unfold UploadController.getDatabaseStats, bind, countDocuments, countBy, sumOf,
    ret, logged.
  cbn [fst snd docs AudioFile_model coll audioFiles transcripts analyses
       coachingPlans files log].
  rewrite filter_all, <- !app_assoc. cbn [app].
  destruct (audioFiles w); reflexivity.
Qed.

(** X20: The totals of the upload statistics add up when the handler runs as a
    method of the controller: the counts by status and by type each add up
    to the number of files, no status or type is listed twice, the bytes are
    the sum of the sizes, and the megabytes are within half a hundredth of
    the bytes over 2^20; nothing is written. Run as the router runs it, as a
    plain function with no [this] to call [getDatabaseStats] on, the handler
    answers 500 whatever the store holds and reads nothing. *)
Theorem upload_statistics_add_up (fsStats : UploadController.FilesystemStats)
    (w : world) :
  let result := UploadController.getUploadStats true fsStats w in
  let unbound := UploadController.getUploadStats false fsStats w in
  (exists db,
    fst result = mkReply 200 true None None (Some (db, fsStats))
    /\ UploadController.totalFiles db = Z.of_nat (List.length (audioFiles w))
    /\ fold_right Z.add 0 (map snd (UploadController.byStatus db))
       = UploadController.totalFiles db
    /\ fold_right Z.add 0 (map snd (UploadController.byMimetype db))
       = UploadController.totalFiles db
    /\ NoDup (map fst (UploadController.byStatus db))
    /\ NoDup (map fst (UploadController.byMimetype db))
    /\ (forall s, In s (map fst (UploadController.byStatus db))
                  <-> In s (map AudioFile.status (audioFiles w)))
    /\ UploadController.totalSizeBytes db
       = fold_right Z.add 0 (map AudioFile.size (audioFiles w))
    /\ (inject_Z (UploadController.totalSizeBytes db) / inject_Z (1024 * 1024)
        - (1 # 200)
        <= UploadController.totalSizeMB db)%Q
    /\ (UploadController.totalSizeMB db
        <= inject_Z (UploadController.totalSizeBytes db) / inject_Z (1024 * 1024)
           + (1 # 200))%Q
    /\ only_read w (snd result))
  /\ replyCode (fst unbound) = 500
  /\ replySuccess (fst unbound) = false
  /\ replyMessage (fst unbound) = Some "Failed to retrieve upload statistics"
  /\ replyData (fst unbound) = None
  /\ snd unbound = w.
Proof.
  cbv zeta. split; [|repeat split].
  unfold UploadController.getUploadStats, statistics, bind, ret. cbn [negb].
  rewrite getDatabaseStats_returns. cbn [fst snd].
  destruct (tally_facts (map AudioFile.status (audioFiles w))) as [S1 [S2 [_ S4]]].
  destruct (tally_facts (map AudioFile.mimetype (audioFiles w))) as [M1 [M2 _]].
  rewrite length_map in S1, M1.
  set (bytes := fold_right Z.add 0 (map AudioFile.size (audioFiles w))).
  pose proof (Math_round_near
                (inject_Z bytes / inject_Z (1024 * 1024) * 100)) as [R1 R2].
  eexists. split; [reflexivity|].
  cbn [UploadController.totalFiles UploadController.byStatus
       UploadController.byMimetype UploadController.totalSizeBytes
       UploadController.totalSizeMB].
  split; [reflexivity|]. split; [exact S1|]. split; [exact M1|].
  split; [exact S2|]. split; [exact M2|]. split; [exact S4|].
  split; [reflexivity|].
  split; [|split].
  - fold bytes. set (x := (inject_Z bytes / inject_Z (1024 * 1024))%Q) in *.
    set (r := inject_Z (Math_round (x * 100))) in *. 
    unfold Qdiv. change (/ 100)%Q with (1 # 100)%Q. lra.
  - fold bytes. set (x := (inject_Z bytes / inject_Z (1024 * 1024))%Q) in *.
    set (r := inject_Z (Math_round (x * 100))) in *.
    unfold Qdiv. change (/ 100)%Q with (1 # 100)%Q. lra.
  - split; [reflexivity|].
    exists [Read AudioFiles; Read AudioFiles; Read AudioFiles; Read AudioFiles].
    split; reflexivity.
Qed.

Lemma mean_within (l : list Q) :
  Forall (fun q => 0 <= q /\ q <= 1)%Q l -> l <> [] ->
  (0 <= fold_right Qplus 0 l / inject_Z (Z.of_nat (List.length l))
   /\ fold_right Qplus 0 l / inject_Z (Z.of_nat (List.length l)) <= 1)%Q.
Proof.
  intros Hl Hne. destruct (sum_within l Hl) as [H0 H1].
  assert (Hpos : (0 < inject_Z (Z.of_nat (List.length l)))%Q).
  { destruct l; [contradiction|]. cbn [List.length].
    rewrite <- (Zlt_Qlt 0). lia. }
  split.
  - apply Qle_shift_div_l; [exact Hpos|]. lra.
  - apply Qle_shift_div_r; [exact Hpos|]. lra.
Qed.

(** X21: The transcript statistics: the counts by language add up to the number
    of transcripts, no language is listed twice, and with every confidence
    between 0 and 1, as the schema asks, so is the average that is
    reported. With no transcript the averages are 0. Nothing is written. *)
Theorem transcript_statistics_add_up (w : world) :
  let result := TranscriptController.getTranscriptStats w in
  exists stats,
    fst result = mkReply 200 true None None (Some stats)
    /\ TranscriptController.totalTranscripts stats
       = Z.of_nat (List.length (transcripts w))
    /\ fold_right Z.add 0 (map snd (TranscriptController.byLanguage stats))
       = TranscriptController.totalTranscripts stats
    /\ NoDup (map fst (TranscriptController.byLanguage stats))
    /\ (forall l, In l (map fst (TranscriptController.byLanguage stats))
                  <-> In l (map Transcript.language (transcripts w)))
    /\ (Forall (fun d => Transcript.validate d = []) (transcripts w) ->
        (0 <= TranscriptController.averageConfidence stats
         /\ TranscriptController.averageConfidence stats <= 1)%Q)
    /\ (transcripts w = [] ->
        (TranscriptController.averageConfidence stats == 0)%Q
        /\ TranscriptController.averageProcessingTime stats = 0)
    /\ only_read w (snd result).
Proof.
  cbv zeta.
  unfold TranscriptController.getTranscriptStats, statistics, bind,
    countDocuments, countBy, averageOf, ret, logged.
  cbn [fst snd docs Transcript_model coll audioFiles transcripts analyses
       coachingPlans files log].
  rewrite filter_all, <- !app_assoc. cbn [app].
  destruct (tally_facts (map Transcript.language (transcripts w))) as [S1 [S2 [_ S4]]].
  rewrite length_map in S1.
  eexists. split; [reflexivity|].
  cbn [TranscriptController.totalTranscripts TranscriptController.byLanguage
       TranscriptController.averageConfidence
       TranscriptController.averageProcessingTime].
  split; [reflexivity|]. split; [exact S1|]. split; [exact S2|]. split; [exact S4|].
  split; [|split].
  - intros Hv.
    assert (Hc : Forall (fun q => 0 <= q /\ q <= 1)%Q
                   (map Transcript.confidence (transcripts w))).
    { apply Forall_map. revert Hv. apply Forall_impl. intros d Hd.
      unfold Transcript.validate in Hd. apply concat_nil_inv in Hd.
      inversion Hd as [|? ? _ H']. inversion H' as [|? ? E _].
      unfold within in E. apply app_eq_nil in E. destruct E as [E0 E1].
      destruct (Qle_bool 0 (Transcript.confidence d)) eqn:B0; [|discriminate E0].
      destruct (Qle_bool (Transcript.confidence d) 1) eqn:B1; [|discriminate E1].
      apply Qle_bool_iff in B0, B1. auto. }
    destruct (transcripts w) as [|t ts] eqn:Et.
    + cbn. split; discriminate.
    + cbv iota.
      destruct (mean_within _ Hc) as [A0 A1]; [discriminate|].
      rewrite length_map in A0, A1.
      set (avg := (fold_right Qplus 0 (map Transcript.confidence (t :: ts))
                   / inject_Z (Z.of_nat (List.length (t :: ts))))%Q) in *.
      assert (Hr : 0 <= Math_round (avg * 1000) <= 1000).
      { apply Math_round_between;
          [change (inject_Z 0) with 0%Q | change (inject_Z 1000) with 1000%Q];
          lra. }
      destruct Hr as [Hr0 Hr1].
      rewrite Zle_Qle in Hr0, Hr1.
      unfold Qdiv. change (/ 1000)%Q with (1 # 1000)%Q.
      change (inject_Z 0) with 0%Q in Hr0. change (inject_Z 1000) with 1000%Q in Hr1.
      split; lra.
  - intros ->. cbn. split; reflexivity.
  - split; [reflexivity|].
    exists [Read Transcripts; Read Transcripts; Read Transcripts; Read Transcripts].
    split; reflexivity.
Qed.

End Statistics.

(** ** Reading the size limit *)

Lemma digits_of_uint (d : Decimal.uint) :
  all_chars isDigit (NilEmpty.string_of_uint d) = true.
Proof. induction d; cbn; auto. Qed.

Lemma showZ_uint (n : Z) :
  0 <= n ->
  exists d, showZ n = NilEmpty.string_of_uint d /\ d <> Decimal.Nil /\ Z.of_uint d = n.
Proof.
  intros Hn. unfold showZ. pose proof (DecimalZ.of_to n) as Hof.
  destruct n as [|p|p]; [| |lia]; cbn in *.
  - exists (Decimal.D0 Decimal.Nil). repeat split. discriminate.
  - exists (Pos.to_uint p). split; [|split].
    + unfold NilZero.string_of_uint.
      destruct (Pos.to_uint p) eqn:E; try reflexivity.
      exfalso. exact (DecimalPos.Unsigned.to_uint_nonnil p E).
    + apply DecimalPos.Unsigned.to_uint_nonnil.
    + exact Hof.
Qed.

Lemma span_append (p : ascii -> bool) (a b : string) :
  all_chars p a = true ->
  match b with EmptyString => True | String c _ => p c = false end ->
  span p (a ++ b) = (a, b).
Proof.
  intros Ha Hb. induction a as [|c a IH].
  - change ("" ++ b) with b.
    destruct b as [|c b]; [reflexivity|]. cbn. rewrite Hb. reflexivity.
  - change (String c a ++ b) with (String c (a ++ b)). cbn in *.
    apply andb_prop in Ha. destruct Ha as [Hc Ha]. rewrite Hc, (IH Ha).
    reflexivity.
Qed.

Lemma upper_is_no_digit (c : ascii) : isUpper c = true -> isDigit c = false.
Proof.
  unfold isUpper, isDigit. intros H. apply andb_prop in H. destruct H as [H1 H2].
  apply Nat.leb_le in H1. apply Bool.andb_false_iff. right.
  apply Nat.leb_gt. lia.
Qed.

(** X4: [parseFileSize] reads back what is written as a number and a unit: the
    Number nearest to the number written, times the bytes of the unit, as a
    Number again, for B, KB, MB and GB, and times the bytes of a megabyte
    for any other unit of one or two capitals; this is the number written
    times the bytes of the unit whenever that product is below 2^53.
    Without a unit of that shape the answer is the default of 50MB. *)
Theorem parseFileSize_reads_number_and_unit (n : Z) (unit : string) :
  0 <= n ->
  let written := showZ n ++ unit in
  let reads bytes :=
    UploadService.parseFileSize written = times (toDouble n) bytes
    /\ (n * bytes < 2 ^ 53 ->
        UploadService.parseFileSize written = Some (n * bytes)) in
  (all_chars isUpper unit = true -> (1 <= String.length unit <= 2)%nat ->
   (unit = "B" -> reads 1)
   /\ (unit = "KB" -> reads 1024)
   /\ (unit = "MB" -> reads (1024 * 1024))
   /\ (unit = "GB" -> reads (1024 * 1024 * 1024))
   /\ (~ In unit ["B"; "KB"; "MB"; "GB"] -> reads (1024 * 1024)))
  /\ (unit = "" -> UploadService.parseFileSize written = Some (50 * 1024 * 1024))
  /\ (all_chars isUpper unit = false ->
      match unit with
      | String c _ => isDigit c = false
      | EmptyString => True
      end ->
      UploadService.parseFileSize written = Some (50 * 1024 * 1024)).
Proof.
  intros Hn written reads.
  destruct (showZ_uint n Hn) as [d [Hshow [Hnil Hval]]].
  assert (Hne : (showZ n =? "")%string = false).
  { rewrite Hshow. destruct d; try reflexivity. contradiction. }
  assert (Hparse : parseInt_digits (showZ n) = n).
  { unfold parseInt_digits. rewrite Hshow, NilEmpty.usu. exact Hval. }
  assert (Hspan : match unit with
                  | String c _ => isDigit c = false
                  | EmptyString => True
                  end -> span isDigit written = (showZ n, unit)).
  { intros H. unfold written. apply span_append; [|exact H].
    rewrite Hshow. apply digits_of_uint. }
  assert (Hexact : forall bytes, 1 <= bytes -> n * bytes < 2 ^ 53 ->
                     times (toDouble n) bytes = Some (n * bytes)).
  { intros bytes Hb Hsmall.
    assert (Hsmall' : n < 2 ^ 53) by nia.
    unfold times, toDouble.
    destruct (Z.ltb_spec n (2 ^ 53)) as [_|Hbig]; [|lia].
    destruct (Z.ltb_spec (n * bytes) (2 ^ 53)) as [_|Hbig]; [reflexivity | lia]. }
  split; [|split].
  - intros Hup Hlen.
    assert (Hfirst : match unit with
                     | String c _ => isDigit c = false
                     | EmptyString => True
                     end).
    { destruct unit as [|c u]; [exact I|]. cbn in Hup.
      apply andb_prop in Hup. apply upper_is_no_digit, Hup. }
    assert (Hread : UploadService.parseFileSize written
                    = times (toDouble n)
                        match UploadService.unitOf unit UploadService.units with
                        | Some bytes => bytes
                        | None => 1024 * 1024
                        end).
    { unfold UploadService.parseFileSize. rewrite (Hspan Hfirst), Hne, Hup, Hparse.
      cbn [negb orb].
      destruct (Nat.eqb_spec (String.length unit) 0) as [E|_]; [lia|].
      destruct (Nat.ltb_spec 2 (String.length unit)) as [E|_]; [lia|].
      reflexivity. }
    assert (Hreads : forall bytes,
               1 <= bytes ->
               match UploadService.unitOf unit UploadService.units with
               | Some b => b
               | None => 1024 * 1024
               end = bytes ->
               reads bytes).
    { intros bytes Hb E. unfold reads. rewrite Hread, E.
      split; [reflexivity | apply Hexact, Hb]. }
    split; [intros ->; apply Hreads; [lia | reflexivity]|].
    split; [intros ->; apply Hreads; [lia | reflexivity]|].
    split; [intros ->; apply Hreads; [lia | reflexivity]|].
    split; [intros ->; apply Hreads; [lia | reflexivity]|].
    intros Hnot. apply Hreads; [lia|].
    cbn [UploadService.unitOf UploadService.units].
    destruct (String.eqb_spec "B" unit) as [<-|_]; [exfalso; apply Hnot; cbn; auto|].
    destruct (String.eqb_spec "KB" unit) as [<-|_]; [exfalso; apply Hnot; cbn; auto|].
    destruct (String.eqb_spec "MB" unit) as [<-|_]; [exfalso; apply Hnot; cbn; auto|].
    destruct (String.eqb_spec "GB" unit) as [<-|_]; [exfalso; apply Hnot; cbn; auto|].
    reflexivity.
  - intros ->. unfold UploadService.parseFileSize. rewrite (Hspan I), Hne.
    reflexivity.
  - intros Hup Hfirst. unfold UploadService.parseFileSize.
    rewrite (Hspan Hfirst), Hne, Hup. reflexivity.
Qed.

(** ** The properties at the sample requests *)

(** C1 at the sample call: a second transcription is answered 409 with the
    id of the transcript. *)
Lemma C1_witness :
  fst (@Routes.run_create sample_platform sample_ordering sample_config transcribe_env
         (Routes.Transcribe (STTService.Ok sample_answer) audio_id JUndefined)
         transcribed_world)
  = conflict "Transcript already exists for this audio file" transcript_id 2000.
Proof.
  exact (proj2 (proj2
           (proj2 (@C1_existing_downstream_blocks_creation
                     sample_platform sample_ordering sample_config transcribe_env
                     (Routes.Transcribe (STTService.Ok sample_answer) audio_id JUndefined)
                     transcribed_world)
                  (transcript_id, 2000) eq_refl))
           eq_refl eq_refl).
Defined.

(** C1 as stated fails: with the transcript in the store, a request with a
    language that is not supported is answered 400, and a request for the
    audio file that has been deleted since is answered 404. *)
Lemma C1_counterexample :
  (hd_error (Routes.downstream
               (Routes.Transcribe (STTService.Ok sample_answer) audio_id (JStr "xx"))
               (castObjectId audio_id) transcribed_world)
   = Some (transcript_id, 2000)
   /\ statusCode
        (fst (@Routes.run_create sample_platform sample_ordering sample_config transcribe_env
                (Routes.Transcribe (STTService.Ok sample_answer) audio_id (JStr "xx"))
                transcribed_world)) = 400)
  /\ (hd_error (Routes.downstream
                  (Routes.Transcribe (STTService.Ok sample_answer) audio_id JUndefined)
                  (castObjectId audio_id) orphaned_world)
      = Some (transcript_id, 2000)
      /\ statusCode
           (fst (@Routes.run_create sample_platform sample_ordering sample_config transcribe_env
                   (Routes.Transcribe (STTService.Ok sample_answer) audio_id JUndefined)
                   orphaned_world)) = 404).
Proof. vm_compute. repeat split. Qed.

(** C2 at the sample call. *)
Lemma C2_witness :
  let provided := @STTService.transform sample_platform sample_answer 850 "en" in
  let result :=
    @TranscriptController.transcribeAudio sample_platform sample_ordering sample_config
      transcribe_env (STTService.Ok sample_answer) audio_id JUndefined uploaded_world in
  let t := TranscriptController.newTranscript transcribe_env audio_id provided in
  transcripts (snd result) = [t]
  /\ option_map AudioFile.status
       (List.find (has_id (A := AudioFile.t) (H := @AudioFile_model sample_ordering) audio_id)
                  (audioFiles (snd result)))
     = Some "completed".
Proof.
  destruct (@C2_provider_success_stores_transcript sample_platform sample_ordering sample_config
              transcribe_env sample_answer audio_id JUndefined "en" uploaded_world
              sample_audio
              eq_refl eq_refl eq_refl eq_refl eq_refl
              ltac:(discriminate) ltac:(vm_compute; discriminate))
    as [_ [Ht [_ [_ [Hf _]]]]].
  split; [exact Ht | rewrite Hf; reflexivity].
Defined.

(** C2 as stated fails: the provider answers on silence, with an empty
    text; no transcript is stored and the audio file is marked failed. *)
Lemma C2_counterexample :
  let result :=
    @TranscriptController.transcribeAudio sample_platform sample_ordering sample_config
      transcribe_env (STTService.Ok silence) audio_id JUndefined uploaded_world in
  statusCode (fst result) = 500
  /\ transcripts (snd result) = []
  /\ map AudioFile.status (audioFiles (snd result)) = ["failed"].
Proof. vm_compute. repeat split. Qed.

(** C3 at the sample call. *)
Lemma C3_witness :
  let result :=
    @TranscriptController.transcribeAudio sample_platform sample_ordering sample_config
      transcribe_env (STTService.NotOk 503 "Service Unavailable" (Some "overloaded"))
      audio_id JUndefined uploaded_world in
  error (fst result)
  = Some "Transcription failed: OpenAI API Error (503): overloaded"
  /\ statusCode (fst result) = 500
  /\ transcripts (snd result) = transcripts uploaded_world.
Proof.
  destruct (@C3_provider_failure_marks_audio_failed sample_platform sample_ordering sample_config
              transcribe_env
              (STTService.NotOk 503 "Service Unavailable" (Some "overloaded"))
              audio_id JUndefined "en" uploaded_world
              sample_audio
              eq_refl eq_refl eq_refl eq_refl eq_refl
              ltac:(discriminate))
    as [Hr [Ht _]].
  cbv zeta. rewrite Hr. split; [reflexivity|]. split; [reflexivity | exact Ht].
Defined.

(** C4 at the sample call: the request succeeds. *)
Lemma C4_witness :
  statusCode
    (fst (@AnalysisController.analyzeTranscript sample_platform sample_ordering sample_config
            analyze_env (inr sample_analysis) transcript_id transcribed_world))
  = 201.
Proof.
  destruct (@C4_analysis_needs_sentiment_and_summary sample_platform sample_ordering sample_config
              analyze_env (inr sample_analysis) transcript_id transcribed_world
              sample_transcript
              eq_refl eq_refl eq_refl)
    as [[H _] | [H _]]; [exact H | discriminate H].
Defined.

(** C5 at the sample call: the request succeeds. *)
Lemma C5_witness :
  statusCode
    (fst (@CoachingController.generateCoachingPlan sample_platform sample_ordering sample_config
            coach_env (inr (plan_with 80 "good")) analysis_id (JStr "agent_007")
            analyzed_world))
  = 201.
Proof.
  refine (proj2 (@C5_coaching_needs_agent_and_performance
                   sample_platform sample_ordering sample_config coach_env
                   (inr (plan_with 80 "good")) analysis_id (JStr "agent_007")
                   analyzed_world
                   stored_analysis
                   eq_refl eq_refl eq_refl eq_refl)
                (plan_with 80 "good") "agent_007" 80%Q "good"
                completed_audio
                eq_refl eq_refl eq_refl _ eq_refl _ _ _ eq_refl _ eq_refl eq_refl).
  - discriminate.
  - discriminate.
  - discriminate.
  - discriminate.
  - right. left. reflexivity.
Defined.

(** C5 as stated fails: the three fields are there, the level is not one of
    the five, and the plan is refused by the schema. *)
Lemma C5_counterexample :
  let r := plan_with 80 "superb" in
  let result :=
    @CoachingController.generateCoachingPlan sample_platform sample_ordering sample_config
      coach_env (inr r) analysis_id (JStr "agent_007") analyzed_world in
  present (field r "agentId") = true
  /\ present (field (field r "overallPerformance") "score") = true
  /\ present (field (field r "overallPerformance") "level") = true
  /\ statusCode (fst result) = 500
  /\ coachingPlans (snd result) = [].
Proof. vm_compute. repeat split. Qed.

(** The service takes a score of zero for a missing one, though the schema
    allows it: the answer is refused before the validators see it. *)
Example zero_score_is_refused :
  let r := plan_with 0 "poor" in
  @CoachingPlan.validate sample_platform
    (@CoachingController.newCoachingPlan sample_platform coach_env analysis_id
       audio_id
       (LLMService.mkResult r 1500)) = []
  /\ error
       (fst (@CoachingController.generateCoachingPlan sample_platform sample_ordering sample_config
               coach_env (inr r) analysis_id (JStr "agent_007") analyzed_world))
     = Some "Coaching plan generation failed: Invalid coaching plan response: missing required overallPerformance fields (score and level)".
Proof. vm_compute. split; reflexivity. Qed.

(** C6 at the sample answer: the overall confidence is the weighted average
    of the two segments. *)
Lemma C6_witness :
  (@STTService.calculateOverallConfidence sample_platform
     [WhisperSegment.mk (Some "Hello,") (Some 0) (Some (3 # 2)) (Some (- (1 # 10)));
      WhisperSegment.mk (Some "how can I help you today?") (Some (3 # 2)) (Some 4) None]
   == weightedAverage
        (@STTService.transformSegments sample_platform
           [WhisperSegment.mk (Some "Hello,") (Some 0) (Some (3 # 2)) (Some (- (1 # 10)));
            WhisperSegment.mk (Some "how can I help you today?") (Some (3 # 2)) (Some 4) None]))%Q.
Proof.
  refine (proj1 (proj2 (proj2
            (@C6_confidence_default_and_weighted_average sample_platform _))) _ _).
  - reflexivity.
  - intros s [<- | [<- | []]]; split; discriminate.
Defined.

(** C6 as stated fails: one segment of no duration, the list is not empty,
    the durations add up to zero and the overall confidence is 0.8. *)
Lemma C6_counterexample :
  instant <> []
  /\ (totalWeight (@STTService.transformSegments sample_platform instant) == 0)%Q
  /\ @STTService.calculateOverallConfidence sample_platform instant = 8 # 10
  /\ ~ (@STTService.calculateOverallConfidence sample_platform instant
        == weightedAverage (@STTService.transformSegments sample_platform instant))%Q.
Proof.
  split; [discriminate|]. split; [reflexivity|]. split; [reflexivity|].
  vm_compute. discriminate.
Qed.


(** C8 at the id [abc]. *)
Lemma C8_witness :
  statusCode
    (fst (@Routes.run_by_id sample_platform sample_ordering Routes.GetUploadInfo
            "abc" transcribed_world)) = 400
  /\ snd (@Routes.run_by_id sample_platform sample_ordering Routes.GetUploadInfo
            "abc" transcribed_world) = transcribed_world.
Proof.
  destruct (@C8_malformed_id_refused_before_any_lookup sample_platform
              sample_ordering Routes.GetUploadInfo "abc" transcribed_world eq_refl)
    as [H1 [_ [H2 _]]].
  split; assumption.
Defined.

(** C9 at the second page of two items out of six. *)
Lemma C9_witness :
  Routes.items
    (data (fst (@Routes.run_listing sample_platform sample_ordering
                  (list_uploads (Some 2) (Some 2)) six_uploads))) <= 2.
Proof.
  exact (proj1 (@C9_page_within_limit_and_total_is_ceiling sample_platform
                  sample_ordering (list_uploads (Some 2) (Some 2)) six_uploads
                  (mkPagination 2 3 2 6 true true) eq_refl eq_refl)).
Defined.

(** C9 as stated fails: page -1 with limit -5 over six items is answered
    with a page whose number is the reported total, and -1 times -5 is less
    than six. *)
Lemma C9_counterexample :
  let result :=
    @Routes.run_listing sample_platform sample_ordering
      (list_uploads (Some (-1)) (Some (-5))) six_uploads in
  pagination (fst result) = Some (mkPagination (-1) (-1) (-5) 6 false false)
  /\ (-1) * (-5) < 6
  /\ Routes.items (data (fst result)) > -5.
Proof. vm_compute. repeat split. Qed.

(** C10 at the sample call. *)
Lemma C10_witness :
  audioFiles
    (snd (@TranscriptController.transcribeAudio sample_platform sample_ordering sample_config
            transcribe_env (STTService.Ok sample_answer) audio_id JUndefined
            transcribed_world))
  = audioFiles transcribed_world.
Proof.
  exact (proj1 (proj2
           (@C10_conflict_leaves_audio_file_untouched sample_platform
              sample_ordering sample_config transcribe_env (STTService.Ok sample_answer) audio_id
              JUndefined transcribed_world eq_refl))).
Defined.

(** ** The further properties at the sample requests *)

(** X23 from the empty store: an upload, its transcription, a status update and
    the deletion of the upload. *)
Lemma requests_keep_the_schemas_witness :
  @schemas_respected sample_platform
    (@Routes.serve sample_platform sample_ordering
       [Routes.Upload sample_config upload_env [sample_upload];
        Routes.ById (Routes.TranscribeAudio sample_config transcribe_env
                       (STTService.Ok sample_answer) JUndefined) audio_id;
        Routes.ById (Routes.UpdateStatus coach_env (JStr "failed")) audio_id;
        Routes.ById Routes.DeleteUpload audio_id]
       empty_world).
Proof.
  apply (@requests_keep_the_schemas sample_platform sample_ordering).
  repeat split; constructor.
Defined.

(** X2 at the sample upload. *)
Lemma upload_then_info_witness :
  statusCode
    (fst (@UploadController.getUploadInfo sample_ordering audio_id
            (snd (@UploadController.postUpload sample_ordering sample_config
                    upload_env [sample_upload] empty_world)))) = 200.
Proof.
  destruct (@upload_then_info sample_ordering sample_config upload_env
              sample_upload empty_world eq_refl eq_refl eq_refl eq_refl)
    as [a [Hinfo _]].
  change (newId upload_env) with audio_id in Hinfo.
  rewrite Hinfo. reflexivity.
Defined.

(** X3 at the sample upload, stored as [uploads/3f2b8c1e.WAV]. *)
Lemma stored_upload_has_a_supported_format_witness :
  UploadService.getUploadMiddleware sample_config upload_env [sample_upload]
    empty_world
  = (inr (Some stored_file),
     mkWorld [] [] [] [] [("uploads/3f2b8c1e.WAV", 16)] [])
  /\ STTService.refusal sample_config "uploads/3f2b8c1e.WAV" (Some 16) = None.
Proof.
  split; [reflexivity|].
  exact (proj2 (proj2
           (stored_upload_has_a_supported_format sample_config upload_env
              sample_upload stored_file empty_world
              (mkWorld [] [] [] [] [("uploads/3f2b8c1e.WAV", 16)] [])
              ltac:(discriminate) eq_refl eq_refl))
           eq_refl ltac:(vm_compute; discriminate)).
Defined.

(** X5 at the sample upload, once transcribed: the transcript stays. *)
Lemma deleteUpload_removes_record_and_file_only_witness :
  let result :=
    @UploadController.deleteUpload sample_ordering audio_id transcribed_world in
  audioFiles (snd result) = []
  /\ stat "uploads/3f2b8c1e.WAV" (snd result) = None
  /\ transcripts (snd result) = [sample_transcript].
Proof.
  destruct (@deleteUpload_removes_record_and_file_only sample_ordering audio_id
              transcribed_world completed_audio eq_refl eq_refl
              ltac:(constructor; [intros [] | constructor]))
    as [_ [Ha [Hf [_ [Ht _]]]]].
  cbv zeta. split; [rewrite Ha; reflexivity|].
  split; [exact Hf | rewrite Ht; reflexivity].
Defined.

(** X6 at the sample upload. *)
Lemma deleted_record_is_gone_witness :
  let after :=
    snd (@Routes.run_by_id sample_platform sample_ordering Routes.DeleteUpload
           audio_id transcribed_world) in
  statusCode (fst (@Routes.run_by_id sample_platform sample_ordering
                     Routes.GetUploadInfo audio_id after)) = 404
  /\ statusCode (fst (@Routes.run_by_id sample_platform sample_ordering
                        Routes.DeleteUpload audio_id after)) = 404.
Proof.
  exact (@deleted_record_is_gone sample_platform sample_ordering
           transcribed_world audio_id Routes.DeleteUpload Routes.GetUploadInfo
           ltac:(constructor; [intros [] | constructor])
           ltac:(constructor; [intros [] | constructor])
           ltac:(constructor)
           ltac:(constructor)
           (or_introl eq_refl) eq_refl).
Defined.

(** X9 at the sample call; the second request has no key, another language
    and a provider that is down, and is answered 409 all the same; the third
    one names a language that is not supported and is answered 400. *)
Lemma created_transcript_is_found_by_its_audio_file_witness :
  let result :=
    @TranscriptController.transcribeAudio sample_platform sample_ordering
      sample_config transcribe_env (STTService.Ok sample_answer) audio_id
      JUndefined uploaded_world in
  let again language :=
    fst (@TranscriptController.transcribeAudio sample_platform sample_ordering
           keyless_config analyze_env (STTService.Rejected "offline") audio_id
           language (snd result)) in
  statusCode
    (fst (@TranscriptController.getTranscriptByAudioFile sample_ordering audio_id
            (snd result))) = 200
  /\ statusCode (again (JStr "fr")) = 409
  /\ statusCode (again (JStr "xx")) = 400.
Proof.
  destruct (@created_transcript_is_found_by_its_audio_file sample_platform
              sample_ordering sample_config transcribe_env
              (STTService.Ok sample_answer) audio_id JUndefined uploaded_world
              eq_refl)
    as [t [a [_ [Hget [_ Hagain]]]]].
  pose proof (Hagain keyless_config analyze_env (STTService.Rejected "offline")
                (JStr "fr")) as H409.
  pose proof (Hagain keyless_config analyze_env (STTService.Rejected "offline")
                (JStr "xx")) as H400.
  cbv zeta in *. split; [rewrite Hget; reflexivity|].
  split; [rewrite H409; reflexivity | rewrite H400; reflexivity].
Defined.

(** X10 with the first of six uploads left [processing] and the second one
    transcribed. *)
Lemma no_audio_file_is_left_processing_witness :
  In stuck_audio
     (audioFiles
        (snd (@TranscriptController.transcribeAudio sample_platform sample_ordering
                sample_config transcribe_env (STTService.Ok sample_answer)
                "64b7f0c2a1d2e3f4a5b6c712" JUndefined stuck_world)))
  /\ In stuck_audio (audioFiles stuck_world).
Proof.
  assert (H : In stuck_audio
                (audioFiles
                   (snd (@TranscriptController.transcribeAudio sample_platform
                           sample_ordering sample_config transcribe_env
                           (STTService.Ok sample_answer)
                           "64b7f0c2a1d2e3f4a5b6c712" JUndefined stuck_world))))
    by (vm_compute; left; reflexivity).
  split; [exact H|].
  exact (@no_audio_file_is_left_processing sample_platform sample_ordering
           sample_config transcribe_env (STTService.Ok sample_answer)
           "64b7f0c2a1d2e3f4a5b6c712" JUndefined stuck_world stuck_audio
           H eq_refl).
Defined.

(** X11 at a recording of thirty megabytes. *)
Lemma file_over_the_provider_limit_is_never_transcribed_witness :
  let result :=
    @TranscriptController.transcribeAudio sample_platform sample_ordering
      sample_config transcribe_env (STTService.Ok sample_answer) audio_id
      JUndefined long_recording_world in
  error (fst result)
  = Some "Transcription failed: File size 30MB exceeds OpenAI limit of 25MB"
  /\ transcripts (snd result) = [].
Proof.
  destruct (@file_over_the_provider_limit_is_never_transcribed sample_platform
              sample_ordering sample_config transcribe_env
              (STTService.Ok sample_answer) audio_id JUndefined "en"
              long_recording_world long_recording (30 * 1024 * 1024)
              eq_refl eq_refl eq_refl eq_refl eq_refl eq_refl eq_refl)
    as [Hanswer [Hnone _]].
  cbv zeta. split; [rewrite Hanswer; reflexivity | exact Hnone].
Defined.

(** X12 at the sample analysis request. *)
Lemma without_a_key_no_stage_creates_witness :
  let result :=
    @Routes.run_create sample_platform sample_ordering keyless_config analyze_env
      (Routes.Analyze (inr sample_analysis) transcript_id) transcribed_world in
  In (statusCode (fst result)) [400; 404; 409; 500]
  /\ analyses (snd result) = [].
Proof.
  destruct (@without_a_key_no_stage_creates sample_platform sample_ordering
              keyless_config analyze_env
              (Routes.Analyze (inr sample_analysis) transcript_id)
              transcribed_world eq_refl)
    as [Hcode [_ [Hnone _]]].
  cbv zeta. split; [exact Hcode | exact Hnone].
Defined.

(** X13 at the sample transcript, its audio file deleted. *)
Lemma transcript_without_audio_file_is_never_analysed_witness :
  let result :=
    @AnalysisController.analyzeTranscript sample_platform sample_ordering
      sample_config analyze_env (inr sample_analysis) transcript_id
      orphaned_world in
  statusCode (fst result) = 500
  /\ error (fst result) = Some "Cannot read properties of null (reading '_id')"
  /\ same_state orphaned_world (snd result).
Proof.
  destruct (@transcript_without_audio_file_is_never_analysed sample_platform
              sample_ordering sample_config analyze_env (inr sample_analysis)
              transcript_id orphaned_world sample_transcript
              eq_refl eq_refl eq_refl)
    as [_ [Hsame Hnew]].
  destruct (Hnew eq_refl) as [Hcode Herror].
  cbv zeta. split; [exact Hcode|].
  split; [exact (Herror _ eq_refl) | exact Hsame].
Defined.

(** X14 at the sample analysis, its audio file deleted. *)
Lemma analysis_without_audio_file_is_never_coached_witness :
  let result :=
    @CoachingController.generateCoachingPlan sample_platform sample_ordering
      sample_config coach_env (inr (plan_with 80 "good")) analysis_id
      JUndefined orphaned_analysis_world in
  statusCode (fst result) = 500
  /\ same_state orphaned_analysis_world (snd result).
Proof.
  destruct (@analysis_without_audio_file_is_never_coached sample_platform
              sample_ordering sample_config coach_env
              (inr (plan_with 80 "good")) analysis_id JUndefined
              orphaned_analysis_world stored_analysis
              eq_refl eq_refl eq_refl eq_refl)
    as [_ [Hsame Hnew]].
  cbv zeta. split; [exact (proj1 (Hnew eq_refl)) | exact Hsame].
Defined.

(** X15 at the sample call. *)
Lemma created_analysis_is_found_by_its_transcript_witness :
  let result :=
    @AnalysisController.analyzeTranscript sample_platform sample_ordering
      sample_config analyze_env (inr sample_analysis) transcript_id
      transcribed_world in
  statusCode
    (fst (@AnalysisController.getAnalysisByTranscript sample_platform
            sample_ordering transcript_id (snd result))) = 200
  /\ statusCode
       (fst (@AnalysisController.analyzeTranscript sample_platform sample_ordering
               sample_config coach_env (inr sample_analysis) transcript_id
               (snd result))) = 409.
Proof.
  destruct (@created_analysis_is_found_by_its_transcript sample_platform
              sample_ordering sample_config analyze_env (inr sample_analysis)
              transcript_id transcribed_world eq_refl)
    as [n [t [a [_ [Hget [_ [_ Hagain]]]]]]].
  cbv zeta. split; [rewrite Hget; reflexivity | rewrite Hagain; reflexivity].
Defined.

(** X16 at the sample call: the request names [agent_042], the provider
    [agent_007]. *)
Lemma created_plan_is_found_by_its_analysis_witness :
  let result :=
    @CoachingController.generateCoachingPlan sample_platform sample_ordering
      sample_config coach_env (inr (plan_with 80 "good")) analysis_id
      (JStr "agent_042") analyzed_world in
  statusCode
    (fst (@CoachingController.getCoachingPlanByAnalysis sample_platform
            sample_ordering analysis_id (snd result))) = 200
  /\ statusCode
       (fst (@CoachingController.generateCoachingPlan sample_platform
               sample_ordering keyless_config analyze_env (inl "offline")
               analysis_id (JStr "agent_099") (snd result))) = 409
  /\ exists p, data (fst result) = Generated p
               /\ CoachingPlan.agentId p = JStr "agent_007".
Proof.
  destruct (@created_plan_is_found_by_its_analysis sample_platform
              sample_ordering sample_config coach_env
              (inr (plan_with 80 "good")) analysis_id (JStr "agent_042")
              analyzed_world eq_refl)
    as [p [r [n [a [Hcall [Hdata [_ [Hagent [Hget Hagain]]]]]]]]].
  pose proof (Hagain keyless_config analyze_env (inl "offline") (JStr "agent_099"))
    as H409.
  cbv zeta in *. split; [rewrite Hget; reflexivity|].
  split; [rewrite H409; reflexivity|].
  exists p. split; [exact Hdata|].
  injection Hcall as <-. apply Hagent. reflexivity.
Defined.

(** X18 at six uploads in pages of four. *)
Lemma pages_of_uploads_partition_the_matches_witness :
  let page k :=
    match data (fst (@UploadController.getUploads sample_ordering
                       (UploadController.mkQuery
                          (mkPaging (Some k) (Some 4) None None) None None)
                       six_uploads)) with
    | UploadList l => l
    | _ => []
    end in
  concat (map (fun k => page (Z.of_nat k)) (seq 1 2)) = audioFiles six_uploads.
Proof.
  destruct (@pages_of_uploads_partition_the_matches sample_ordering
              None None None None 4 six_uploads eq_refl
              (fun _ _ _ => eq_refl)) as [Htaken _].
  destruct (Htaken eq_refl) as [p [Hp [Hpages _]]].
  vm_compute in Hp. injection Hp as <-.
  exact Hpages.
Defined.

(** X19 at the plan of the sample call. *)
Lemma agent_listing_holds_only_that_agent_witness :
  (forall plan n a, In (plan, n, a) agent_page ->
     In plan (coachingPlans coached_world)
     /\ CoachingPlan.agentId plan = JStr "agent_007")
  /\ totalItems (mkPagination 1 1 10 1 false false)
     = Z.of_nat (List.length (coachingPlans coached_world)).
Proof.
  exact (@agent_listing_holds_only_that_agent sample_platform sample_ordering
           "agent_007" (mkPaging None None None None) coached_world agent_page
           (mkPagination 1 1 10 1 false false)
           (fun _ _ _ _ H => H) eq_refl eq_refl).
Defined.

(** X4 at [50MB], at a unit that is not in the table and at a unit in small
    letters. *)
Lemma parseFileSize_reads_number_and_unit_witness :
  UploadService.parseFileSize "50MB" = Some (50 * (1024 * 1024))
  /\ UploadService.parseFileSize "2TB" = Some (2 * (1024 * 1024))
  /\ UploadService.parseFileSize "50mb" = Some (50 * 1024 * 1024).
Proof.
  split; [|split].
  - exact (proj2 (proj1 (proj2 (proj2
             (proj1 (parseFileSize_reads_number_and_unit 50 "MB"
                       ltac:(discriminate))
                    eq_refl (conj (le_S _ _ (le_n 1)) (le_n 2)))))
             eq_refl) eq_refl).
  - refine (proj2 (proj2 (proj2 (proj2 (proj2
             (proj1 (parseFileSize_reads_number_and_unit 2 "TB"
                       ltac:(discriminate))
                    eq_refl (conj (le_S _ _ (le_n 1)) (le_n 2))))))
             _) eq_refl).
    cbn. intuition discriminate.
  - exact (proj2 (proj2 (parseFileSize_reads_number_and_unit 50 "mb"
                           ltac:(discriminate)))
             eq_refl eq_refl).
Defined.

(** ** The built-ins at a few inputs *)

Example extname_upper : extname "call.WAV" = ".WAV".
Proof. reflexivity. Qed.

Example extname_directory : extname "a/b.c/notes" = "".
Proof. reflexivity. Qed.

Example extname_hidden : extname ".bashrc" = "".
Proof. reflexivity. Qed.

Example extname_last_dot : extname "x.tar.gz" = ".gz".
Proof. reflexivity. Qed.

Example extname_parent : extname "dir/.." = "".
Proof. reflexivity. Qed.

Example extname_trailing_slash : extname "rec.mp3/" = ".mp3".
Proof. reflexivity. Qed.

Example objectId_shape :
  matchesObjectId "64b7f0c2a1d2e3f4a5b6c7d8" = true
  /\ matchesObjectId "abc" = false
  /\ matchesObjectId "64b7f0c2a1d2e3f4a5b6c7dg" = false.
Proof. repeat split. Qed.

Example ceiling_of_six_over_four : ceil_div 6 4 = 2 /\ ceil_div 8 4 = 2 /\ ceil_div 0 4 = 0.
Proof. repeat split. Qed.

Example null_score_is_refused_by_the_schema :
  let r := JObj [("sentiment", JObj [("overall", JStr "positive"); ("score", JNull)]);
                 ("summary", JStr "A short call.")] in
  statusCode
    (fst (@AnalysisController.analyzeTranscript sample_platform sample_ordering sample_config
            analyze_env (inr r) transcript_id transcribed_world)) = 500.
Proof. reflexivity. Qed.

(** ** The checks of the speech-to-text service at a few inputs *)

Example decimal_digits :
  showZ 503 = "503" /\ showZ 0 = "0"
  /\ round_div (30 * 1024 * 1024) (1024 * 1024) = 30.
Proof. repeat split. Qed.

Example first_dot_removed :
  remove_first_dot ".wav" = "wav" /\ remove_first_dot "" = ""
  /\ remove_first_dot ".tar.gz" = "tar.gz".
Proof. repeat split. Qed.

(** Every extension the upload filter lets through is a format the
    service takes. *)
Lemma uploaded_extensions_are_supported :
  forallb (fun ext => includes STTService.supportedFormats (remove_first_dot ext))
          UploadService.allowedExtensions = true.
Proof. reflexivity. Qed.

Example large_file_is_refused_by_the_service :
  STTService.refusal sample_config "uploads/a.wav" (Some (30 * 1024 * 1024))
  = Some "File size 30MB exceeds OpenAI limit of 25MB".
Proof. reflexivity. Qed.

Example api_error_text :
  STTService.providerError (STTService.NotOk 429 "Too Many Requests" None)
  = Some "OpenAI API Error (429): Too Many Requests".
Proof. reflexivity. Qed.

(** Without a key the service throws before anything is sent, and the
    handler treats it as any other failure of the transcription. *)
Example missing_key_is_a_failure :
  let cfg := mkConfig (50 * 1024 * 1024) "uploads" "development"
                      (Some "mock_openai_key") in
  let result :=
    @TranscriptController.transcribeAudio sample_platform sample_ordering cfg
      transcribe_env (STTService.Ok sample_answer) audio_id JUndefined
      uploaded_world in
  error (fst result)
  = Some ("Transcription failed: " ++ keyMissing)
  /\ statusCode (fst result) = 500
  /\ transcripts (snd result) = []
  /\ map AudioFile.status (audioFiles (snd result)) = ["failed"].
Proof. vm_compute. repeat split. Qed.

(** ** The handlers at the edges of what they take *)

(** A file of exactly the limit is refused; one byte more of room and it is
    stored. *)
Example file_at_the_limit_is_refused :
  let upload limit :=
    @UploadController.postUpload sample_ordering
      (mkConfig limit "uploads" "development" None) upload_env [sample_upload]
      empty_world in
  Z.of_nat (String.length (UploadService.content sample_upload)) = 16
  /\ fst (upload 16)
     = fail 413 "File too large"
            "The uploaded file exceeds the maximum allowed size"
  /\ snd (upload 16) = empty_world
  /\ statusCode (fst (upload 17)) = 201.
Proof. vm_compute. repeat split. Qed.

(** A second file part is an error that the handler of the application has
    no case for; the first file, already written, is removed. *)
Example second_file_part_is_refused :
  @UploadController.postUpload sample_ordering sample_config upload_env
    [sample_upload; sample_upload] empty_world
  = (fail 500 "Too many files" "Too many files", empty_world).
Proof. reflexivity. Qed.

Example file_in_another_field_is_refused :
  statusCode
    (fst (@UploadController.postUpload sample_ordering sample_config upload_env
            [UploadService.mkUpload "file" "call.wav" "audio/wav" "RIFF"]
            empty_world)) = 400.
Proof. reflexivity. Qed.

Example size_beyond_the_safe_integers_is_rounded :
  UploadService.parseFileSize "9007199254740993B" = Some 9007199254740992
  /\ UploadService.parseFileSize "9007199254740995B" = Some 9007199254740996
  /\ UploadService.parseFileSize "10MB" = Some 10485760.
Proof. vm_compute. repeat split. Qed.

Example joined_paths :
  path_join "uploads/" "a.wav" = "uploads/a.wav"
  /\ path_join "./uploads" "a.wav" = "uploads/a.wav"
  /\ path_join "/srv/../data//in" "a.wav" = "/data/in/a.wav"
  /\ path_join "" "a.wav" = "a.wav"
  /\ normalize "" = "." /\ normalize "/.." = "/" /\ normalize "../x/" = "../x/".
Proof. vm_compute. repeat split. Qed.

Example unsafe_segment_start_is_refused :
  let update start :=
    @TranscriptController.updateTranscript sample_ordering transcribe_env
      transcript_id (JStr "Hello")
      (Some [Segment.mk "Hello" start 1%Q None]) transcribed_world in
  fst (update (inject_Z (10 ^ 16)))
  = fail 400 "Validation error" "segments.start must be a safe number"
  /\ snd (update (inject_Z (10 ^ 16))) = transcribed_world
  /\ statusCode (fst (update 0%Q)) = 200.
Proof. vm_compute. repeat split. Qed.

(** The agent of a plan is kept as text, whatever the provider answered. *)
Example numeric_agent_is_kept_as_text :
  let plan := JObj [("agentId", JNum 7);
                    ("overallPerformance",
                     JObj [("score", JNum 80); ("level", JStr "good")]);
                    ("customNotes", JStr "Keep the greeting.")] in
  map CoachingPlan.agentId
      (coachingPlans
         (snd (@CoachingController.generateCoachingPlan sample_platform
                 sample_ordering sample_config coach_env (inr plan) analysis_id
                 (JStr "agent_042") analyzed_world)))
  = [JStr "7"].
Proof. reflexivity. Qed.

(** A sort key that the store does not take fails the whole request. *)
Example refused_sort_key_fails_the_list :
  let answer sortBy :=
    statusCode
      (fst (@Routes.run_listing sample_platform sample_ordering
              (Routes.GetUploads
                 (UploadController.mkQuery (mkPaging None None (Some sortBy) None)
                    None None))
              six_uploads)) in
  answer "$size" = 500 /\ answer "a..b" = 500 /\ answer "size" = 200.
Proof. vm_compute. repeat split. Qed.
